(** * SX127X LoRa transceiver driver (spi-sx1278.c): a shallow embedding

    The driver talks to the chip through two bus primitives,
    [sx127X_read_reg] and [sx127X_write_reg]; everything else is built on
    them.  The embedding keeps that shape: the chip is a value of type
    [spi_device], the driver functions are computations in a state monad over
    it, and fixed-width C integers are integers of [Z] with the wrap-around
    written out. *)

From Stdlib Require Import ZArith List Lia Bool.
Import ListNotations.
Local Open Scope Z_scope.

(** ** Fixed-width integers *)

Module CInt.

(** Conversion to [uint8_t], [uint32_t], [uint64_t]. *)
Definition u8 (x : Z) : Z := x mod 256.
Definition u32 (x : Z) : Z := x mod 2 ^ 32.
Definition u64 (x : Z) : Z := x mod 2 ^ 64.

(** Conversion to [int8_t] (two's complement). *)
Definition s8 (x : Z) : Z :=
  let r := x mod 256 in if r <? 128 then r else r - 256.

(** [a[i]] on a C array of known length: [None] stands for an access
    outside the array, which C leaves undefined. *)
Definition array_get {A : Type} (a : list A) (i : Z) : option A :=
  if i <? 0 then None else nth_error a (Z.to_nat i).

End CInt.
Export CInt.

(** ** The constants of sx1278.h

    The header is not part of the sources at hand, so the register map, the
    operating modes and the IRQ flag masks it defines are taken as a
    parameter of the development. *)

Record sx1278_h : Type := {
  SX127X_REG_FIFO : Z;
  SX127X_REG_OP_MODE : Z;
  SX127X_REG_FRF_MSB : Z;
  SX127X_REG_PA_CONFIG : Z;
  SX127X_REG_LNA : Z;
  SX127X_REG_FIFO_ADDR_PTR : Z;
  SX127X_REG_FIFO_TX_BASE_ADDR : Z;
  SX127X_REG_FIFO_RX_BASE_ADDR : Z;
  SX127X_REG_FIFO_RX_CURRENT_ADDR : Z;
  SX127X_REG_IRQ_FLAGS : Z;
  SX127X_REG_RX_NB_BYTES : Z;
  SX127X_REG_MODEM_CONFIG1 : Z;
  SX127X_REG_MODEM_CONFIG2 : Z;
  SX127X_REG_PREAMBLE_MSB : Z;
  SX127X_REG_PAYLOAD_LENGTH : Z;
  SX127X_SLEEP_MODE : Z;
  SX127X_STANDBY_MODE : Z;
  SX127X_TX_MODE : Z;
  SX127X_RXCONTINUOUS_MODE : Z;
  SX127X_FLAG_RXTIMEOUT : Z;
  SX127X_FLAG_RXDONE : Z;
  SX127X_FLAG_PAYLOADCRCERROR : Z;
  SX127X_FLAG_TXDONE : Z
}.

(** The values the SX1276/77/78/79 data sheet gives; used for the concrete
    runs below. *)
Definition sx1278_datasheet : sx1278_h := {|
  SX127X_REG_FIFO := 0x00;
  SX127X_REG_OP_MODE := 0x01;
  SX127X_REG_FRF_MSB := 0x06;
  SX127X_REG_PA_CONFIG := 0x09;
  SX127X_REG_LNA := 0x0C;
  SX127X_REG_FIFO_ADDR_PTR := 0x0D;
  SX127X_REG_FIFO_TX_BASE_ADDR := 0x0E;
  SX127X_REG_FIFO_RX_BASE_ADDR := 0x0F;
  SX127X_REG_FIFO_RX_CURRENT_ADDR := 0x10;
  SX127X_REG_IRQ_FLAGS := 0x12;
  SX127X_REG_RX_NB_BYTES := 0x13;
  SX127X_REG_MODEM_CONFIG1 := 0x1D;
  SX127X_REG_MODEM_CONFIG2 := 0x1E;
  SX127X_REG_PREAMBLE_MSB := 0x20;
  SX127X_REG_PAYLOAD_LENGTH := 0x22;
  SX127X_SLEEP_MODE := 0x00;
  SX127X_STANDBY_MODE := 0x01;
  SX127X_TX_MODE := 0x03;
  SX127X_RXCONTINUOUS_MODE := 0x05;
  SX127X_FLAG_RXTIMEOUT := 0x80;
  SX127X_FLAG_RXDONE := 0x40;
  SX127X_FLAG_PAYLOADCRCERROR := 0x20;
  SX127X_FLAG_TXDONE := 0x08
|}.

(** Linux error numbers (asm-generic/errno.h). *)
Definition ENODATA : Z := 61.
Definition EBADMSG : Z := 74.

(** ** The chip behind the bus *)

(** What the driver does to the outside world, most recent first. *)
Inductive event : Type :=
| EvRead (adr : Z) (len : nat)
| EvWrite (adr : Z) (buf : list Z)
| EvSleep (ms : Z).

(** The chip: its register file, the 256-byte FIFO memory, the IRQ
    conditions the radio is going to raise (one entry is taken each time the
    flags register is read: the bits that were raised since the previous
    read), and the log of what the driver did. *)
Record spi_device : Type := {
  regs : Z -> Z;
  fifo : Z -> Z;
  irq_raise : list Z;
  trace : list event
}.

Definition upd (f : Z -> Z) (a v : Z) : Z -> Z :=
  fun x => if x =? a then v else f x.

(** Total milliseconds slept in a log. *)
Fixpoint slept (t : list event) : Z :=
  match t with
  | [] => 0
  | EvSleep ms :: t' => ms + slept t'
  | _ :: t' => slept t'
  end.

(** The writes of a log, most recent first. *)
Fixpoint writes (t : list event) : list (Z * list Z) :=
  match t with
  | [] => []
  | EvWrite a b :: t' => (a, b) :: writes t'
  | _ :: t' => writes t'
  end.

(** ** A state monad over the chip *)

Definition M (A : Type) : Type := spi_device -> A * spi_device.

Definition ret {A : Type} (a : A) : M A := fun d => (a, d).

Definition bind {A B : Type} (m : M A) (k : A -> M B) : M B :=
  fun d => let (a, d') := m d in k a d'.

Declare Scope drv_scope.
Delimit Scope drv_scope with drv.
Notation "x <- m ;; k" := (bind m (fun x => k))
  (at level 61, m at next level, right associativity) : drv_scope.
Notation "m ;; k" := (bind m (fun _ => k))
  (at level 61, right associativity) : drv_scope.
Local Open Scope drv_scope.

Definition log (e : event) : M unit :=
  fun d => (tt, {| regs := regs d; fifo := fifo d;
                   irq_raise := irq_raise d; trace := e :: trace d |}).

(** [msleep(ms)] *)
Definition msleep (ms : Z) : M unit := log (EvSleep ms).

Section Driver.

Variable h : sx1278_h.

(** *** Chip side of a transfer *)

(** Modelled from the spec: the chip's answer to a one-byte read.  The
    hardware is no code of the driver; its behaviour follows sections 3 and
    4.4 of the specification.  An ordinary register returns the byte it
    stores; the FIFO register returns the FIFO memory at the address
    pointer, which then moves on by one; the IRQ flags register first takes
    up the conditions the radio raised since the previous read. *)
Definition chip_read1 (a : Z) : M Z := fun d =>
  if a =? SX127X_REG_FIFO h then
    let ptr := u8 (regs d (SX127X_REG_FIFO_ADDR_PTR h)) in
    (u8 (fifo d ptr),
     {| regs := upd (regs d) (SX127X_REG_FIFO_ADDR_PTR h) (u8 (ptr + 1));
        fifo := fifo d; irq_raise := irq_raise d; trace := trace d |})
  else if a =? SX127X_REG_IRQ_FLAGS h then
    let v := u8 (Z.lor (regs d a) (hd 0 (irq_raise d))) in
    (v, {| regs := upd (regs d) a v; fifo := fifo d;
           irq_raise := tl (irq_raise d); trace := trace d |})
  else (u8 (regs d a), d).

(** Modelled from the spec: the chip's answer to a one-byte write.  An
    ordinary register stores the byte; the IRQ flags register is
    write-1-to-clear (a 1 clears that condition, a 0 leaves it); the FIFO
    register stores into the FIFO memory at the address pointer. *)
Definition chip_write1 (a v : Z) : M unit := fun d =>
  if a =? SX127X_REG_FIFO h then
    let ptr := u8 (regs d (SX127X_REG_FIFO_ADDR_PTR h)) in
    (tt, {| regs := upd (regs d) (SX127X_REG_FIFO_ADDR_PTR h) (u8 (ptr + 1));
            fifo := upd (fifo d) ptr (u8 v);
            irq_raise := irq_raise d; trace := trace d |})
  else if a =? SX127X_REG_IRQ_FLAGS h then
    (tt, {| regs := upd (regs d) a (Z.ldiff (u8 (regs d a)) (u8 v));
            fifo := fifo d; irq_raise := irq_raise d; trace := trace d |})
  else
    (tt, {| regs := upd (regs d) a (u8 v); fifo := fifo d;
            irq_raise := irq_raise d; trace := trace d |}).

(** A burst access walks up the register map, except on the FIFO
    register. *)
Definition next_adr (a : Z) : Z :=
  if a =? SX127X_REG_FIFO h then a else a + 1.

Fixpoint chip_read (a : Z) (len : nat) : M (list Z) :=
  match len with
  | O => ret []
  | S n => b <- chip_read1 a ;; bs <- chip_read (next_adr a) n ;; ret (b :: bs)
  end.

Fixpoint chip_write (a : Z) (buf : list Z) : M unit :=
  match buf with
  | [] => ret tt
  | b :: bs => chip_write1 a b ;; chip_write (next_adr a) bs
  end.

(** *** SPI functions

    The bus itself is taken to work: [spi] is not NULL and [spi_sync]
    succeeds, so [sx127X_sync] returns the [actual_length] of the message,
    one address byte plus the buffer. *)

(** [sx127X_read_reg]: returns the status and the buffer read. *)
Definition sx127X_read_reg (adr : Z) (len : nat) : M (Z * list Z) :=
  log (EvRead adr len) ;;
  buf <- chip_read (Z.land adr 0x7F) len ;;
  let status := 1 + Z.of_nat len in
  let status := if status >? 0 then status - 1 else status in
  ret (status, buf).

(** [sx127X_write_reg]: the address goes out with its top bit set, which
    the chip takes as the write flag. *)
Definition sx127X_write_reg (adr : Z) (buf : list Z) : M Z :=
  log (EvWrite adr buf) ;;
  let adr := u8 (Z.lor adr 0x80) in
  chip_write (Z.land adr 0x7F) buf ;;
  let status := 1 + Z.of_nat (length buf) in
  let status := if status >? 0 then status - 1 else status in
  ret status.

(** Reading a single byte into a [uint8_t] variable. *)
Definition read_u8 (adr : Z) : M Z :=
  r <- sx127X_read_reg adr 1 ;; ret (hd 0 (snd r)).

(** *** LoRa functions *)

Definition sx127X_getMode : M Z :=
  read_u8 (SX127X_REG_OP_MODE h).

Definition sx127X_setState (st : Z) : M unit :=
  op_mode <- sx127X_getMode ;;
  let op_mode := u8 (Z.lor (Z.land op_mode 0xF8) (Z.land st 0x07)) in
  sx127X_write_reg (SX127X_REG_OP_MODE h) [op_mode] ;;
  ret tt.

Definition sx127X_getState : M Z :=
  op_mode <- sx127X_getMode ;;
  ret (u8 (Z.land op_mode 0x07)).

Definition __POW_2_19 : Z := 0x80000.

(** The loop [for (i = 2; i >= 0; i--)] of [sx127X_setLoRaFreq]: each round
    stores [frt % 256] in front of the bytes already stored and shifts
    [frt]. *)
Fixpoint freq_bytes (n : nat) (frt : Z) (buf : list Z) : list Z :=
  match n with
  | O => buf
  | S n' => freq_bytes n' (u32 (Z.shiftr frt 8)) (u8 (frt mod 256) :: buf)
  end.

(** The three bytes [sx127X_setLoRaFreq] computes for [fr].  The crystal
    frequency, [F_XOSC] or the device tree's clock-frequency, is the
    argument [f_xosc]; [do_div] is the unsigned 64 by 32 bit division, with
    a divisor that is not zero. *)
Definition frf_buf (f_xosc fr : Z) : list Z :=
  let frt64 := u64 (u64 fr * u64 __POW_2_19) in
  let frt64 := frt64 / f_xosc in
  let frt := u32 frt64 in
  freq_bytes 3 frt [].

Definition sx127X_setLoRaFreq (f_xosc fr : Z) : M unit :=
  sx127X_write_reg (SX127X_REG_FRF_MSB h) (frf_buf f_xosc fr) ;;
  ret tt.

(** The byte [pac] that [sx127X_setLoRaPower] computes for [pout]. *)
Definition pa_config (pout : Z) : Z :=
  let '(boost, pmax, outputPower) :=
    if pout >? 15 then (1, 7, u8 (pout - 2))
    else if pout <? 0 then (0, 2, u8 (3 + pout))
    else (0, 7, u8 pout) in
  u8 (Z.lor (Z.lor (Z.shiftl boost 7) (Z.shiftl pmax 4)) outputPower).

Definition sx127X_setLoRaPower (pout : Z) : M unit :=
  sx127X_write_reg (SX127X_REG_PA_CONFIG h) [pa_config pout] ;;
  ret tt.

(** The power [sx127X_getLoRaPower] computes from the byte [pac]; C's [/]
    on [int32_t] truncates towards zero: [Z.quot]. *)
Definition pa_power (pac : Z) : Z :=
  let boost := u8 (Z.shiftr (Z.land pac 0x80) 7) in
  let outputPower := Z.land pac 0x0F in
  if negb (boost =? 0) then
    2 + outputPower
  else
    let pmax := 108 + 6 * Z.shiftr (Z.land pac 0x70) 4 in
    Z.quot (pmax - (150 - outputPower * 10)) 10.

Definition sx127X_getLoRaPower : M Z :=
  pac <- read_u8 (SX127X_REG_PA_CONFIG h) ;;
  ret (pa_power pac).

Definition lna_gain : list Z := [0; -6; -12; -24; -26; -48].

(** [g = lnacf >> 5; i = g - 1; db = lna_gain[i]] with [g], [i] of type
    [int8_t].  Nothing guards the index. *)
Definition sx127X_getLoRaLNA : M (option Z) :=
  lnacf <- read_u8 (SX127X_REG_LNA h) ;;
  let g := s8 (Z.shiftr lnacf 5) in
  let i := s8 (g - 1) in
  ret (array_get lna_gain i).

Definition sx127X_getLoRaAllFlag : M Z :=
  read_u8 (SX127X_REG_IRQ_FLAGS h).

Definition sx127X_getLoRaFlag (f : Z) : M Z :=
  flags <- sx127X_getLoRaAllFlag ;; ret (Z.land flags f).

Definition sx127X_clearLoRaFlag (f : Z) : M unit :=
  flag <- sx127X_getLoRaAllFlag ;;
  let flag := u8 (Z.lor flag (u8 f)) in
  sx127X_write_reg (SX127X_REG_IRQ_FLAGS h) [flag] ;;
  ret tt.

Definition sx127X_clearLoRaAllFlag : M unit :=
  sx127X_clearLoRaFlag 0xFF.

(** The loop [for (sf = 6; sf < 12; sf++)] of [sx127X_setLoRaSPRFactor],
    with [n] rounds left. *)
Fixpoint spr_scan (n : nat) (sf c_s : Z) : Z :=
  match n with
  | O => sf
  | S n' => if c_s =? u32 (Z.shiftl 1 sf) then sf
            else spr_scan n' (u8 (sf + 1)) c_s
  end.

Definition sx127X_setLoRaSPRFactor (c_s : Z) : M unit :=
  let sf := spr_scan 6 6 c_s in
  mcf2 <- read_u8 (SX127X_REG_MODEM_CONFIG2 h) ;;
  let mcf2 := u8 (Z.lor (Z.land mcf2 0x0F) (Z.shiftl sf 4)) in
  sx127X_write_reg (SX127X_REG_MODEM_CONFIG2 h) [mcf2] ;;
  ret tt.

Definition sx127X_getLoRaSPRFactor : M Z :=
  sf <- read_u8 (SX127X_REG_MODEM_CONFIG2 h) ;;
  let sf := u8 (Z.shiftr sf 4) in
  ret (u32 (Z.shiftl 1 sf)).

Definition hz : list Z :=
  [7800; 10400; 15600; 20800; 31250; 41700; 62500; 125000; 250000; 500000].

(** The loop [for (i = 0; i < 9; i++) if (hz[i] >= bw) break;] over the
    entries still to be looked at, [i] being the index of the first. *)
Fixpoint bw_scan (tbl : list Z) (i bw : Z) : Z :=
  match tbl with
  | [] => i
  | x :: tbl' => if x >=? bw then i else bw_scan tbl' (u8 (i + 1)) bw
  end.

Definition sx127X_setLoRaBW (bw : Z) : M unit :=
  let i := bw_scan (firstn 9 hz) 0 bw in
  mcf1 <- read_u8 (SX127X_REG_MODEM_CONFIG1 h) ;;
  let mcf1 := u8 (Z.lor (Z.land mcf1 0x0F) (Z.shiftl i 4)) in
  sx127X_write_reg (SX127X_REG_MODEM_CONFIG1 h) [mcf1] ;;
  ret tt.

Definition sx127X_setLoRaCR (cr : Z) : M unit :=
  mcf1 <- read_u8 (SX127X_REG_MODEM_CONFIG1 h) ;;
  let mcf1 := u8 (Z.lor (Z.land mcf1 0x0E)
                        (Z.shiftl (Z.land cr 0xF - 4) 1)) in
  sx127X_write_reg (SX127X_REG_MODEM_CONFIG1 h) [mcf1] ;;
  ret tt.

Definition sx127X_getLoRaCR : M Z :=
  mcf1 <- read_u8 (SX127X_REG_MODEM_CONFIG1 h) ;;
  ret (u8 (0x40 + Z.shiftr (Z.land mcf1 0x0E) 1 + 4)).

Definition sx127X_setLoRaImplicit (yesno : Z) : M unit :=
  mcf1 <- read_u8 (SX127X_REG_MODEM_CONFIG1 h) ;;
  let mcf1 := if negb (yesno =? 0) then u8 (Z.lor mcf1 0x01)
              else u8 (Z.land mcf1 0xFE) in
  sx127X_write_reg (SX127X_REG_MODEM_CONFIG1 h) [mcf1] ;;
  ret tt.

Definition sx127X_getLoRaPreambleLen : M Z :=
  r <- sx127X_read_reg (SX127X_REG_PREAMBLE_MSB h) 2 ;;
  let pl := snd r in
  ret (u32 (nth 0 pl 0 * 256 + nth 1 pl 0)).

(** [sx127X_readLoRaData]: returns the count and the bytes read. *)
Definition sx127X_readLoRaData (len : Z) : M (Z * list Z) :=
  start_adr <- read_u8 (SX127X_REG_FIFO_RX_CURRENT_ADDR h) ;;
  sx127X_write_reg (SX127X_REG_FIFO_ADDR_PTR h) [start_adr] ;;
  blen <- read_u8 (SX127X_REG_RX_NB_BYTES h) ;;
  let len := if blen <? len then blen else len in
  sx127X_read_reg (SX127X_REG_FIFO h) (Z.to_nat len).

Definition SX127X_MAX_FIFO_LENGTH : Z := 0xFF.

Definition sx127X_sendLoRaData (buf : list Z) (len : Z) : M Z :=
  base_adr <- read_u8 (SX127X_REG_FIFO_TX_BASE_ADDR h) ;;
  sx127X_write_reg (SX127X_REG_FIFO_ADDR_PTR h) [base_adr] ;;
  let blen := u8 (if len <? SX127X_MAX_FIFO_LENGTH then len
                  else SX127X_MAX_FIFO_LENGTH) in
  c <- sx127X_write_reg (SX127X_REG_FIFO h) (firstn (Z.to_nat blen) buf) ;;
  let blen := u8 c in
  sx127X_write_reg (SX127X_REG_PAYLOAD_LENGTH h) [blen] ;;
  ret c.

(** *** LoRa SPI functions *)

(** The fields of [struct lora_struct] (lora.h) that the read and write
    paths use; [lora_device] is the chip the monad runs over, and
    [buf_lock] has no part in a single call. *)
Record lora_struct : Type := {
  rx_buf : list Z;
  tx_buf : list Z;
  tx_buflen : Z;
  bufmaxlen : Z
}.

(** The flags [loraspi_read] polls for. *)
Definition rx_flags : Z :=
  Z.lor (Z.lor (SX127X_FLAG_RXTIMEOUT h) (SX127X_FLAG_RXDONE h))
        (SX127X_FLAG_PAYLOADCRCERROR h).

(** The polling loop of [loraspi_read], with [n] rounds left; [flag] is
    what the variable holds when the loop ends. *)
Fixpoint rx_wait (n : nat) (flag : Z) : M Z :=
  match n with
  | O => ret flag
  | S n' =>
      flag <- sx127X_getLoRaFlag rx_flags ;;
      let flag := u8 flag in
      if flag =? 0 then msleep 20 ;; rx_wait n' flag
      else ret flag
  end.

(** The preparation at the head of [loraspi_read]. *)
Definition rx_prepare : M unit :=
  st <- sx127X_getState ;;
  if negb (st =? SX127X_RXCONTINUOUS_MODE h) then
    sx127X_setState (SX127X_STANDBY_MODE h) ;;
    sx127X_write_reg (SX127X_REG_FIFO_RX_BASE_ADDR h) [0x00] ;;
    sx127X_clearLoRaAllFlag ;;
    sx127X_setState (SX127X_RXCONTINUOUS_MODE h)
  else ret tt.

(** [loraspi_read]: returns [c], the session data and what
    [copy_to_user] hands to the caller. *)
Definition loraspi_read (lrdata : lora_struct) (size : Z)
  : M (Z * lora_struct * list Z) :=
  rx_prepare ;;
  flag <- rx_wait 250 0 ;;
  let c := if (flag =? 0) || negb (Z.land flag (SX127X_FLAG_RXTIMEOUT h) =? 0)
           then - ENODATA else 0 in
  crc <- sx127X_getLoRaFlag (SX127X_FLAG_PAYLOADCRCERROR h) ;;
  let c := if negb (crc =? 0) then - EBADMSG else c in
  res <- (if c =? 0 then
            let zeroed := repeat 0 (Z.to_nat (bufmaxlen lrdata)) in
            let size := if bufmaxlen lrdata <? size then bufmaxlen lrdata
                        else size in
            r <- sx127X_readLoRaData size ;;
            let c := fst r in
            let rx := snd r ++ skipn (length (snd r)) zeroed in
            let lr := {| rx_buf := rx; tx_buf := tx_buf lrdata;
                         tx_buflen := tx_buflen lrdata;
                         bufmaxlen := bufmaxlen lrdata |} in
            ret (c, lr, if c >? 0 then firstn (Z.to_nat c) rx else [])
          else ret (c, lrdata, [])) ;;
  sx127X_clearLoRaAllFlag ;;
  ret res.

(** The polling loop of [loraspi_write]: [timeout] rounds left, [c] the
    count to report. *)
Fixpoint tx_wait (timeout : nat) (c : Z) : M Z :=
  match timeout with
  | O => ret c
  | S t' =>
      flag <- sx127X_getLoRaFlag (SX127X_FLAG_TXDONE h) ;;
      let flag := u8 flag in
      if negb (flag =? 0) then ret c
      else if Z.of_nat timeout =? 1 then tx_wait t' 0
      else msleep 20 ;; tx_wait t' c
  end.

(** [loraspi_write]: [buf] is the caller's data, [size] its length and
    [status] what [copy_from_user] returns, the number of bytes it could
    not copy.  [tx_buf] holds [bufmaxlen] bytes, the length the [memset]
    clears, and [copy_from_user(lrdata->tx_buf, buf, size)] fills [size]
    bytes of it (what it cannot copy it sets to zero) with nothing
    comparing [size] with [bufmaxlen]: for a larger [size] the copy runs
    past the end of the buffer, which C leaves undefined, and the result
    is [None]. *)
Definition loraspi_write (lrdata : lora_struct) (buf : list Z)
    (size status : Z) : M (option (Z * lora_struct)) :=
  let copied := firstn (Z.to_nat (size - status)) buf in
  let tx := copied ++ skipn (length copied)
                            (repeat 0 (Z.to_nat (bufmaxlen lrdata))) in
  if bufmaxlen lrdata <? size then ret None
  else if status >=? size then
    ret (Some (0, {| rx_buf := rx_buf lrdata; tx_buf := tx;
                     tx_buflen := tx_buflen lrdata;
                     bufmaxlen := bufmaxlen lrdata |}))
  else
    let buflen := size - status in
    sx127X_setState (SX127X_STANDBY_MODE h) ;;
    sx127X_write_reg (SX127X_REG_FIFO_TX_BASE_ADDR h) [0x80] ;;
    c <- sx127X_sendLoRaData tx buflen ;;
    sx127X_clearLoRaFlag (SX127X_FLAG_TXDONE h) ;;
    c <- (if c >? 0 then
            sx127X_setState (SX127X_TX_MODE h) ;;
            p <- sx127X_getLoRaPreambleLen ;;
            let timeout := u32 ((c + p + 1) + 2) in
            tx_wait (Z.to_nat timeout) c
          else ret c) ;;
    sx127X_setState (SX127X_STANDBY_MODE h) ;;
    sx127X_setState (SX127X_RXCONTINUOUS_MODE h) ;;
    ret (Some (c, {| rx_buf := rx_buf lrdata; tx_buf := tx; tx_buflen := 0;
                     bufmaxlen := bufmaxlen lrdata |})).

Definition LORA_MAX_POWER : Z := 17.
Definition LORA_MIN_POWER : Z := -2.

(** [loraspi_setpower], [dbm] being the value copied from the caller. *)
Definition loraspi_setpower (dbm : Z) : M Z :=
  let dbm := if dbm >? LORA_MAX_POWER then LORA_MAX_POWER
             else if dbm <? LORA_MIN_POWER then LORA_MIN_POWER
             else dbm in
  sx127X_setLoRaPower dbm ;;
  ret 0.

(** [loraspi_getpower]: the value handed back to the caller. *)
Definition loraspi_getpower : M Z :=
  sx127X_getLoRaPower.

End Driver.

(** ** Register values of a chip state *)

(** The byte a register holds. *)
Definition reg (d : spi_device) (a : Z) : Z := u8 (regs d a).

(** A chip with the given register file, nothing in the FIFO, no pending
    radio event and an empty log. *)
Definition quiet_chip (r : Z -> Z) : spi_device :=
  {| regs := r; fifo := fun _ => 0; irq_raise := []; trace := [] |}.

(** An ordinary register: a bus address that is neither the FIFO nor the
    IRQ flags register. *)
Definition plain_reg (h : sx1278_h) (a : Z) : Prop :=
  0 <= a < 128 /\ a <> SX127X_REG_FIFO h /\ a <> SX127X_REG_IRQ_FLAGS h.

(** The flags register is a bus address of its own. *)
Definition irq_ok (h : sx1278_h) : Prop :=
  0 <= SX127X_REG_IRQ_FLAGS h < 128
  /\ SX127X_REG_IRQ_FLAGS h <> SX127X_REG_FIFO h.

(** The flags a read of the flags register sees: what the register holds
    together with what the radio raised since. *)
Definition irq_seen (h : sx1278_h) (d : spi_device) : Z :=
  u8 (Z.lor (regs d (SX127X_REG_IRQ_FLAGS h)) (hd 0 (irq_raise d))).

(** The chips-per-symbol values [sx127X_setLoRaSPRFactor] looks for. *)
Definition spr_supported : list Z := [64; 128; 256; 512; 1024; 2048].

(** The register value the specification asks of the frequency encoder:
    [fr * 2^19 / f_xosc] rounded to the nearest integer. *)
Definition frf_rounded (f_xosc fr : Z) : Z :=
  (2 * (fr * 2 ^ 19) + f_xosc) / (2 * f_xosc).

(** The value of three bytes, most significant first. *)
Definition be24 (buf : list Z) : Z :=
  nth 0 buf 0 * 65536 + nth 1 buf 0 * 256 + nth 2 buf 0.

(** Whether the TX-done bit is among the conditions [r] the radio raises. *)
Definition tx_done_in (h : sx1278_h) (r : Z) : bool :=
  negb (u8 (Z.land r (SX127X_FLAG_TXDONE h)) =? 0).

(** A computation that leaves the registers [X] alone, takes no radio event
    and does not sleep. *)
Definition stable {A : Type} (X : list Z) (m : M A) : Prop :=
  forall d,
    irq_raise (snd (m d)) = irq_raise d
    /\ slept (trace (snd (m d))) = slept (trace d)
    /\ forall x, In x X -> regs (snd (m d)) x = regs d x.

(** What the transmit path needs of the register map: the registers it
    goes through are ordinary ones, and the two preamble-length registers
    are none of those it writes. *)
Definition tx_header_ok (h : sx1278_h) : Prop :=
  irq_ok h
  /\ 0 <= SX127X_REG_FIFO h < 128
  /\ Forall (plain_reg h)
        [SX127X_REG_OP_MODE h; SX127X_REG_FIFO_TX_BASE_ADDR h;
         SX127X_REG_FIFO_ADDR_PTR h; SX127X_REG_PAYLOAD_LENGTH h;
         SX127X_REG_PREAMBLE_MSB h; SX127X_REG_PREAMBLE_MSB h + 1]
  /\ Forall (fun a => SX127X_REG_PREAMBLE_MSB h <> a
                      /\ SX127X_REG_PREAMBLE_MSB h + 1 <> a)
        [SX127X_REG_OP_MODE h; SX127X_REG_FIFO_TX_BASE_ADDR h;
         SX127X_REG_FIFO_ADDR_PTR h; SX127X_REG_PAYLOAD_LENGTH h].

(** ** The rest of the driver *)

(** The constants of sx1278.h that the functions below use on top of
    [sx1278_h]; a parameter as well. *)
Record sx1278_h_rest : Type := {
  SX127X_REG_VERSION : Z;
  SX127X_REG_MODEM_CONFIG3 : Z;
  SX127X_REG_PKT_SNR_VALUE : Z;
  SX127X_REG_PKT_RSSI_VALUE : Z;
  SX127X_REG_RSSI_VALUE : Z;
  SX127X_FSTX_MODE : Z;
  SX127X_FSRX_MODE : Z;
  SX127X_RXSINGLE_MODE : Z;
  SX127X_CAD_MODE : Z
}.

(** The data sheet's values. *)
Definition sx1278_datasheet_rest : sx1278_h_rest := {|
  SX127X_REG_VERSION := 0x42;
  SX127X_REG_MODEM_CONFIG3 := 0x26;
  SX127X_REG_PKT_SNR_VALUE := 0x19;
  SX127X_REG_PKT_RSSI_VALUE := 0x1A;
  SX127X_REG_RSSI_VALUE := 0x1B;
  SX127X_FSTX_MODE := 0x02;
  SX127X_FSRX_MODE := 0x04;
  SX127X_RXSINGLE_MODE := 0x06;
  SX127X_CAD_MODE := 0x07
|}.

(** The state numbers of lora.h, which is not among the sources either. *)
Record lora_h : Type := {
  LORA_STATE_SLEEP : Z;
  LORA_STATE_STANDBY : Z;
  LORA_STATE_TX : Z;
  LORA_STATE_RX : Z;
  LORA_STATE_CAD : Z
}.

Definition lora_h_sample : lora_h := {|
  LORA_STATE_SLEEP := 0;
  LORA_STATE_STANDBY := 1;
  LORA_STATE_TX := 2;
  LORA_STATE_RX := 3;
  LORA_STATE_CAD := 4
|}.

Definition ENODEV : Z := 19.

Section DriverRest.

Variable h : sx1278_h.
Variable r : sx1278_h_rest.
Variable l : lora_h.

Definition sx127X_readVersion : M Z :=
  res <- sx127X_read_reg h (SX127X_REG_VERSION r) 1 ;;
  let status := fst res in
  let v := hd 0 (snd res) in
  if (status =? 1) && (0 <? v) && (v <? 0xFF) then ret v
  else ret (- ENODEV).

(** [fr = frt * f_xosc / __POW_2_19] in [uint64_t], stored in a
    [uint32_t]; the loop [for (i = 0; i <= 2; i++)] is the fold. *)
Definition sx127X_getLoRaFreq (f_xosc : Z) : M Z :=
  res <- sx127X_read_reg h (SX127X_REG_FRF_MSB h) 3 ;;
  let status := fst res in
  if status <=? 0 then ret 0
  else
    let frt := fold_left (fun frt b => u64 (frt * 256 + b)) (snd res) 0 in
    ret (u32 (u64 (frt * f_xosc) / __POW_2_19)).

(** The loop [for (i = 0; i < 5; i++) if (lna_gain[i] <= db) break;] over
    the entries still to be looked at, [i] being the index of the first. *)
Fixpoint lna_scan (tbl : list Z) (i db : Z) : Z :=
  match tbl with
  | [] => i
  | x :: tbl' => if x <=? db then i else lna_scan tbl' (u8 (i + 1)) db
  end.

Definition sx127X_setLoRaLNA (db : Z) : M unit :=
  let i := lna_scan (firstn 5 lna_gain) 0 db in
  let g := u8 (i + 1) in
  lnacf <- read_u8 h (SX127X_REG_LNA h) ;;
  let lnacf := u8 (Z.lor (Z.land lnacf 0x1F) (Z.shiftl g 5)) in
  sx127X_write_reg h (SX127X_REG_LNA h) [lnacf] ;;
  ret tt.

Definition sx127X_setLoRaLNAAGC (yesno : Z) : M unit :=
  mcf3 <- read_u8 h (SX127X_REG_MODEM_CONFIG3 r) ;;
  let mcf3 := if negb (yesno =? 0) then u8 (Z.lor mcf3 0x04)
              else u8 (Z.land mcf3 (Z.lnot 0x04)) in
  sx127X_write_reg h (SX127X_REG_MODEM_CONFIG3 r) [mcf3] ;;
  ret tt.

(** [bw = mcf1 >> 4; return hz[bw];] with nothing guarding the index. *)
Definition sx127X_getLoRaBW : M (option Z) :=
  mcf1 <- read_u8 h (SX127X_REG_MODEM_CONFIG1 h) ;;
  let bw := u8 (Z.shiftr mcf1 4) in
  ret (array_get hz bw).

Definition sx127X_setLoRaRXByteTimeout (n : Z) : M unit :=
  let n := if n <? 1 then 1 else n in
  let n := if n >? 1023 then 1023 else n in
  mcf2 <- read_u8 h (SX127X_REG_MODEM_CONFIG2 h) ;;
  let buf1 := u8 (n mod 256) in
  let buf0 := u8 (Z.lor (Z.land mcf2 0xFC) (Z.shiftr n 8)) in
  sx127X_write_reg h (SX127X_REG_MODEM_CONFIG2 h) [buf0; buf1] ;;
  ret tt.

Definition sx127X_getLoRaRXByteTimeout : M Z :=
  res <- sx127X_read_reg h (SX127X_REG_MODEM_CONFIG2 h) 2 ;;
  let buf := snd res in
  ret (u32 (Z.land (nth 0 buf 0) 0x03 * 256 + nth 1 buf 0)).

(** [n = ms * sx127X_getLoRaBW(spi) / (sx127X_getLoRaSPRFactor(spi) * 1000)]
    in [uint32_t]; the two reads are taken left to right.  [None] when the
    bandwidth lookup leaves the table. *)
Definition sx127X_setLoRaRXTimeout (ms : Z) : M (option unit) :=
  obw <- sx127X_getLoRaBW ;;
  spr <- sx127X_getLoRaSPRFactor h ;;
  match obw with
  | None => ret None
  | Some bw =>
      let n := u32 (ms * bw) / u32 (spr * 1000) in
      sx127X_setLoRaRXByteTimeout n ;;
      ret (Some tt)
  end.

(** [ms = 1000 * sx127X_getLoRaRXByteTimeout(spi) *
    sx127X_getLoRaSPRFactor(spi) / sx127X_getLoRaBW(spi)] in [uint32_t]. *)
Definition sx127X_getLoRaRXTimeout : M (option Z) :=
  n <- sx127X_getLoRaRXByteTimeout ;;
  spr <- sx127X_getLoRaSPRFactor h ;;
  obw <- sx127X_getLoRaBW ;;
  match obw with
  | None => ret None
  | Some bw => ret (Some (u32 (u32 (1000 * n) * spr) / bw))
  end.

(** The byte is read into an [int8_t]; [/] truncates towards zero. *)
Definition sx127X_getLoRaLastPacketSNR : M Z :=
  b <- read_u8 h (SX127X_REG_PKT_SNR_VALUE r) ;;
  let snr := s8 b in
  ret (Z.quot snr 4).

Definition sx127X_getLoRaLastPacketRSSI : M Z :=
  m <- sx127X_getMode h ;;
  let lhf := u8 (Z.land m 0x08) in
  rssi <- read_u8 h (SX127X_REG_PKT_RSSI_VALUE r) ;;
  let dbm := if negb (lhf =? 0) then -164 + rssi else -157 + rssi in
  b <- read_u8 h (SX127X_REG_PKT_SNR_VALUE r) ;;
  let snr := s8 b in
  if snr <? 0 then ret (dbm + Z.quot snr 4) else ret dbm.

Definition sx127X_getLoRaRSSI : M Z :=
  m <- sx127X_getMode h ;;
  let lhf := u8 (Z.land m 0x08) in
  rssi <- read_u8 h (SX127X_REG_RSSI_VALUE r) ;;
  ret (if negb (lhf =? 0) then -164 + rssi else -157 + rssi).

Definition sx127X_setLoRaPreambleLen (len : Z) : M unit :=
  let pl1 := u8 (len mod 256) in
  let pl0 := u8 (Z.shiftr len 8 mod 256) in
  sx127X_write_reg h (SX127X_REG_PREAMBLE_MSB h) [pl0; pl1] ;;
  ret tt.

Definition sx127X_setLoRaCRC (yesno : Z) : M unit :=
  mcf2 <- read_u8 h (SX127X_REG_MODEM_CONFIG2 h) ;;
  let mcf2 := if negb (yesno =? 0) then u8 (Z.lor mcf2 (Z.shiftl 1 2))
              else u8 (Z.land mcf2 (Z.lnot (Z.shiftl 1 2))) in
  sx127X_write_reg h (SX127X_REG_MODEM_CONFIG2 h) [mcf2] ;;
  ret tt.

Definition sx127X_setBoost (yesno : Z) : M unit :=
  pacf <- read_u8 h (SX127X_REG_PA_CONFIG h) ;;
  let pacf := if negb (yesno =? 0) then u8 (Z.lor pacf (Z.shiftl 1 7))
              else u8 (Z.land pacf (Z.lnot (Z.shiftl 1 7))) in
  sx127X_write_reg h (SX127X_REG_PA_CONFIG h) [pacf] ;;
  ret tt.

Definition sx127X_startLoRaMode : M unit :=
  sx127X_getMode h ;;
  sx127X_setState h (SX127X_SLEEP_MODE h) ;;
  op_mode <- sx127X_getMode h ;;
  let op_mode := u8 (Z.lor op_mode 0x80) in
  sx127X_write_reg h (SX127X_REG_OP_MODE h) [op_mode] ;;
  sx127X_setState h (SX127X_STANDBY_MODE h) ;;
  sx127X_getMode h ;;
  sx127X_setLoRaImplicit h 0 ;;
  sx127X_write_reg h (SX127X_REG_FIFO_RX_BASE_ADDR h) [0x00] ;;
  sx127X_write_reg h (SX127X_REG_FIFO_ADDR_PTR h) [0x00] ;;
  sx127X_clearLoRaAllFlag h ;;
  sx127X_setState h (SX127X_RXCONTINUOUS_MODE h).

Definition init_sx127X : M Z :=
  v <- sx127X_readVersion ;;
  (if v >? 0 then sx127X_startLoRaMode else ret tt) ;;
  ret v.

(** [loraspi_setstate], [st32] being the value copied from the caller. *)
Definition loraspi_setstate (st32 : Z) : M Z :=
  let st :=
    if st32 =? LORA_STATE_SLEEP l then SX127X_SLEEP_MODE h
    else if st32 =? LORA_STATE_STANDBY l then SX127X_STANDBY_MODE h
    else if st32 =? LORA_STATE_TX l then SX127X_TX_MODE h
    else if st32 =? LORA_STATE_RX l then SX127X_RXCONTINUOUS_MODE h
    else if st32 =? LORA_STATE_CAD l then SX127X_CAD_MODE r
    else SX127X_STANDBY_MODE h in
  sx127X_setState h (u8 st) ;;
  ret 0.

(** [loraspi_getstate]: the value handed back to the caller. *)
Definition loraspi_getstate : M Z :=
  st <- sx127X_getState h ;;
  ret (if st =? SX127X_SLEEP_MODE h then LORA_STATE_SLEEP l
       else if st =? SX127X_STANDBY_MODE h then LORA_STATE_STANDBY l
       else if (st =? SX127X_FSTX_MODE r) || (st =? SX127X_TX_MODE h)
            then LORA_STATE_TX l
       else if (st =? SX127X_FSRX_MODE r) || (st =? SX127X_RXSINGLE_MODE r)
               || (st =? SX127X_RXCONTINUOUS_MODE h)
            then LORA_STATE_RX l
       else if st =? SX127X_CAD_MODE r then LORA_STATE_CAD l
       else LORA_STATE_SLEEP l).

Definition LORA_MAX_LNA : Z := 0.
Definition LORA_MIN_LNA : Z := -48.

Definition loraspi_setLNA (db : Z) : M Z :=
  let db := if db >? LORA_MAX_LNA then LORA_MAX_LNA
            else if db <? LORA_MIN_LNA then LORA_MIN_LNA
            else db in
  sx127X_setLoRaLNA db ;;
  ret 0.

Definition loraspi_setLNAAGC (agc : Z) : M Z :=
  let agc := if agc =? 1 then 1 else 0 in
  sx127X_setLoRaLNAAGC agc ;;
  ret 0.

(** [loraspi_ready2read]; [locked] is what
    [mutex_is_locked(&(lrdata->buf_lock))] answers. *)
Definition loraspi_ready2read (locked : bool) : M Z :=
  if negb locked then
    flag <- sx127X_getLoRaFlag h (SX127X_FLAG_RXDONE h) ;;
    ret (if negb (flag =? 0) then 1 else 0)
  else ret 0.

End DriverRest.

(** The 256 values of a byte. *)
Definition all_bytes : list Z := map Z.of_nat (seq 0 256).

(** A computation that leaves the FIFO memory and the registers [X]
    alone. *)
Definition fifo_kept {A : Type} (X : list Z) (m : M A) : Prop :=
  forall d,
    fifo (snd (m d)) = fifo d
    /\ forall x, In x X -> regs (snd (m d)) x = regs d x.

(** * Properties *)

(** ** Running a computation step by step *)

Lemma bind_run {A B : Type} (m : M A) (k : A -> M B)
    (d d1 : spi_device) (a : A) :
  m d = (a, d1) -> bind m k d = k a d1.
Proof. intros E. unfold bind. now rewrite E. Qed.

Lemma bind_bind {A B C : Type} (m : M A) (k : A -> M B) (k' : B -> M C)
    (d : spi_device) :
  bind (bind m k) k' d = bind m (fun a => bind (k a) k') d.
Proof. unfold bind. now destruct (m d). Qed.

(** ** Bytes and masks *)

Lemma u8_range (x : Z) : 0 <= u8 x < 256.
Proof. unfold u8. apply Z.mod_pos_bound. lia. Qed.

Lemma u8_small (x : Z) : 0 <= x < 256 -> u8 x = x.
Proof. intros Hx. unfold u8. now apply Z.mod_small. Qed.

Lemma u8_idem (x : Z) : u8 (u8 x) = u8 x.
Proof. apply u8_small, u8_range. Qed.

Lemma u8_land (x : Z) : u8 x = Z.land x 255.
Proof. unfold u8. change 255 with (Z.ones 8). now rewrite Z.land_ones. Qed.

Lemma reg_range (d : spi_device) (a : Z) : 0 <= reg d a < 256.
Proof. apply u8_range. Qed.

(** Masking distributes over the merge of two fields; constant masks then
    meet and compute. *)
Ltac mask_norm :=
  repeat rewrite u8_land;
  repeat rewrite Z.land_lor_distr_l;
  repeat rewrite <- Z.land_assoc;
  cbn [Z.land Pos.land Pos.Nsucc_double Pos.Ndouble N.succ_double N.double
       Z.of_N];
  repeat rewrite Z.land_0_r;
  repeat rewrite Z.lor_0_r;
  repeat rewrite Z.lor_0_l.

Lemma byte_mask (x : Z) : 0 <= x < 256 -> Z.land x 255 = x.
Proof. intros Hx. rewrite <- u8_land. now apply u8_small. Qed.

Lemma adr_wire (a : Z) : 0 <= a < 128 -> Z.land (u8 (Z.lor a 0x80)) 0x7F = a.
Proof.
  intros Ha. mask_norm.
  change 127 with (Z.ones 7). rewrite Z.land_ones by lia.
  apply Z.mod_small. lia.
Qed.

Lemma adr_read (a : Z) : 0 <= a < 128 -> Z.land a 0x7F = a.
Proof.
  intros Ha. change 127 with (Z.ones 7). rewrite Z.land_ones by lia.
  apply Z.mod_small. lia.
Qed.

(** ** The bus primitives on ordinary registers and on the flags register *)

Section BusFacts.

Variable h : sx1278_h.

Lemma plain_not_fifo (a : Z) :
  plain_reg h a -> (a =? SX127X_REG_FIFO h) = false.
Proof. intros (_ & Hf & _). now apply Z.eqb_neq. Qed.

Lemma plain_not_irq (a : Z) :
  plain_reg h a -> (a =? SX127X_REG_IRQ_FLAGS h) = false.
Proof. intros (_ & _ & Hi). now apply Z.eqb_neq. Qed.

Lemma read_u8_plain (a : Z) (d : spi_device) :
  plain_reg h a ->
  read_u8 h a d = (reg d a, snd (log (EvRead a 1) d)).
Proof.
  intros Hp. unfold read_u8, sx127X_read_reg, bind. simpl.
  rewrite adr_read by apply Hp.
  unfold chip_read1.
  rewrite (plain_not_fifo a Hp), (plain_not_irq a Hp). reflexivity.
Qed.

Lemma write_reg_plain (a v : Z) (d : spi_device) :
  plain_reg h a ->
  sx127X_write_reg h a [v] d
  = (1, {| regs := upd (regs d) a (u8 v); fifo := fifo d;
           irq_raise := irq_raise d;
           trace := EvWrite a [v] :: trace d |}).
Proof.
  intros Hp. unfold sx127X_write_reg, bind. simpl.
  rewrite adr_wire by apply Hp.
  unfold chip_write1.
  rewrite (plain_not_fifo a Hp), (plain_not_irq a Hp). reflexivity.
Qed.

Lemma irq_not_fifo :
  irq_ok h -> (SX127X_REG_IRQ_FLAGS h =? SX127X_REG_FIFO h) = false.
Proof. intros (_ & Hn). now apply Z.eqb_neq. Qed.

Lemma getLoRaAllFlag_run (d : spi_device) :
  irq_ok h ->
  sx127X_getLoRaAllFlag h d
  = (irq_seen h d,
     {| regs := upd (regs d) (SX127X_REG_IRQ_FLAGS h) (irq_seen h d);
        fifo := fifo d; irq_raise := tl (irq_raise d);
        trace := EvRead (SX127X_REG_IRQ_FLAGS h) 1 :: trace d |}).
Proof.
  intros Hi. unfold sx127X_getLoRaAllFlag, read_u8, sx127X_read_reg, bind.
  simpl. rewrite adr_read by apply Hi.
  unfold chip_read1. rewrite (irq_not_fifo Hi), Z.eqb_refl. reflexivity.
Qed.

Lemma write_reg_irq (v : Z) (d : spi_device) :
  irq_ok h ->
  sx127X_write_reg h (SX127X_REG_IRQ_FLAGS h) [v] d
  = (1, {| regs := upd (regs d) (SX127X_REG_IRQ_FLAGS h)
                       (Z.ldiff (reg d (SX127X_REG_IRQ_FLAGS h)) (u8 v));
           fifo := fifo d; irq_raise := irq_raise d;
           trace := EvWrite (SX127X_REG_IRQ_FLAGS h) [v] :: trace d |}).
Proof.
  intros Hi. unfold sx127X_write_reg, bind. simpl.
  rewrite adr_wire by apply Hi.
  unfold chip_write1. rewrite (irq_not_fifo Hi), Z.eqb_refl. reflexivity.
Qed.

Lemma upd_same (f : Z -> Z) (a v : Z) : upd f a v a = v.
Proof. unfold upd. now rewrite Z.eqb_refl. Qed.

Lemma upd_other (f : Z -> Z) (a v x : Z) : x <> a -> upd f a v x = f x.
Proof. intros Hx. unfold upd. now apply Z.eqb_neq in Hx as ->. Qed.

(** What [sx127X_setState] leaves behind. *)
Lemma setState_run (st : Z) (d : spi_device) :
  plain_reg h (SX127X_REG_OP_MODE h) ->
  let v := Z.lor (Z.land (reg d (SX127X_REG_OP_MODE h)) 0xF8)
                 (Z.land st 0x07) in
  sx127X_setState h st d
  = (tt, {| regs := upd (regs d) (SX127X_REG_OP_MODE h) v;
            fifo := fifo d; irq_raise := irq_raise d;
            trace := EvWrite (SX127X_REG_OP_MODE h) [v]
                       :: EvRead (SX127X_REG_OP_MODE h) 1 :: trace d |}).
Proof.
  intros Hp v. unfold sx127X_setState, sx127X_getMode, bind.
  rewrite (read_u8_plain _ d Hp). simpl.
  assert (Hv : u8 (Z.lor (Z.land (reg d (SX127X_REG_OP_MODE h)) 248)
                         (Z.land st 7)) = v).
  { unfold v. mask_norm. reflexivity. }
  rewrite Hv, write_reg_plain by exact Hp. simpl.
  rewrite u8_land. unfold v. mask_norm. reflexivity.
Qed.

End BusFacts.

(** ** Operating mode *)

(** C10: [sx127X_setState] writes [(old & 0xF8) | (st & 0x07)] to the
    op-mode register: the 3-bit mode field becomes that of [st], the upper
    five bits keep their values, among them the LoRa bit (bit 7) and the
    frequency-port bit (bit 3), and no other register changes. *)
Theorem sx127X_setState_mode_field (h : sx1278_h) (st : Z) (d : spi_device) :
  plain_reg h (SX127X_REG_OP_MODE h) ->
  let op := SX127X_REG_OP_MODE h in
  let d' := snd (sx127X_setState h st d) in
  writes (trace d')
  = (op, [Z.lor (Z.land (reg d op) 0xF8) (Z.land st 0x07)]) :: writes (trace d)
  /\ reg d' op = Z.lor (Z.land (reg d op) 0xF8) (Z.land st 0x07)
  /\ Z.land (reg d' op) 0xF8 = Z.land (reg d op) 0xF8
  /\ Z.land (reg d' op) 0x07 = Z.land st 0x07
  /\ Z.testbit (reg d' op) 7 = Z.testbit (reg d op) 7
  /\ Z.testbit (reg d' op) 3 = Z.testbit (reg d op) 3
  /\ (forall a, a <> op -> regs d' a = regs d a).
Proof.
  intros Hp op d'.
  set (old := reg d op).
  assert (Hv : u8 (Z.lor (Z.land old 248) (Z.land st 7))
               = Z.lor (Z.land old 248) (Z.land st 7)).
  { mask_norm. reflexivity. }
  assert (Hreg : reg d' op = Z.lor (Z.land old 248) (Z.land st 7)).
  { unfold d'. rewrite (setState_run h st d Hp). unfold reg at 1. simpl.
    fold op. rewrite upd_same. exact Hv. }
  rewrite Hreg. repeat split.
  - unfold d'. rewrite (setState_run h st d Hp). reflexivity.
  - mask_norm. reflexivity.
  - mask_norm. reflexivity.
  - rewrite Z.lor_spec, !Z.land_spec. simpl.
    now rewrite andb_true_r, andb_false_r, orb_false_r.
  - rewrite Z.lor_spec, !Z.land_spec. simpl.
    now rewrite andb_true_r, andb_false_r, orb_false_r.
  - intros a Ha. unfold d'. rewrite (setState_run h st d Hp). simpl.
    now apply upd_other.
Qed.

Lemma sx127X_setState_mode_field_witness :
  let h := sx1278_datasheet in
  let d := quiet_chip (fun _ => 0x89) in
  plain_reg h (SX127X_REG_OP_MODE h)
  /\ reg (snd (sx127X_setState h 5 d)) (SX127X_REG_OP_MODE h) = 0x8D.
Proof.
  split.
  - unfold plain_reg. simpl. lia.
  - apply (sx127X_setState_mode_field sx1278_datasheet 5
             (quiet_chip (fun _ => 0x89))).
    unfold plain_reg. simpl. lia.
Defined.

(** ** IRQ flags *)

Lemma ldiff_lor_self (a b : Z) : Z.ldiff a (Z.lor a b) = 0.
Proof.
  apply Z.bits_inj'. intros n Hn.
  rewrite Z.ldiff_spec, Z.lor_spec, Z.bits_0.
  now destruct (Z.testbit a n), (Z.testbit b n).
Qed.

Lemma lor_byte (a b : Z) :
  0 <= a < 256 -> 0 <= b < 256 -> 0 <= Z.lor a b < 256.
Proof.
  intros Ha Hb.
  assert (H : Z.lor a b = Z.land (Z.lor a b) 255).
  { rewrite Z.land_lor_distr_l, !byte_mask by assumption. reflexivity. }
  rewrite H, <- u8_land. apply u8_range.
Qed.

(** C1: what [sx127X_clearLoRaFlag] does with a mask [f].  The byte it
    writes to the flags register is the flags it has just read OR-ed with
    [f], so under write-1-to-clear every condition that was set is cleared,
    whether its bit is in [f] or not: the register reads zero afterwards. *)
Theorem sx127X_clearLoRaFlag_writes_or (h : sx1278_h) (f : Z) (d : spi_device) :
  irq_ok h ->
  let irq := SX127X_REG_IRQ_FLAGS h in
  let d' := snd (sx127X_clearLoRaFlag h f d) in
  writes (trace d') = (irq, [Z.lor (irq_seen h d) (u8 f)]) :: writes (trace d)
  /\ reg d' irq = 0.
Proof.
  intros Hi irq d'. unfold d', sx127X_clearLoRaFlag, bind.
  rewrite (getLoRaAllFlag_run h d Hi).
  assert (Hv : u8 (Z.lor (irq_seen h d) (u8 f)) = Z.lor (irq_seen h d) (u8 f)).
  { apply u8_small, lor_byte; apply u8_range. }
  rewrite Hv, write_reg_irq by exact Hi. simpl. split; [reflexivity|].
  unfold reg. simpl. fold irq. rewrite !upd_same.
  rewrite Hv, (u8_small (irq_seen h d)) by apply u8_range.
  rewrite ldiff_lor_self. reflexivity.
Qed.

Lemma sx127X_clearLoRaFlag_writes_or_witness :
  let h := sx1278_datasheet in
  let d := quiet_chip (fun a => if a =? 0x12 then 0x40 else 0) in
  irq_ok h
  /\ writes (trace (snd (sx127X_clearLoRaFlag h 0x08 d))) = [(0x12, [0x48])]
  /\ reg (snd (sx127X_clearLoRaFlag h 0x08 d)) 0x12 = 0.
Proof.
  split.
  - unfold irq_ok. simpl. lia.
  - apply (sx127X_clearLoRaFlag_writes_or sx1278_datasheet 0x08
             (quiet_chip (fun a => if a =? 0x12 then 0x40 else 0))).
    unfold irq_ok. simpl. lia.
Defined.

(** ** Read-modify-write of an ordinary register *)

Section ReadModifyWrite.

Variable h : sx1278_h.

(** The shape shared by the setters: read a register, compute a byte from
    it, write the byte back. *)
Lemma rmw_run (a : Z) (f : Z -> Z) (d : spi_device) :
  plain_reg h a ->
  (x <- read_u8 h a ;; sx127X_write_reg h a [u8 (f x)] ;; ret tt)%drv d
  = (tt, {| regs := upd (regs d) a (u8 (f (reg d a)));
            fifo := fifo d; irq_raise := irq_raise d;
            trace := EvWrite a [u8 (f (reg d a))]
                       :: EvRead a 1 :: trace d |}).
Proof.
  intros Hp. unfold bind. rewrite (read_u8_plain h a d Hp).
  rewrite write_reg_plain by exact Hp. simpl. now rewrite u8_idem.
Qed.

Lemma rmw_reg (a : Z) (f : Z -> Z) (d : spi_device) :
  plain_reg h a ->
  reg (snd ((x <- read_u8 h a ;; sx127X_write_reg h a [u8 (f x)] ;; ret tt)%drv d)) a
  = u8 (f (reg d a)).
Proof.
  intros Hp. rewrite rmw_run by exact Hp. unfold reg. simpl.
  now rewrite upd_same, u8_idem.
Qed.

Lemma rmw_writes (a : Z) (f : Z -> Z) (d : spi_device) :
  plain_reg h a ->
  writes (trace (snd ((x <- read_u8 h a ;; sx127X_write_reg h a [u8 (f x)] ;; ret tt)%drv d)))
  = (a, [u8 (f (reg d a))]) :: writes (trace d).
Proof. intros Hp. rewrite rmw_run by exact Hp. reflexivity. Qed.

End ReadModifyWrite.

(** ** Coding rate *)

(** C2: what [sx127X_setLoRaCR] does to MODEM_CONFIG1 for a rate 4/4..4/8.
    The mask [0x0E] keeps the old coding-rate field and drops the rest: the
    bandwidth nibble and the implicit-header bit are zero after the call,
    whatever they held, and the coding-rate field is the old field OR-ed
    with [(cr & 0xF) - 4]. *)
Theorem sx127X_setLoRaCR_clobbers (h : sx1278_h) (cr : Z) (d : spi_device) :
  plain_reg h (SX127X_REG_MODEM_CONFIG1 h) ->
  4 <= Z.land cr 0xF <= 8 ->
  let mc1 := SX127X_REG_MODEM_CONFIG1 h in
  let d' := snd (sx127X_setLoRaCR h cr d) in
  Z.land (reg d' mc1) 0xF1 = 0
  /\ Z.shiftr (Z.land (reg d' mc1) 0x0E) 1
     = Z.lor (Z.shiftr (Z.land (reg d mc1) 0x0E) 1) (Z.land cr 0xF - 4).
Proof.
  intros Hp Hcr mc1 d'.
  assert (Hreg : reg d' mc1
                 = u8 (Z.lor (Z.land (reg d mc1) 0x0E)
                             (Z.shiftl (Z.land cr 0xF - 4) 1))).
  { apply (rmw_reg h mc1
             (fun x => Z.lor (Z.land x 0x0E) (Z.shiftl (Z.land cr 0xF - 4) 1))
             d Hp). }
  rewrite Hreg. set (m := reg d mc1). set (k := Z.land cr 15 - 4).
  assert (Hk : k = 0 \/ k = 1 \/ k = 2 \/ k = 3 \/ k = 4) by (unfold k; lia).
  destruct Hk as [-> | [-> | [-> | [-> | ->]]]];
    (split;
     [ mask_norm; reflexivity
     | mask_norm; rewrite ?Z.shiftr_lor; simpl; rewrite ?Z.lor_0_r; reflexivity ]).
Qed.

Lemma sx127X_setLoRaCR_clobbers_witness :
  let h := sx1278_datasheet in
  let d := quiet_chip (fun _ => 0x72) in
  plain_reg h (SX127X_REG_MODEM_CONFIG1 h)
  /\ 4 <= Z.land 0x46 0xF <= 8
  /\ Z.land (reg (snd (sx127X_setLoRaCR h 0x46 d)) 0x1D) 0xF1 = 0.
Proof.
  split; [unfold plain_reg; simpl; lia | split; [simpl; lia|]].
  apply (sx127X_setLoRaCR_clobbers sx1278_datasheet 0x46
           (quiet_chip (fun _ => 0x72))).
  - unfold plain_reg. simpl. lia.
  - simpl. lia.
Defined.

(** One run: bandwidth 125 kHz, rate 4/5, explicit header ([0x72]);
    asking for 4/6 leaves [0x06]. *)
Example sx127X_setLoRaCR_run_0x72 :
  reg (snd (sx127X_setLoRaCR sx1278_datasheet 0x46 (quiet_chip (fun _ => 0x72))))
      0x1D = 0x06.
Proof. reflexivity. Qed.

(** The sibling setter [sx127X_setLoRaImplicit] does keep the other bits. *)
Lemma sx127X_setLoRaImplicit_keeps (h : sx1278_h) (yesno : Z) (d : spi_device) :
  plain_reg h (SX127X_REG_MODEM_CONFIG1 h) ->
  let mc1 := SX127X_REG_MODEM_CONFIG1 h in
  Z.land (reg (snd (sx127X_setLoRaImplicit h yesno d)) mc1) 0xFE
  = Z.land (reg d mc1) 0xFE.
Proof.
  intros Hp mc1. subst mc1. unfold sx127X_setLoRaImplicit.
  destruct (negb (yesno =? 0)); cbv beta iota zeta.
  - rewrite (rmw_reg h _ (fun x => Z.lor x 0x01) d Hp).
    mask_norm. reflexivity.
  - rewrite (rmw_reg h _ (fun x => Z.land x 0xFE) d Hp).
    mask_norm. reflexivity.
Qed.

(** ** LNA gain *)

Lemma lna_field_cases (g : Z) :
  0 <= g <= 7 ->
  g = 0 \/ g = 1 \/ g = 2 \/ g = 3 \/ g = 4 \/ g = 5 \/ g = 6 \/ g = 7.
Proof. lia. Qed.

Lemma lna_index (g : Z) : 0 <= g <= 7 -> s8 (s8 g - 1) = g - 1.
Proof.
  intros Hg.
  destruct (lna_field_cases g Hg)
    as [-> | [-> | [-> | [-> | [-> | [-> | [-> | ->]]]]]]]; reflexivity.
Qed.

Lemma lna_lookup (g : Z) :
  0 <= g <= 7 -> (array_get lna_gain (g - 1) <> None <-> 1 <= g <= 6).
Proof.
  intros Hg.
  destruct (lna_field_cases g Hg)
    as [-> | [-> | [-> | [-> | [-> | [-> | [-> | ->]]]]]]];
    unfold array_get, lna_gain; simpl;
    (split; [ intros H; try lia; exfalso; apply H; reflexivity
            | intros H; try lia; discriminate ]).
Qed.

(** C3: [sx127X_getLoRaLNA] indexes [lna_gain] with the 3-bit gain field
    minus one and nothing else: when the field reads 0 the index is -1 and
    the access is outside the 6-entry table; the read is inside the table
    exactly for the fields 1..6. *)
Theorem sx127X_getLoRaLNA_index (h : sx1278_h) (d : spi_device) :
  plain_reg h (SX127X_REG_LNA h) ->
  let g := Z.shiftr (reg d (SX127X_REG_LNA h)) 5 in
  fst (sx127X_getLoRaLNA h d) = array_get lna_gain (g - 1)
  /\ (g = 0 -> fst (sx127X_getLoRaLNA h d) = None)
  /\ (fst (sx127X_getLoRaLNA h d) <> None <-> 1 <= g <= 6).
Proof.
  intros Hp g.
  assert (Hg : 0 <= g <= 7).
  { unfold g. rewrite Z.shiftr_div_pow2 by lia.
    pose proof (reg_range d (SX127X_REG_LNA h)) as Hr.
    change (2 ^ 5) with 32. split.
    - apply Z.div_pos; lia.
    - apply Z.lt_succ_r. apply Z.div_lt_upper_bound; lia. }
  assert (Hrun : fst (sx127X_getLoRaLNA h d) = array_get lna_gain (g - 1)).
  { unfold sx127X_getLoRaLNA, bind.
    rewrite (read_u8_plain h _ d Hp). simpl. fold g.
    now rewrite lna_index. }
  rewrite Hrun. split; [reflexivity | split].
  - intros ->. reflexivity.
  - now apply lna_lookup.
Qed.

Lemma sx127X_getLoRaLNA_index_witness :
  let h := sx1278_datasheet in
  let d := quiet_chip (fun _ => 0x00) in
  plain_reg h (SX127X_REG_LNA h)
  /\ fst (sx127X_getLoRaLNA h d) = None.
Proof.
  split.
  - unfold plain_reg. simpl. lia.
  - refine (proj1 (proj2 (sx127X_getLoRaLNA_index sx1278_datasheet
                            (quiet_chip (fun _ => 0x00)) _)) _).
    + unfold plain_reg. simpl. lia.
    + reflexivity.
Defined.

(** The other reserved field value, 7, reads past the end of the table. *)
Example sx127X_getLoRaLNA_run_0xE0 :
  fst (sx127X_getLoRaLNA sx1278_datasheet (quiet_chip (fun _ => 0xE0))) = None.
Proof. reflexivity. Qed.

(** ** Spreading factor *)

Lemma spr_scan_spec (c_s : Z) :
  let sf := spr_scan 6 6 c_s in
  (6 <= sf <= 11 /\ c_s = 2 ^ sf /\ In c_s spr_supported)
  \/ (sf = 12 /\ ~ In c_s spr_supported).
Proof.
  unfold spr_scan, spr_supported.
  change (u32 (Z.shiftl 1 6)) with 64. change (u8 (6 + 1)) with 7.
  change (u32 (Z.shiftl 1 7)) with 128. change (u8 (7 + 1)) with 8.
  change (u32 (Z.shiftl 1 8)) with 256. change (u8 (8 + 1)) with 9.
  change (u32 (Z.shiftl 1 9)) with 512. change (u8 (9 + 1)) with 10.
  change (u32 (Z.shiftl 1 10)) with 1024. change (u8 (10 + 1)) with 11.
  change (u32 (Z.shiftl 1 11)) with 2048. change (u8 (11 + 1)) with 12.
  destruct (Z.eqb_spec c_s 64) as [-> | H6]; [left; simpl; intuition lia|].
  destruct (Z.eqb_spec c_s 128) as [-> | H7]; [left; simpl; intuition lia|].
  destruct (Z.eqb_spec c_s 256) as [-> | H8]; [left; simpl; intuition lia|].
  destruct (Z.eqb_spec c_s 512) as [-> | H9]; [left; simpl; intuition lia|].
  destruct (Z.eqb_spec c_s 1024) as [-> | H10]; [left; simpl; intuition lia|].
  destruct (Z.eqb_spec c_s 2048) as [-> | H11]; [left; simpl; intuition lia|].
  right. simpl. intuition lia.
Qed.

Lemma spr_field_cases (sf : Z) :
  6 <= sf <= 12 ->
  sf = 6 \/ sf = 7 \/ sf = 8 \/ sf = 9 \/ sf = 10 \/ sf = 11 \/ sf = 12.
Proof. lia. Qed.

Lemma low_nibble_shift (m : Z) : Z.shiftr (Z.land m 0x0F) 4 = 0.
Proof. rewrite Z.shiftr_land. simpl. apply Z.land_0_r. Qed.

Lemma getLoRaSPRFactor_run (h : sx1278_h) (d : spi_device) :
  plain_reg h (SX127X_REG_MODEM_CONFIG2 h) ->
  fst (sx127X_getLoRaSPRFactor h d)
  = u32 (Z.shiftl 1 (u8 (Z.shiftr (reg d (SX127X_REG_MODEM_CONFIG2 h)) 4))).
Proof.
  intros Hp. unfold sx127X_getLoRaSPRFactor, bind.
  now rewrite (read_u8_plain h _ d Hp).
Qed.

(** C4 (as the code has it): [sx127X_setLoRaSPRFactor] always writes a
    spreading-factor field [sf] in 6..12 to MODEM_CONFIG2, keeping the low
    nibble; reading back gives [2^sf].  For a supported value
    (64, 128, ..., 2048) [2^sf] is the value asked for; for every other
    value nothing is rejected: the field written is 12 (4096 chips). *)
Theorem sx127X_setLoRaSPRFactor_field (h : sx1278_h) (c_s : Z) (d : spi_device) :
  plain_reg h (SX127X_REG_MODEM_CONFIG2 h) ->
  let mc2 := SX127X_REG_MODEM_CONFIG2 h in
  let d' := snd (sx127X_setLoRaSPRFactor h c_s d) in
  exists sf,
    6 <= sf <= 12
    /\ writes (trace d')
       = (mc2, [Z.lor (Z.land (reg d mc2) 0x0F) (Z.shiftl sf 4)])
           :: writes (trace d)
    /\ reg d' mc2 = Z.lor (Z.land (reg d mc2) 0x0F) (Z.shiftl sf 4)
    /\ fst (sx127X_getLoRaSPRFactor h d') = 2 ^ sf
    /\ (In c_s spr_supported -> 2 ^ sf = c_s)
    /\ (~ In c_s spr_supported -> sf = 12).
Proof.
  intros Hp mc2 d'. exists (spr_scan 6 6 c_s).
  pose proof (spr_scan_spec c_s) as Hs. cbv zeta in Hs.
  set (sf := spr_scan 6 6 c_s) in *.
  assert (Hsf : 6 <= sf <= 12) by (destruct Hs as [(? & _) | (? & _)]; lia).
  set (f := fun x => Z.lor (Z.land x 0x0F) (Z.shiftl sf 4)).
  assert (Hu : u8 (f (reg d mc2)) = f (reg d mc2)).
  { unfold f. destruct (spr_field_cases sf Hsf)
      as [-> | [-> | [-> | [-> | [-> | [-> | ->]]]]]];
      mask_norm; reflexivity. }
  assert (Hreg : reg d' mc2 = f (reg d mc2)).
  { rewrite <- Hu. apply (rmw_reg h mc2 f d Hp). }
  assert (Hw : writes (trace d') = (mc2, [f (reg d mc2)]) :: writes (trace d)).
  { rewrite <- Hu. apply (rmw_writes h mc2 f d Hp). }
  split; [exact Hsf | split; [exact Hw | split; [exact Hreg | split; [| split]]]].
  - rewrite (getLoRaSPRFactor_run h d' Hp). fold mc2. rewrite Hreg. unfold f.
    rewrite Z.shiftr_lor, low_nibble_shift, Z.lor_0_l.
    destruct (spr_field_cases sf Hsf)
      as [-> | [-> | [-> | [-> | [-> | [-> | ->]]]]]]; reflexivity.
  - intros Hin. destruct Hs as [(_ & Hpow & _) | (_ & Hn)];
      [now symmetry | contradiction].
  - intros Hn. destruct Hs as [(_ & _ & Hin) | (H12 & _)];
      [contradiction | exact H12].
Qed.

Lemma sx127X_setLoRaSPRFactor_field_witness :
  let h := sx1278_datasheet in
  let d := quiet_chip (fun _ => 0x74) in
  let mc2 := SX127X_REG_MODEM_CONFIG2 h in
  let d' := snd (sx127X_setLoRaSPRFactor h 100 d) in
  plain_reg h mc2
  /\ exists sf,
       6 <= sf <= 12
       /\ writes (trace d')
          = (mc2, [Z.lor (Z.land (reg d mc2) 0x0F) (Z.shiftl sf 4)])
              :: writes (trace d)
       /\ reg d' mc2 = Z.lor (Z.land (reg d mc2) 0x0F) (Z.shiftl sf 4)
       /\ fst (sx127X_getLoRaSPRFactor h d') = 2 ^ sf
       /\ (In 100 spr_supported -> 2 ^ sf = 100)
       /\ (~ In 100 spr_supported -> sf = 12).
Proof.
  split.
  - unfold plain_reg. simpl. lia.
  - apply (sx127X_setLoRaSPRFactor_field sx1278_datasheet 100
             (quiet_chip (fun _ => 0x74))).
    unfold plain_reg. simpl. lia.
Defined.

(** C4, as stated, fails: 100 lies in [64, 2048] and is no power of two,
    yet the call writes MODEM_CONFIG2, with the field set to 12. *)
Lemma sx127X_setLoRaSPRFactor_100_is_written :
  let d := quiet_chip (fun _ => 0x74) in
  let d' := snd (sx127X_setLoRaSPRFactor sx1278_datasheet 100 d) in
  64 <= 100 <= 2048
  /\ ~ In 100 spr_supported
  /\ writes (trace d') = [(0x1E, [0xC4])]
  /\ writes (trace d') <> writes (trace d).
Proof.
  cbv zeta. split; [lia | split; [| split]].
  - unfold spr_supported. simpl. intuition lia.
  - reflexivity.
  - discriminate.
Qed.

(** ** Bandwidth *)

Lemma bw_scan_spec (bw : Z) (tbl : list Z) :
  forall i, 0 <= i -> i + Z.of_nat (length tbl) < 256 ->
  let r := bw_scan tbl i bw in
  i <= r <= i + Z.of_nat (length tbl)
  /\ (forall k, (k < Z.to_nat (r - i))%nat -> nth k tbl 0 < bw)
  /\ (r < i + Z.of_nat (length tbl) -> bw <= nth (Z.to_nat (r - i)) tbl 0).
Proof.
  induction tbl as [| x tbl IH]; intros i Hi Hlen; cbn [bw_scan length] in *.
  - rewrite Z.sub_diag. simpl. repeat split; intros; lia.
  - destruct (x >=? bw) eqn:E.
    + rewrite Z.sub_diag. simpl. repeat split; lia.
    + rewrite u8_small by lia.
      destruct (IH (i + 1)) as (Hr & Hlt & Hge); try lia.
      set (r := bw_scan tbl (i + 1) bw) in *.
      assert (Hx : x < bw).
      { destruct (Z.geb_spec x bw) as [H | H]; [discriminate | lia]. }
      assert (Hk : Z.to_nat (r - i) = S (Z.to_nat (r - (i + 1)))) by lia.
      rewrite Hk. repeat split; try lia.
      * intros [| k] Hlk; simpl; [exact Hx | apply Hlt; lia].
      * intros Hrl. simpl. apply Hge. lia.
Qed.

Lemma bw_index_cases (i : Z) :
  0 <= i <= 9 ->
  i = 0 \/ i = 1 \/ i = 2 \/ i = 3 \/ i = 4 \/ i = 5 \/ i = 6 \/ i = 7
  \/ i = 8 \/ i = 9.
Proof. lia. Qed.

(** How the index found relates to the table. *)
Lemma bw_scan_hz (bw : Z) :
  let i := bw_scan (firstn 9 hz) 0 bw in
  0 <= i <= 9
  /\ (forall j, 0 <= j < i -> nth (Z.to_nat j) hz 0 < bw)
  /\ (bw <= 500000 -> bw <= nth (Z.to_nat i) hz 0)
  /\ (500000 < bw -> i = 9).
Proof.
  intros i.
  destruct (bw_scan_spec bw (firstn 9 hz) 0) as (Hr & Hlt & Hge);
    [lia | simpl; lia |].
  fold i in Hr, Hlt, Hge. rewrite Z.sub_0_r in Hlt, Hge.
  change (Z.of_nat (length (firstn 9 hz))) with 9 in Hr, Hge.
  assert (Hi : 0 <= i <= 9) by lia.
  assert (Hbelow : forall j, 0 <= j < i -> nth (Z.to_nat j) hz 0 < bw).
  { intros j Hj.
    assert (Hj9 : (Z.to_nat j < 9)%nat) by lia.
    assert (Hfn : nth (Z.to_nat j) (firstn 9 hz) 0 = nth (Z.to_nat j) hz 0).
    { revert Hj9. generalize (Z.to_nat j) as k.
      do 9 (destruct k as [| k]; [reflexivity |]). lia. }
    rewrite <- Hfn. apply Hlt. lia. }
  split; [exact Hi | split; [exact Hbelow | split]].
  - intros Hbw.
    destruct (bw_index_cases i Hi)
      as [E | [E | [E | [E | [E | [E | [E | [E | [E | E]]]]]]]]];
      rewrite E in *; try (apply Hge; lia).
    simpl. exact Hbw.
  - intros Hbw.
    destruct (Z.eq_dec i 9) as [E | E]; [exact E | exfalso].
    assert (Hlt9 : i < 0 + 9) by lia.
    specialize (Hge Hlt9).
    destruct (bw_index_cases i Hi)
      as [E' | [E' | [E' | [E' | [E' | [E' | [E' | [E' | [E' | E']]]]]]]]];
      rewrite E' in *; simpl in Hge; lia.
Qed.

Lemma bw_scan_least (bw : Z) :
  let i := bw_scan (firstn 9 hz) 0 bw in
  forall x, In x hz -> bw <= x -> nth (Z.to_nat i) hz 0 <= x.
Proof.
  intros i x Hin Hx.
  destruct (bw_scan_hz bw) as (Hi & Hbelow & _). fold i in Hi, Hbelow.
  pose proof (Hbelow 0) as H0. pose proof (Hbelow 1) as H1.
  pose proof (Hbelow 2) as H2. pose proof (Hbelow 3) as H3.
  pose proof (Hbelow 4) as H4. pose proof (Hbelow 5) as H5.
  pose proof (Hbelow 6) as H6. pose proof (Hbelow 7) as H7.
  pose proof (Hbelow 8) as H8. clear Hbelow.
  simpl in H0, H1, H2, H3, H4, H5, H6, H7, H8.
  destruct (bw_index_cases i Hi)
    as [E | [E | [E | [E | [E | [E | [E | [E | [E | E]]]]]]]]];
    rewrite E in *; simpl; unfold hz in Hin; simpl in Hin; lia.
Qed.

(** C9: [sx127X_setLoRaBW] writes into the high nibble of MODEM_CONFIG1 the
    first index [i] in scan order whose table entry is at least [bw], and 9
    when there is none.  The table being ascending, [hz[i]] is the smallest
    supported bandwidth that is at least [bw]; a request above 500000 gets
    500000, the last entry. *)
Theorem sx127X_setLoRaBW_rounds_up (h : sx1278_h) (bw : Z) (d : spi_device) :
  plain_reg h (SX127X_REG_MODEM_CONFIG1 h) ->
  let mc1 := SX127X_REG_MODEM_CONFIG1 h in
  let d' := snd (sx127X_setLoRaBW h bw d) in
  exists i,
    0 <= i <= 9
    /\ writes (trace d')
       = (mc1, [Z.lor (Z.land (reg d mc1) 0x0F) (Z.shiftl i 4)])
           :: writes (trace d)
    /\ reg d' mc1 = Z.lor (Z.land (reg d mc1) 0x0F) (Z.shiftl i 4)
    /\ Z.shiftr (reg d' mc1) 4 = i
    /\ (forall j, 0 <= j < i -> nth (Z.to_nat j) hz 0 < bw)
    /\ (bw <= 500000 ->
        bw <= nth (Z.to_nat i) hz 0
        /\ forall x, In x hz -> bw <= x -> nth (Z.to_nat i) hz 0 <= x)
    /\ (500000 < bw -> i = 9 /\ nth (Z.to_nat i) hz 0 = 500000).
Proof.
  intros Hp mc1 d'. exists (bw_scan (firstn 9 hz) 0 bw).
  destruct (bw_scan_hz bw) as (Hi & Hbelow & Hge & Hlast).
  pose proof (bw_scan_least bw) as Hleast. cbv zeta in Hleast.
  set (i := bw_scan (firstn 9 hz) 0 bw) in *.
  set (f := fun x => Z.lor (Z.land x 0x0F) (Z.shiftl i 4)).
  assert (Hu : u8 (f (reg d mc1)) = f (reg d mc1)).
  { unfold f. destruct (bw_index_cases i Hi)
      as [E | [E | [E | [E | [E | [E | [E | [E | [E | E]]]]]]]]];
      rewrite E; mask_norm; reflexivity. }
  assert (Hreg : reg d' mc1 = f (reg d mc1)).
  { rewrite <- Hu. apply (rmw_reg h mc1 f d Hp). }
  assert (Hw : writes (trace d') = (mc1, [f (reg d mc1)]) :: writes (trace d)).
  { rewrite <- Hu. apply (rmw_writes h mc1 f d Hp). }
  split; [exact Hi | split; [exact Hw | split; [exact Hreg |]]].
  split; [| split; [exact Hbelow | split]].
  - rewrite Hreg. unfold f.
    rewrite Z.shiftr_lor, low_nibble_shift, Z.lor_0_l.
    rewrite Z.shiftr_shiftl_l by lia. now rewrite Z.sub_diag.
  - intros Hbw. split; [now apply Hge | exact Hleast].
  - intros Hbw. split; [now apply Hlast |].
    rewrite (Hlast Hbw). reflexivity.
Qed.

Lemma sx127X_setLoRaBW_rounds_up_witness :
  let h := sx1278_datasheet in
  let d := quiet_chip (fun _ => 0x72) in
  let mc1 := SX127X_REG_MODEM_CONFIG1 h in
  let d' := snd (sx127X_setLoRaBW h 100000 d) in
  plain_reg h mc1
  /\ exists i,
       0 <= i <= 9
       /\ writes (trace d')
          = (mc1, [Z.lor (Z.land (reg d mc1) 0x0F) (Z.shiftl i 4)])
              :: writes (trace d)
       /\ reg d' mc1 = Z.lor (Z.land (reg d mc1) 0x0F) (Z.shiftl i 4)
       /\ Z.shiftr (reg d' mc1) 4 = i
       /\ (forall j, 0 <= j < i -> nth (Z.to_nat j) hz 0 < 100000)
       /\ (100000 <= 500000 ->
           100000 <= nth (Z.to_nat i) hz 0
           /\ forall x, In x hz -> 100000 <= x -> nth (Z.to_nat i) hz 0 <= x)
       /\ (500000 < 100000 -> i = 9 /\ nth (Z.to_nat i) hz 0 = 500000).
Proof.
  split.
  - unfold plain_reg. simpl. lia.
  - apply (sx127X_setLoRaBW_rounds_up sx1278_datasheet 100000
             (quiet_chip (fun _ => 0x72))).
    unfold plain_reg. simpl. lia.
Defined.

(** Three runs: 100 kHz is rounded up to 125 kHz (index 7), 300 kHz to
    500 kHz (index 9), and 600 kHz falls back on index 9 as well. *)
Example sx127X_setLoRaBW_runs :
  let run bw := reg (snd (sx127X_setLoRaBW sx1278_datasheet bw
                            (quiet_chip (fun _ => 0x02)))) 0x1D in
  run 100000 = 0x72 /\ run 300000 = 0x92 /\ run 600000 = 0x92.
Proof. repeat split. Qed.

(** ** The log of a transfer *)

Section TraceFacts.

Variable h : sx1278_h.

Lemma chip_write1_trace (a v : Z) (d : spi_device) :
  trace (snd (chip_write1 h a v d)) = trace d.
Proof.
  unfold chip_write1.
  destruct (a =? SX127X_REG_FIFO h); [reflexivity|].
  destruct (a =? SX127X_REG_IRQ_FLAGS h); reflexivity.
Qed.

Lemma chip_write_trace (buf : list Z) :
  forall a d, trace (snd (chip_write h a buf d)) = trace d.
Proof.
  induction buf as [| b bs IH]; intros a d; simpl; [reflexivity|].
  unfold bind. destruct (chip_write1 h a b d) as [u d1] eqn:E.
  rewrite IH. change d1 with (snd (u, d1)). rewrite <- E.
  apply chip_write1_trace.
Qed.

Lemma write_reg_trace (a : Z) (buf : list Z) (d : spi_device) :
  trace (snd (sx127X_write_reg h a buf d)) = EvWrite a buf :: trace d.
Proof.
  unfold sx127X_write_reg, bind. simpl.
  destruct (chip_write h _ buf _) as [u d1] eqn:E. simpl.
  change d1 with (snd (u, d1)). rewrite <- E, chip_write_trace. reflexivity.
Qed.

Lemma write_reg_status (a : Z) (buf : list Z) (d : spi_device) :
  fst (sx127X_write_reg h a buf d) = Z.of_nat (length buf).
Proof.
  unfold sx127X_write_reg, bind, log, ret.
  destruct (chip_write h _ buf _) as [u d1]. cbn [fst].
  destruct (Z.gtb_spec (1 + Z.of_nat (length buf)) 0); lia.
Qed.

End TraceFacts.

(** ** Frequency *)

Lemma frf_buf_bytes (f_xosc fr : Z) :
  0 < f_xosc -> 0 <= fr < 2 ^ 32 ->
  let q := fr * 2 ^ 19 / f_xosc in
  frf_buf f_xosc fr
  = [q / 65536 mod 256; q / 256 mod 256; q mod 256].
Proof.
  intros Hx Hfr q. unfold frf_buf, __POW_2_19, u64.
  rewrite (Z.mod_small fr) by lia.
  rewrite (Z.mod_small 524288) by lia.
  rewrite (Z.mod_small (fr * 524288)) by lia.
  change 524288 with (2 ^ 19). fold q.
  assert (Hq : 0 <= q) by (apply Z.div_pos; lia).
  unfold freq_bytes, u32, u8. rewrite !Z.shiftr_div_pow2 by lia.
  change (2 ^ 8) with 256. change (2 ^ 32) with 4294967296.
  clearbody q. f_equal; [| f_equal; [| f_equal]]; Z.div_mod_to_equations; lia.
Qed.

(** C5 (as the code has it): [sx127X_setLoRaFreq] writes to the frequency
    registers the three bytes, most significant first, of
    [fr * 2^19 / f_xosc] with the quotient truncated ([do_div]), not rounded
    to nearest; the product is formed in 64 bits, where it cannot overflow
    for any 32-bit [fr].  (The bytes hold the quotient itself whenever it
    fits 24 bits.) *)
Theorem sx127X_setLoRaFreq_truncates
    (h : sx1278_h) (f_xosc fr : Z) (d : spi_device) :
  0 < f_xosc -> 0 <= fr < 2 ^ 32 ->
  let q := fr * 2 ^ 19 / f_xosc in
  let d' := snd (sx127X_setLoRaFreq h f_xosc fr d) in
  fr * 2 ^ 19 < 2 ^ 64
  /\ q * f_xosc <= fr * 2 ^ 19 < (q + 1) * f_xosc
  /\ exists buf,
       writes (trace d') = (SX127X_REG_FRF_MSB h, buf) :: writes (trace d)
       /\ length buf = 3%nat
       /\ Forall (fun b => 0 <= b < 256) buf
       /\ be24 buf = q mod 2 ^ 24.
Proof.
  intros Hx Hfr q d'. split; [lia | split].
  - pose proof (Z.div_mod (fr * 2 ^ 19) f_xosc) as Hdm.
    pose proof (Z.mod_pos_bound (fr * 2 ^ 19) f_xosc Hx) as Hm.
    fold q in Hdm. nia.
  - exists (frf_buf f_xosc fr). split.
    + unfold d', sx127X_setLoRaFreq, bind.
      destruct (sx127X_write_reg h _ _ d) as [c d1] eqn:E. simpl.
      change d1 with (snd (c, d1)). rewrite <- E, write_reg_trace.
      reflexivity.
    + rewrite (frf_buf_bytes f_xosc fr Hx Hfr). fold q.
      split; [reflexivity | split].
      * repeat constructor; apply Z.mod_pos_bound; lia.
      * unfold be24. simpl. clearbody q. change (2 ^ 24) with 16777216.
        Z.div_mod_to_equations. lia.
Qed.

Lemma sx127X_setLoRaFreq_truncates_witness :
  let h := sx1278_datasheet in
  let d := quiet_chip (fun _ => 0) in
  let q := 434000000 * 2 ^ 19 / 32000000 in
  let d' := snd (sx127X_setLoRaFreq h 32000000 434000000 d) in
  (0 < 32000000 /\ 0 <= 434000000 < 2 ^ 32)
  /\ 434000000 * 2 ^ 19 < 2 ^ 64
  /\ q * 32000000 <= 434000000 * 2 ^ 19 < (q + 1) * 32000000
  /\ exists buf,
       writes (trace d') = (SX127X_REG_FRF_MSB h, buf) :: writes (trace d)
       /\ length buf = 3%nat
       /\ Forall (fun b => 0 <= b < 256) buf
       /\ be24 buf = q mod 2 ^ 24.
Proof.
  split; [lia|].
  apply (sx127X_setLoRaFreq_truncates sx1278_datasheet 32000000 434000000
           (quiet_chip (fun _ => 0))); lia.
Defined.

(** C5, as stated, fails: for 868.95 MHz on a 32 MHz crystal the exact
    value is 14236876.8; the bytes written hold 14236876, rounding to
    nearest gives 14236877. *)
Lemma sx127X_setLoRaFreq_868950000_not_rounded :
  let d := quiet_chip (fun _ => 0) in
  let d' := snd (sx127X_setLoRaFreq sx1278_datasheet 32000000 868950000 d) in
  writes (trace d') = [(0x06, [0xD9; 0x3C; 0xCC])]
  /\ be24 [0xD9; 0x3C; 0xCC] = 14236876
  /\ frf_rounded 32000000 868950000 = 14236877
  /\ be24 [0xD9; 0x3C; 0xCC] <> frf_rounded 32000000 868950000.
Proof.
  cbv zeta. repeat split. discriminate.
Qed.

(** ** Output power *)

Lemma forall_between (P : Z -> Prop) (lo : Z) (n : nat) :
  (forall k : nat, (k < n)%nat -> P (lo + Z.of_nat k)) ->
  forall x, lo <= x < lo + Z.of_nat n -> P x.
Proof.
  intros H x Hx.
  replace x with (lo + Z.of_nat (Z.to_nat (x - lo))) by lia.
  apply H. lia.
Qed.

Lemma pa_codec (dbm : Z) :
  LORA_MIN_POWER <= dbm <= LORA_MAX_POWER -> pa_power (pa_config dbm) = dbm.
Proof.
  unfold LORA_MIN_POWER, LORA_MAX_POWER. intros Hd.
  apply (forall_between (fun x => pa_power (pa_config x) = x) (-2) 20);
    [| lia].
  intros k Hk.
  do 20 (destruct k as [| k]; [reflexivity |]). lia.
Qed.

Lemma pa_config_byte (pout : Z) : u8 (pa_config pout) = pa_config pout.
Proof.
  unfold pa_config.
  destruct (if pout >? 15 then _ else _) as [[boost pmax] outputPower].
  apply u8_idem.
Qed.

Lemma setLoRaPower_then_get (h : sx1278_h) (pout : Z) (d : spi_device) :
  plain_reg h (SX127X_REG_PA_CONFIG h) ->
  fst (sx127X_getLoRaPower h (snd (sx127X_setLoRaPower h pout d)))
  = pa_power (pa_config pout).
Proof.
  intros Hp. unfold sx127X_setLoRaPower, sx127X_getLoRaPower, bind.
  rewrite write_reg_plain by exact Hp. unfold ret. cbn [snd fst].
  rewrite read_u8_plain by exact Hp. cbn [snd fst].
  unfold reg. cbn [regs]. rewrite upd_same, u8_idem.
  now rewrite pa_config_byte.
Qed.

(** C6 (as the code has it): for every power from -2 to 17 dBm, the range
    [loraspi_setpower] confines a request to, [sx127X_getLoRaPower] applied
    to the PA_CONFIG byte written by [sx127X_setLoRaPower] gives the power
    back exactly, the negative values included. *)
Theorem sx127X_power_roundtrip (h : sx1278_h) (dbm : Z) (d : spi_device) :
  plain_reg h (SX127X_REG_PA_CONFIG h) ->
  LORA_MIN_POWER <= dbm <= LORA_MAX_POWER ->
  fst (sx127X_getLoRaPower h (snd (sx127X_setLoRaPower h dbm d))) = dbm.
Proof.
  intros Hp Hd. rewrite setLoRaPower_then_get by exact Hp.
  now apply pa_codec.
Qed.

Lemma sx127X_power_roundtrip_witness :
  let h := sx1278_datasheet in
  let d := quiet_chip (fun _ => 0) in
  plain_reg h (SX127X_REG_PA_CONFIG h)
  /\ LORA_MIN_POWER <= -2 <= LORA_MAX_POWER
  /\ fst (sx127X_getLoRaPower h (snd (sx127X_setLoRaPower h (-2) d))) = -2.
Proof.
  split; [unfold plain_reg; simpl; lia | split].
  - unfold LORA_MIN_POWER, LORA_MAX_POWER. lia.
  - apply (sx127X_power_roundtrip sx1278_datasheet (-2)
             (quiet_chip (fun _ => 0))).
    + unfold plain_reg. simpl. lia.
    + unfold LORA_MIN_POWER, LORA_MAX_POWER. lia.
Defined.

(** C6, as stated, fails above 17 dBm: 20 dBm asks for the output-power
    code 18, which does not fit the 4-bit field; the byte written is [0xF2]
    and reads back as 4 dBm. *)
Lemma sx127X_power_20_reads_back_4 :
  let d := quiet_chip (fun _ => 0) in
  let d' := snd (sx127X_setLoRaPower sx1278_datasheet 20 d) in
  -2 <= 20 <= 20
  /\ writes (trace d') = [(0x09, [0xF2])]
  /\ fst (sx127X_getLoRaPower sx1278_datasheet d') = 4
  /\ fst (sx127X_getLoRaPower sx1278_datasheet d') <> 20.
Proof.
  cbv zeta. split; [lia | split; [reflexivity | split; [reflexivity|]]].
  discriminate.
Qed.

(** Through [loraspi_setpower] every request reads back as the request
    confined to [-2, 17]. *)
Lemma loraspi_setpower_clamps (h : sx1278_h) (dbm : Z) (d : spi_device) :
  plain_reg h (SX127X_REG_PA_CONFIG h) ->
  fst (loraspi_getpower h (snd (loraspi_setpower h dbm d)))
  = Z.max LORA_MIN_POWER (Z.min LORA_MAX_POWER dbm).
Proof.
  intros Hp. unfold loraspi_setpower, loraspi_getpower.
  set (c := if dbm >? LORA_MAX_POWER then LORA_MAX_POWER
            else if dbm <? LORA_MIN_POWER then LORA_MIN_POWER else dbm).
  assert (Hc : c = Z.max LORA_MIN_POWER (Z.min LORA_MAX_POWER dbm)).
  { unfold c, LORA_MIN_POWER, LORA_MAX_POWER.
    destruct (Z.gtb_spec dbm 17); [lia|].
    destruct (Z.ltb_spec dbm (-2)); lia. }
  assert (Hr : LORA_MIN_POWER <= c <= LORA_MAX_POWER).
  { rewrite Hc. unfold LORA_MIN_POWER, LORA_MAX_POWER. lia. }
  rewrite <- Hc.
  transitivity (fst (sx127X_getLoRaPower h (snd (sx127X_setLoRaPower h c d)))).
  - unfold bind. destruct (sx127X_setLoRaPower h c d) as [u d1]. reflexivity.
  - rewrite setLoRaPower_then_get by exact Hp. now apply pa_codec.
Qed.

(** ** Reading and clearing the flags *)

Section FlagFacts.

Variable h : sx1278_h.

Lemma chip_read1_trace (a : Z) (d : spi_device) :
  trace (snd (chip_read1 h a d)) = trace d.
Proof.
  unfold chip_read1.
  destruct (a =? SX127X_REG_FIFO h); [reflexivity|].
  destruct (a =? SX127X_REG_IRQ_FLAGS h); reflexivity.
Qed.

Lemma chip_read_trace (n : nat) :
  forall a d, trace (snd (chip_read h a n d)) = trace d.
Proof.
  induction n as [| n IH]; intros a d; simpl; [reflexivity|].
  unfold bind. destruct (chip_read1 h a d) as [b d1] eqn:E.
  destruct (chip_read h (next_adr h a) n d1) as [bs d2] eqn:E2. simpl.
  change d2 with (snd (bs, d2)). rewrite <- E2, IH.
  change d1 with (snd (b, d1)). rewrite <- E. apply chip_read1_trace.
Qed.

Lemma read_reg_trace (a : Z) (n : nat) (d : spi_device) :
  trace (snd (sx127X_read_reg h a n d)) = EvRead a n :: trace d.
Proof.
  unfold sx127X_read_reg, bind, log, ret.
  destruct (chip_read h _ n _) as [bs d1] eqn:E. cbn [snd].
  change d1 with (snd (bs, d1)). rewrite <- E, chip_read_trace. reflexivity.
Qed.


Lemma getLoRaFlag_run (f : Z) (d : spi_device) :
  irq_ok h ->
  sx127X_getLoRaFlag h f d
  = (Z.land (irq_seen h d) f,
     {| regs := upd (regs d) (SX127X_REG_IRQ_FLAGS h) (irq_seen h d);
        fifo := fifo d; irq_raise := tl (irq_raise d);
        trace := EvRead (SX127X_REG_IRQ_FLAGS h) 1 :: trace d |}).
Proof.
  intros Hi. unfold sx127X_getLoRaFlag, bind.
  now rewrite (getLoRaAllFlag_run h d Hi).
Qed.

Lemma getLoRaFlag_trace (f : Z) (d : spi_device) :
  trace (snd (sx127X_getLoRaFlag h f d))
  = EvRead (SX127X_REG_IRQ_FLAGS h) 1 :: trace d.
Proof.
  unfold sx127X_getLoRaFlag, sx127X_getLoRaAllFlag, read_u8, bind.
  destruct (sx127X_read_reg h _ 1 d) as [r d1] eqn:E. cbn [snd].
  change d1 with (snd (r, d1)). rewrite <- E. apply read_reg_trace.
Qed.


(** Clearing leaves the flags register empty: the byte written covers
    every flag that was set. *)
Lemma clearLoRaFlag_run (f : Z) (d : spi_device) :
  irq_ok h ->
  sx127X_clearLoRaFlag h f d
  = (tt, {| regs := upd (upd (regs d) (SX127X_REG_IRQ_FLAGS h) (irq_seen h d))
                        (SX127X_REG_IRQ_FLAGS h) 0;
            fifo := fifo d; irq_raise := tl (irq_raise d);
            trace := EvWrite (SX127X_REG_IRQ_FLAGS h)
                             [Z.lor (irq_seen h d) (u8 f)]
                       :: EvRead (SX127X_REG_IRQ_FLAGS h) 1 :: trace d |}).
Proof.
  intros Hi. unfold sx127X_clearLoRaFlag, bind.
  rewrite (getLoRaAllFlag_run h d Hi).
  assert (Hv : u8 (Z.lor (irq_seen h d) (u8 f))
               = Z.lor (irq_seen h d) (u8 f)).
  { apply u8_small, lor_byte; apply u8_range. }
  rewrite Hv, write_reg_irq by exact Hi. unfold ret. cbn [fst snd].
  unfold reg. cbn [regs]. rewrite upd_same, Hv.
  rewrite (u8_small (irq_seen h d)) by apply u8_range.
  now rewrite ldiff_lor_self.
Qed.




End FlagFacts.

(** ** Receive *)

Section Receive.

Variable h : sx1278_h.



End Receive.



(** Three runs on a chip already in RXContinuous with a 4-byte packet in
    the FIFO: RXDone alone delivers the packet; RXDone together with the CRC
    error gives [-EBADMSG]; RXTimeout gives [-ENODATA]; so does a radio that
    stays silent for all 250 rounds, after 5 seconds of sleep. *)
Example loraspi_read_runs :
  let lrdata := {| rx_buf := []; tx_buf := []; tx_buflen := 0;
                   bufmaxlen := 16 |} in
  let chip ev := {| regs := fun a => if a =? 0x01 then 0x85
                                     else if a =? 0x13 then 4 else 0;
                    fifo := fun a => 0x10 + a;
                    irq_raise := ev; trace := [] |} in
  let run ev := loraspi_read sx1278_datasheet lrdata 16 (chip ev) in
  fst (run [0x40]) = (4, {| rx_buf := [0x10; 0x11; 0x12; 0x13] ++ repeat 0 12;
                            tx_buf := []; tx_buflen := 0; bufmaxlen := 16 |},
                      [0x10; 0x11; 0x12; 0x13])
  /\ fst (fst (fst (run [0x60]))) = - EBADMSG
  /\ fst (fst (fst (run [0xA0]))) = - EBADMSG
  /\ fst (fst (fst (run [0x80]))) = - ENODATA
  /\ fst (fst (fst (run []))) = - ENODATA
  /\ slept (trace (snd (run []))) = 5000.
Proof. vm_compute. repeat split. Qed.

(** ** Transmit *)

Section Transmit.

Variable h : sx1278_h.

(** *** Frames of the bus operations *)

Lemma stable_ret {A : Type} (X : list Z) (a : A) : stable X (ret a).
Proof. intros d. simpl. auto. Qed.

Lemma stable_bind {A B : Type} (X : list Z) (m : M A) (k : A -> M B) :
  stable X m -> (forall a, stable X (k a)) -> stable X (bind m k).
Proof.
  intros Hm Hk d. unfold bind.
  destruct (Hm d) as (Hi & Hs & Hr).
  destruct (m d) as [a d1]. cbn [snd] in *.
  destruct (Hk a d1) as (Hi' & Hs' & Hr').
  split; [congruence | split; [congruence |]].
  intros x Hx. rewrite Hr', Hr; auto.
Qed.

Lemma stable_read_u8 (X : list Z) (a : Z) :
  plain_reg h a -> stable X (read_u8 h a).
Proof.
  intros Hp d. rewrite (read_u8_plain h a d Hp). simpl. auto.
Qed.

Lemma stable_write_plain (X : list Z) (a v : Z) :
  plain_reg h a -> ~ In a X -> stable X (sx127X_write_reg h a [v]).
Proof.
  intros Hp Hn d. rewrite (write_reg_plain h a v d Hp). simpl.
  split; [reflexivity | split; [reflexivity |]].
  intros x Hx. apply upd_other. intros ->. contradiction.
Qed.

Lemma stable_setState (X : list Z) (st : Z) :
  plain_reg h (SX127X_REG_OP_MODE h) ->
  ~ In (SX127X_REG_OP_MODE h) X ->
  stable X (sx127X_setState h st).
Proof.
  intros Hp Hn d. rewrite (setState_run h st d Hp). simpl.
  split; [reflexivity | split; [reflexivity |]].
  intros x Hx. apply upd_other. intros ->. contradiction.
Qed.

(** A burst into the FIFO moves the address pointer and nothing else of
    the register file. *)
Lemma chip_write_fifo (X : list Z) (buf : list Z) :
  ~ In (SX127X_REG_FIFO_ADDR_PTR h) X ->
  forall d,
    irq_raise (snd (chip_write h (SX127X_REG_FIFO h) buf d)) = irq_raise d
    /\ forall x, In x X ->
         regs (snd (chip_write h (SX127X_REG_FIFO h) buf d)) x = regs d x.
Proof.
  intros Hn. induction buf as [| b bs IH]; intros d; [simpl; auto|].
  cbn [chip_write]. unfold bind, chip_write1, next_adr.
  rewrite !Z.eqb_refl. cbv beta iota zeta.
  match goal with |- context [chip_write h _ bs ?s] =>
    destruct (IH s) as (Hi & Hr) end.
  split; [exact Hi|].
  intros x Hx. rewrite (Hr x Hx). cbn [regs].
  apply upd_other. intros ->. contradiction.
Qed.

Lemma stable_write_fifo (X : list Z) (buf : list Z) :
  0 <= SX127X_REG_FIFO h < 128 ->
  ~ In (SX127X_REG_FIFO_ADDR_PTR h) X ->
  stable X (sx127X_write_reg h (SX127X_REG_FIFO h) buf).
Proof.
  intros Hf Hn d.
  pose proof (write_reg_trace h (SX127X_REG_FIFO h) buf d) as Ht.
  split; [| split].
  - unfold sx127X_write_reg, bind, log, ret. cbn [snd fst].
    rewrite adr_wire by exact Hf.
    match goal with |- context [chip_write h _ buf ?s] =>
      destruct (chip_write_fifo X buf Hn s) as (Hi & _);
      destruct (chip_write h _ buf s) as [u d1] end.
    exact Hi.
  - rewrite Ht. reflexivity.
  - intros x Hx.
    unfold sx127X_write_reg, bind, log, ret. cbn [snd fst].
    rewrite adr_wire by exact Hf.
    match goal with |- context [chip_write h _ buf ?s] =>
      destruct (chip_write_fifo X buf Hn s) as (_ & Hr);
      destruct (chip_write h _ buf s) as [u d1] end.
    exact (Hr x Hx).
Qed.

Lemma clearLoRaFlag_effect (f : Z) (d : spi_device) :
  irq_ok h ->
  let d' := snd (sx127X_clearLoRaFlag h f d) in
  regs d' (SX127X_REG_IRQ_FLAGS h) = 0
  /\ irq_raise d' = tl (irq_raise d)
  /\ slept (trace d') = slept (trace d)
  /\ forall x, x <> SX127X_REG_IRQ_FLAGS h -> regs d' x = regs d x.
Proof.
  intros Hi d'. unfold d'. rewrite (clearLoRaFlag_run h f d Hi).
  cbn [snd regs irq_raise trace slept]. rewrite upd_same.
  repeat split. intros x Hx. now rewrite !upd_other.
Qed.

Lemma sendLoRaData_status (buf : list Z) (len : Z) (d : spi_device) :
  0 <= len -> len <= Z.of_nat (length buf) ->
  fst (sx127X_sendLoRaData h buf len d) = Z.min len 255.
Proof.
  intros H0 Hl. unfold sx127X_sendLoRaData, bind, SX127X_MAX_FIFO_LENGTH.
  destruct (read_u8 h _ d) as [base d1].
  destruct (sx127X_write_reg h _ [base] d1) as [w d2].
  set (blen := u8 (if len <? 255 then len else 255)).
  assert (Hb : blen = Z.min len 255).
  { unfold blen. destruct (Z.ltb_spec len 255); rewrite u8_small; lia. }
  pose proof (write_reg_status h (SX127X_REG_FIFO h)
                (firstn (Z.to_nat blen) buf) d2) as Hs.
  destruct (sx127X_write_reg h (SX127X_REG_FIFO h) _ d2) as [c d3].
  cbn [fst] in Hs.
  destruct (sx127X_write_reg h _ [u8 c] d3) as [w' d4]. unfold ret.
  cbn [fst]. rewrite Hs, length_firstn. lia.
Qed.

Lemma stable_sendLoRaData (X : list Z) (buf : list Z) (len : Z) :
  0 <= SX127X_REG_FIFO h < 128 ->
  plain_reg h (SX127X_REG_FIFO_TX_BASE_ADDR h) ->
  plain_reg h (SX127X_REG_FIFO_ADDR_PTR h) ->
  plain_reg h (SX127X_REG_PAYLOAD_LENGTH h) ->
  ~ In (SX127X_REG_FIFO_ADDR_PTR h) X ->
  ~ In (SX127X_REG_PAYLOAD_LENGTH h) X ->
  stable X (sx127X_sendLoRaData h buf len).
Proof.
  intros Hf Htx Hptr Hpl Hn1 Hn2. unfold sx127X_sendLoRaData.
  apply stable_bind; [now apply stable_read_u8 | intros base].
  apply stable_bind; [now apply stable_write_plain | intros _].
  apply stable_bind; [now apply stable_write_fifo | intros c].
  apply stable_bind; [now apply stable_write_plain | intros _].
  apply stable_ret.
Qed.

Lemma getLoRaPreambleLen_run (d : spi_device) :
  plain_reg h (SX127X_REG_PREAMBLE_MSB h) ->
  plain_reg h (SX127X_REG_PREAMBLE_MSB h + 1) ->
  sx127X_getLoRaPreambleLen h d
  = (reg d (SX127X_REG_PREAMBLE_MSB h) * 256
     + reg d (SX127X_REG_PREAMBLE_MSB h + 1),
     snd (log (EvRead (SX127X_REG_PREAMBLE_MSB h) 2) d)).
Proof.
  intros Hm Hl. unfold sx127X_getLoRaPreambleLen, sx127X_read_reg, bind.
  cbn [log fst snd chip_read]. unfold bind.
  rewrite adr_read by apply Hm.
  unfold chip_read1 at 1.
  rewrite (plain_not_fifo h _ Hm), (plain_not_irq h _ Hm).
  unfold next_adr. rewrite (plain_not_fifo h _ Hm).
  unfold chip_read1.
  rewrite (plain_not_fifo h _ Hl), (plain_not_irq h _ Hl).
  unfold ret. cbn [fst snd nth regs]. fold (reg d (SX127X_REG_PREAMBLE_MSB h)).
  fold (reg d (SX127X_REG_PREAMBLE_MSB h + 1)).
  f_equal. unfold u32.
  pose proof (reg_range d (SX127X_REG_PREAMBLE_MSB h)).
  pose proof (reg_range d (SX127X_REG_PREAMBLE_MSB h + 1)).
  apply Z.mod_small. lia.
Qed.

(** *** The wait for TX-done *)

Lemma seen_tx (a r T : Z) :
  u8 (Z.land (u8 (Z.lor a r)) T)
  = Z.lor (u8 (Z.land a T)) (u8 (Z.land r T)).
Proof.
  rewrite !u8_land. apply Z.bits_inj'. intros n Hn.
  rewrite !Z.lor_spec, !Z.land_spec, !Z.lor_spec.
  destruct (Z.testbit a n), (Z.testbit r n), (Z.testbit T n),
    (Z.testbit 255 n); reflexivity.
Qed.

(** What one poll of the TX-done flag reads. *)
Lemma tx_poll (d : spi_device) :
  irq_ok h ->
  u8 (Z.land (regs d (SX127X_REG_IRQ_FLAGS h)) (SX127X_FLAG_TXDONE h)) = 0 ->
  u8 (Z.land (irq_seen h d) (SX127X_FLAG_TXDONE h))
  = u8 (Z.land (hd 0 (irq_raise d)) (SX127X_FLAG_TXDONE h)).
Proof.
  intros Hi H0. unfold irq_seen. rewrite seen_tx, H0. apply Z.lor_0_l.
Qed.

Lemma hd_nth (l : list Z) : hd 0 l = nth 0 l 0.
Proof. now destruct l. Qed.

Lemma nth_tl (k : nat) (l : list Z) : nth k (tl l) 0 = nth (S k) l 0.
Proof. destruct l; [now destruct k | reflexivity]. Qed.

Lemma quiet_head (n : nat) (l : list Z) :
  Forall (fun r => tx_done_in h r = false) (firstn (S n) l) ->
  u8 (Z.land (hd 0 l) (SX127X_FLAG_TXDONE h)) = 0
  /\ Forall (fun r => tx_done_in h r = false) (firstn n (tl l)).
Proof.
  destruct l as [| r rs]; cbn [firstn hd tl].
  - intros _. split; [reflexivity |]. now rewrite firstn_nil.
  - intros HF. inversion HF as [| ? ? Hr Hrs]; subst. split; [| exact Hrs].
    unfold tx_done_in in Hr. apply negb_false_iff in Hr.
    now apply Z.eqb_eq in Hr.
Qed.

(** No TX-done within the budget: the loop runs all its rounds, sleeps
    between them, and reports 0. *)
Lemma tx_wait_timeout (n : nat) :
  irq_ok h ->
  forall c d,
    (0 < n)%nat ->
    u8 (Z.land (regs d (SX127X_REG_IRQ_FLAGS h)) (SX127X_FLAG_TXDONE h)) = 0 ->
    Forall (fun r => tx_done_in h r = false) (firstn n (irq_raise d)) ->
    fst (tx_wait h n c d) = 0
    /\ slept (trace (snd (tx_wait h n c d)))
       = slept (trace d) + 20 * (Z.of_nat n - 1).
Proof.
  intros Hi. induction n as [| n IH]; intros c d Hn H0 HF; [lia|].
  destruct (quiet_head n _ HF) as (Hhd & Htl).
  cbn [tx_wait]. unfold bind.
  rewrite (getLoRaFlag_run h _ d Hi).
  rewrite (tx_poll d Hi H0), Hhd. cbn [Z.eqb negb].
  destruct n as [| n].
  - cbn [Z.of_nat Pos.of_succ_nat Z.eqb Pos.eqb tx_wait]. unfold ret.
    cbn [fst snd trace slept]. split; [reflexivity | lia].
  - replace (Z.of_nat (S (S n)) =? 1) with false
      by (symmetry; apply Z.eqb_neq; lia).
    unfold msleep, log. cbn [fst snd regs fifo irq_raise trace].
    match goal with |- context [tx_wait h (S n) c ?s] =>
      destruct (IH c s) as (Hr & Hs) end.
    + lia.
    + cbn [regs]. rewrite upd_same. rewrite (tx_poll d Hi H0). exact Hhd.
    + exact Htl.
    + split; [exact Hr |]. rewrite Hs. cbn [trace slept].
      rewrite !Nat2Z.inj_succ. lia.
Qed.

(** TX-done raised before round [k] (counting from 0) of the budget, and
    not earlier: the loop ends there and reports [c]. *)
Lemma tx_wait_done (k : nat) :
  irq_ok h ->
  forall n c d,
    (k < n)%nat ->
    u8 (Z.land (regs d (SX127X_REG_IRQ_FLAGS h)) (SX127X_FLAG_TXDONE h)) = 0 ->
    Forall (fun r => tx_done_in h r = false) (firstn k (irq_raise d)) ->
    tx_done_in h (nth k (irq_raise d) 0) = true ->
    fst (tx_wait h n c d) = c
    /\ slept (trace (snd (tx_wait h n c d)))
       = slept (trace d) + 20 * Z.of_nat k.
Proof.
  intros Hi. induction k as [| k IH]; intros n c d Hk H0 HF Hd;
    (destruct n as [| n]; [lia|]); cbn [tx_wait]; unfold bind;
    rewrite (getLoRaFlag_run h _ d Hi); rewrite (tx_poll d Hi H0).
  - rewrite hd_nth. unfold tx_done_in in Hd. rewrite Hd.
    unfold ret. cbn [fst snd trace slept]. split; [reflexivity | lia].
  - destruct (quiet_head k _ HF) as (Hhd & Htl).
    rewrite Hhd. cbn [Z.eqb negb].
    replace (Z.of_nat (S n) =? 1) with false
      by (symmetry; apply Z.eqb_neq; lia).
    unfold msleep, log. cbn [fst snd regs fifo irq_raise trace].
    match goal with |- context [tx_wait h n c ?s] =>
      destruct (IH n c s) as (Hr & Hs) end.
    + lia.
    + cbn [regs]. rewrite upd_same. rewrite (tx_poll d Hi H0). exact Hhd.
    + exact Htl.
    + cbn [irq_raise]. rewrite nth_tl. exact Hd.
    + split; [exact Hr |]. rewrite Hs. cbn [trace slept].
      rewrite Nat2Z.inj_succ. lia.
Qed.

End Transmit.

Section TransmitRun.

Variable h : sx1278_h.
Hypothesis Hok : tx_header_ok h.

Lemma tx_header_facts :
  irq_ok h
  /\ 0 <= SX127X_REG_FIFO h < 128
  /\ plain_reg h (SX127X_REG_OP_MODE h)
  /\ plain_reg h (SX127X_REG_FIFO_TX_BASE_ADDR h)
  /\ plain_reg h (SX127X_REG_FIFO_ADDR_PTR h)
  /\ plain_reg h (SX127X_REG_PAYLOAD_LENGTH h)
  /\ plain_reg h (SX127X_REG_PREAMBLE_MSB h)
  /\ plain_reg h (SX127X_REG_PREAMBLE_MSB h + 1)
  /\ (forall a,
        In a [SX127X_REG_OP_MODE h; SX127X_REG_FIFO_TX_BASE_ADDR h;
              SX127X_REG_FIFO_ADDR_PTR h; SX127X_REG_PAYLOAD_LENGTH h] ->
        ~ In a [SX127X_REG_PREAMBLE_MSB h; SX127X_REG_PREAMBLE_MSB h + 1;
                SX127X_REG_IRQ_FLAGS h]).
Proof.
  destruct Hok as (Hi & Hf & Hp & Hd).
  rewrite Forall_forall in Hp, Hd.
  split; [exact Hi | split; [exact Hf |]].
  repeat (split; [apply Hp; simpl; tauto |]).
  intros a Ha [E | [E | [E | []]]].
  - destruct (Hd a Ha) as (H1 & _). now apply H1.
  - destruct (Hd a Ha) as (_ & H2). now apply H2.
  - destruct (Hp a) as (_ & _ & H3); [simpl in *; tauto |]. now apply H3.
Qed.

(** [loraspi_write] up to its wait loop: the FIFO is filled with
    [min (size - status) 255] bytes, the flags register is cleared, and
    the loop starts with the budget of that count plus the preamble
    length plus 3. *)
Lemma loraspi_write_run
    (lrdata : lora_struct) (buf : list Z) (size status : Z)
    (d : spi_device) :
  0 <= status < size -> size <= Z.of_nat (length buf) ->
  size <= bufmaxlen lrdata ->
  let c := Z.min (size - status) 255 in
  let p := reg d (SX127X_REG_PREAMBLE_MSB h) * 256
           + reg d (SX127X_REG_PREAMBLE_MSB h + 1) in
  exists d0 lr,
    u8 (Z.land (regs d0 (SX127X_REG_IRQ_FLAGS h)) (SX127X_FLAG_TXDONE h)) = 0
    /\ irq_raise d0 = tl (irq_raise d)
    /\ slept (trace d0) = slept (trace d)
    /\ loraspi_write h lrdata buf size status d
       = (c' <- tx_wait h (Z.to_nat (c + p + 3)) c ;;
          sx127X_setState h (SX127X_STANDBY_MODE h) ;;
          sx127X_setState h (SX127X_RXCONTINUOUS_MODE h) ;;
          ret (Some (c', lr)))%drv d0.
Proof.
  intros Hst Hlen Hcap c p.
  destruct tx_header_facts
    as (Hi & Hf & Hop & Htxb & Hptr & Hpl & Hmsb & Hlsb & Hout).
  set (X := [SX127X_REG_PREAMBLE_MSB h; SX127X_REG_PREAMBLE_MSB h + 1;
             SX127X_REG_IRQ_FLAGS h]) in *.
  unfold loraspi_write.
  destruct (Z.ltb_spec (bufmaxlen lrdata) size) as [Hbig | _]; [lia|].
  destruct (Z.geb_spec status size) as [Hge | _]; [lia|].
  set (copied := firstn (Z.to_nat (size - status)) buf).
  set (tx := copied ++ skipn (length copied)
                             (repeat 0 (Z.to_nat (bufmaxlen lrdata)))).
  assert (Htx : size - status <= Z.of_nat (length tx)).
  { unfold tx, copied. rewrite length_app, length_firstn. lia. }
  unfold bind at 1.
  destruct (stable_setState h X (SX127X_STANDBY_MODE h) Hop
              (Hout _ (or_introl eq_refl)) d) as (Hi1 & Hs1 & Hr1).
  destruct (sx127X_setState h (SX127X_STANDBY_MODE h) d) as [u1 d1].
  cbn [snd] in Hi1, Hs1, Hr1.
  unfold bind at 1.
  destruct (stable_write_plain h X (SX127X_REG_FIFO_TX_BASE_ADDR h) 0x80 Htxb
              (Hout _ (or_intror (or_introl eq_refl))) d1)
    as (Hi2 & Hs2 & Hr2).
  destruct (sx127X_write_reg h (SX127X_REG_FIFO_TX_BASE_ADDR h) [0x80] d1)
    as [w2 d2].
  cbn [snd] in Hi2, Hs2, Hr2.
  unfold bind at 1.
  pose proof (sendLoRaData_status h tx (size - status) d2
                ltac:(lia) Htx) as Hc.
  destruct (stable_sendLoRaData h X tx (size - status) Hf Htxb Hptr Hpl
              (Hout _ (or_intror (or_intror (or_introl eq_refl))))
              (Hout _ (or_intror (or_intror (or_intror (or_introl eq_refl)))))
              d2) as (Hi3 & Hs3 & Hr3).
  destruct (sx127X_sendLoRaData h tx (size - status) d2) as [c3 d3].
  cbn [fst snd] in Hc, Hi3, Hs3, Hr3. fold c in Hc. subst c3.
  unfold bind at 1.
  destruct (clearLoRaFlag_effect h (SX127X_FLAG_TXDONE h) d3 Hi)
    as (Hz4 & Hi4 & Hs4 & Hr4).
  destruct (sx127X_clearLoRaFlag h (SX127X_FLAG_TXDONE h) d3) as [u4 d4].
  cbn [snd] in Hz4, Hi4, Hs4, Hr4.
  assert (Hcpos : (c >? 0) = true) by (apply Z.gtb_lt; unfold c; lia).
  rewrite Hcpos.
  rewrite bind_bind. unfold bind at 1.
  destruct (stable_setState h X (SX127X_TX_MODE h) Hop
              (Hout _ (or_introl eq_refl)) d4) as (Hi5 & Hs5 & Hr5).
  destruct (sx127X_setState h (SX127X_TX_MODE h) d4) as [u5 d5].
  cbn [snd] in Hi5, Hs5, Hr5.
  rewrite bind_bind,
    (bind_run _ _ _ _ _ (getLoRaPreambleLen_run h d5 Hmsb Hlsb)).
  assert (Hmsb' : reg d5 (SX127X_REG_PREAMBLE_MSB h)
                  = reg d (SX127X_REG_PREAMBLE_MSB h)).
  { unfold reg. rewrite Hr5, Hr4, Hr3, Hr2, Hr1;
      try (unfold X; simpl; tauto). apply Hmsb. }
  assert (Hlsb' : reg d5 (SX127X_REG_PREAMBLE_MSB h + 1)
                  = reg d (SX127X_REG_PREAMBLE_MSB h + 1)).
  { unfold reg. rewrite Hr5, Hr4, Hr3, Hr2, Hr1;
      try (unfold X; simpl; tauto). apply Hlsb. }
  rewrite Hmsb', Hlsb'. fold p.
  assert (Hb : Z.to_nat (u32 (c + p + 1 + 2)) = Z.to_nat (c + p + 3)).
  { unfold u32. rewrite Z.mod_small; [f_equal; lia |].
    pose proof (reg_range d (SX127X_REG_PREAMBLE_MSB h)).
    pose proof (reg_range d (SX127X_REG_PREAMBLE_MSB h + 1)).
    unfold c, p. lia. }
  rewrite Hb.
  eexists. eexists. split; [| split; [| split; [| reflexivity]]].
  - cbn [log snd regs]. rewrite Hr5 by (unfold X; simpl; tauto).
    rewrite Hz4. reflexivity.
  - cbn [log snd irq_raise]. now rewrite Hi5, Hi4, Hi3, Hi2, Hi1.
  - cbn [log snd trace slept]. now rewrite Hs5, Hs4, Hs3, Hs2, Hs1.
Qed.

End TransmitRun.

(** The tail of [loraspi_write]: back to Standby, then RXContinuous. *)
Lemma tx_finish {A : Type} (h : sx1278_h) (x : A) (d : spi_device) :
  plain_reg h (SX127X_REG_OP_MODE h) ->
  let op := SX127X_REG_OP_MODE h in
  let r := (sx127X_setState h (SX127X_STANDBY_MODE h) ;;
            sx127X_setState h (SX127X_RXCONTINUOUS_MODE h) ;;
            ret x)%drv d in
  fst r = x
  /\ slept (trace (snd r)) = slept (trace d)
  /\ Z.land (reg (snd r) op) 0x07 = Z.land (SX127X_RXCONTINUOUS_MODE h) 0x07
  /\ exists v1 v2,
       writes (trace (snd r)) = (op, [v2]) :: (op, [v1]) :: writes (trace d)
       /\ Z.land v1 0x07 = Z.land (SX127X_STANDBY_MODE h) 0x07
       /\ Z.land v2 0x07 = Z.land (SX127X_RXCONTINUOUS_MODE h) 0x07.
Proof.
  intros Hop op r. unfold r.
  rewrite (bind_run _ _ _ _ _ (setState_run h _ d Hop)).
  rewrite (bind_run _ _ _ _ _ (setState_run h _ _ Hop)).
  unfold ret. cbn [fst snd trace slept writes].
  split; [reflexivity | split; [reflexivity | split]].
  - unfold reg at 1. cbn [regs]. fold op. rewrite upd_same.
    mask_norm. reflexivity.
  - eexists. eexists. split; [reflexivity | split]; mask_norm; reflexivity.
Qed.

(** C8: [loraspi_write] of [c] transferred bytes with preamble length [p]
    polls the TX-done flag at most [c + p + 3] times, 20 ms apart.  [polls]
    lists what the radio raises before each poll.  If TX-done is in none of
    the first [c + p + 3] the function reports 0, not [c]; if it first comes
    with poll [k] within the budget (the last round, [k = c + p + 2],
    included) the function reports [c].  In both cases, and whatever the
    radio does, the last two writes are to the op-mode register, to Standby
    and then to RXContinuous, the mode the chip is left in.  The transmit
    is one whose data fits the driver's buffer, [size <= bufmaxlen]: the
    function does not check this, and a longer one overruns [tx_buf]. *)
Theorem loraspi_write_budget
    (h : sx1278_h) (lrdata : lora_struct) (buf : list Z) (size status : Z)
    (d : spi_device) :
  tx_header_ok h ->
  0 <= status < size -> size <= Z.of_nat (length buf) ->
  size <= bufmaxlen lrdata ->
  let op := SX127X_REG_OP_MODE h in
  let c := Z.min (size - status) 255 in
  let p := reg d (SX127X_REG_PREAMBLE_MSB h) * 256
           + reg d (SX127X_REG_PREAMBLE_MSB h + 1) in
  let budget := Z.to_nat (c + p + 3) in
  let polls := tl (irq_raise d) in
  let sent :=
    option_map fst (fst (loraspi_write h lrdata buf size status d)) in
  let d' := snd (loraspi_write h lrdata buf size status d) in
  (Forall (fun r => tx_done_in h r = false) (firstn budget polls) ->
   sent = Some 0 /\ slept (trace d') = slept (trace d) + 20 * (c + p + 2))
  /\ (forall k, (k < budget)%nat ->
        Forall (fun r => tx_done_in h r = false) (firstn k polls) ->
        tx_done_in h (nth k polls 0) = true ->
        sent = Some c
        /\ slept (trace d') = slept (trace d) + 20 * Z.of_nat k)
  /\ Z.land (reg d' op) 0x07 = Z.land (SX127X_RXCONTINUOUS_MODE h) 0x07
  /\ exists v1 v2 t,
       writes (trace d') = (op, [v2]) :: (op, [v1]) :: t
       /\ Z.land v1 0x07 = Z.land (SX127X_STANDBY_MODE h) 0x07
       /\ Z.land v2 0x07 = Z.land (SX127X_RXCONTINUOUS_MODE h) 0x07.
Proof.
  intros Hok Hst Hlen Hcap op c p budget polls sent d'.
  destruct (tx_header_facts h Hok) as (Hi & _ & Hop & _).
  destruct (loraspi_write_run h Hok lrdata buf size status d Hst Hlen Hcap)
    as (d0 & lr & Hz & Hq & Hs & Hrun).
  fold c p budget in Hrun.
  assert (Hc : 1 <= c <= 255) by (unfold c; lia).
  assert (Hp : 0 <= p).
  { pose proof (reg_range d (SX127X_REG_PREAMBLE_MSB h)).
    pose proof (reg_range d (SX127X_REG_PREAMBLE_MSB h + 1)).
    unfold p. lia. }
  unfold sent, d'. rewrite Hrun. fold polls in Hq.
  pose proof (tx_wait_timeout h budget Hi c d0) as Hto.
  pose proof (fun k => tx_wait_done h k Hi budget c d0) as Hdone.
  rewrite Hq in Hto, Hdone.
  destruct (tx_wait h budget c d0) as [s dw] eqn:Ew.
  cbn [fst snd] in Hto, Hdone. rewrite (bind_run _ _ _ _ _ Ew).
  destruct (tx_finish h (Some (s, lr)) dw Hop)
    as (Hf1 & Hf2 & Hf3 & v1 & v2 & Hf4).
  cbv zeta in Hf1, Hf2, Hf3, Hf4. fold op in Hf3, Hf4.
  rewrite Hf1, Hf2. cbn [option_map fst].
  split; [| split; [| split]].
  - intros HF. destruct Hto as (-> & Hsl); [unfold budget; lia | exact Hz
                                            | exact HF |].
    split; [reflexivity |]. rewrite Hsl, Hs. unfold budget. lia.
  - intros k Hk HF Hd.
    destruct (Hdone k Hk Hz HF Hd) as (-> & Hsl).
    split; [reflexivity |]. now rewrite Hsl, Hs.
  - exact Hf3.
  - exists v1, v2. eexists. exact Hf4.
Qed.

Lemma loraspi_write_budget_witness :
  let h := sx1278_datasheet in
  let lrdata := {| rx_buf := []; tx_buf := []; tx_buflen := 0;
                   bufmaxlen := 16 |} in
  let d := quiet_chip (fun a => if a =? 0x21 then 8 else 0) in
  tx_header_ok h
  /\ 0 <= 0 < 3
  /\ 3 <= Z.of_nat (length [0x4C; 0x6F; 0x52])
  /\ 3 <= bufmaxlen lrdata
  /\ option_map fst (fst (loraspi_write h lrdata [0x4C; 0x6F; 0x52] 3 0 d))
     = Some 0
  /\ slept (trace (snd (loraspi_write h lrdata [0x4C; 0x6F; 0x52] 3 0 d)))
     = 20 * (3 + 8 + 2).
Proof.
  assert (Hok : tx_header_ok sx1278_datasheet).
  { unfold tx_header_ok, irq_ok, plain_reg. simpl.
    repeat split; try lia; repeat constructor; lia. }
  split; [exact Hok | split; [lia | split; [simpl; lia |]]].
  split; [simpl; lia |].
  refine (proj1 (loraspi_write_budget sx1278_datasheet _ [0x4C; 0x6F; 0x52]
                   3 0 (quiet_chip (fun a => if a =? 0x21 then 8 else 0))
                   Hok _ _ _) _).
  - lia.
  - simpl. lia.
  - simpl. lia.
  - simpl. constructor.
Defined.

(** Runs of a 3-byte send with preamble length 8, so a budget of 14 polls;
    the first entry of the radio's schedule goes to the clearing of TX-done.
    TX-done with the second poll: 3 bytes sent after one sleep.  TX-done
    with the last poll of the budget: 3 bytes sent.  TX-done one poll
    later: 0.  Each time the chip is left in RXContinuous (mode 5). *)
Example loraspi_write_runs :
  let lrdata := {| rx_buf := []; tx_buf := []; tx_buflen := 0;
                   bufmaxlen := 16 |} in
  let chip ev := {| regs := fun a => if a =? 0x21 then 8
                                     else if a =? 0x01 then 0x81 else 0;
                    fifo := fun _ => 0; irq_raise := ev; trace := [] |} in
  let run ev := loraspi_write sx1278_datasheet lrdata [0x4C; 0x6F; 0x52] 3 0
                  (chip ev) in
  let sent ev := option_map fst (fst (run ev)) in
  let mode ev := reg (snd (run ev)) 0x01 in
  (sent [0; 0; 0x08] = Some 3
   /\ slept (trace (snd (run [0; 0; 0x08]))) = 20)
  /\ sent (repeat 0 14 ++ [0x08]) = Some 3
  /\ sent (repeat 0 15 ++ [0x08]) = Some 0
  /\ sent [0x08] = Some 0
  /\ mode [0; 0; 0x08] = 0x85 /\ mode [] = 0x85.
Proof. vm_compute. repeat split. Qed.

(** When [copy_from_user] copies nothing, [loraspi_write] returns 0 at once
    and the chip is not touched. *)
Lemma loraspi_write_nothing_copied
    (h : sx1278_h) (lrdata : lora_struct) (buf : list Z) (size status : Z)
    (d : spi_device) :
  size <= bufmaxlen lrdata ->
  size <= status ->
  option_map fst (fst (loraspi_write h lrdata buf size status d)) = Some 0
  /\ snd (loraspi_write h lrdata buf size status d) = d.
Proof.
  intros Hcap Hs. unfold loraspi_write.
  destruct (Z.ltb_spec (bufmaxlen lrdata) size) as [Hbig | _]; [lia |].
  destruct (Z.geb_spec status size) as [_ | Hlt]; [| lia].
  split; reflexivity.
Qed.

(** A [size] above the buffer length has no defined outcome, whatever
    [copy_from_user] reports. *)
Lemma loraspi_write_overrun
    (h : sx1278_h) (lrdata : lora_struct) (buf : list Z) (size status : Z)
    (d : spi_device) :
  bufmaxlen lrdata < size ->
  fst (loraspi_write h lrdata buf size status d) = None.
Proof.
  intros Hbig. unfold loraspi_write.
  destruct (Z.ltb_spec (bufmaxlen lrdata) size) as [_ | Hle]; [| lia].
  reflexivity.
Qed.

(** * Further properties of the driver *)

(** ** Bursts over ordinary registers, and bytes by enumeration *)

Lemma forall_byte (P : Z -> bool) :
  forallb P all_bytes = true -> forall x, 0 <= x < 256 -> P x = true.
Proof.
  intros H x Hx. rewrite forallb_forall in H. apply H.
  unfold all_bytes. apply in_map_iff. exists (Z.to_nat x).
  split; [lia |]. apply in_seq. lia.
Qed.

Section BurstFacts.

Variable h : sx1278_h.

Lemma read_reg_plain2 (a : Z) (d : spi_device) :
  plain_reg h a -> plain_reg h (a + 1) ->
  sx127X_read_reg h a 2 d
  = ((2, [reg d a; reg d (a + 1)]), snd (log (EvRead a 2) d)).
Proof.
  intros H0 H1.
  unfold sx127X_read_reg, bind.
  cbn [log fst snd chip_read length]. unfold bind.
  rewrite adr_read by apply H0.
  unfold chip_read1, next_adr.
  repeat (rewrite ?(plain_not_fifo h _ H0), ?(plain_not_irq h _ H0), ?(plain_not_fifo h _ H1), ?(plain_not_irq h _ H1); cbv beta iota).
  reflexivity.
Qed.

Lemma read_reg_plain3 (a : Z) (d : spi_device) :
  plain_reg h a -> plain_reg h (a + 1) -> plain_reg h (a + 1 + 1) ->
  sx127X_read_reg h a 3 d
  = ((3, [reg d a; reg d (a + 1); reg d (a + 1 + 1)]),
     snd (log (EvRead a 3) d)).
Proof.
  intros H0 H1 H2.
  unfold sx127X_read_reg, bind.
  cbn [log fst snd chip_read length]. unfold bind.
  rewrite adr_read by apply H0.
  unfold chip_read1, next_adr.
  repeat (rewrite ?(plain_not_fifo h _ H0), ?(plain_not_irq h _ H0), ?(plain_not_fifo h _ H1), ?(plain_not_irq h _ H1), ?(plain_not_fifo h _ H2), ?(plain_not_irq h _ H2); cbv beta iota).
  reflexivity.
Qed.

Lemma write_reg_plain2 (a v0 v1 : Z) (d : spi_device) :
  plain_reg h a -> plain_reg h (a + 1) ->
  sx127X_write_reg h a [v0; v1] d
  = (2, {| regs := upd (upd (regs d) a (u8 v0)) (a + 1) (u8 v1);
           fifo := fifo d; irq_raise := irq_raise d;
           trace := EvWrite a [v0; v1] :: trace d |}).
Proof.
  intros H0 H1.
  unfold sx127X_write_reg, bind.
  cbn [log fst snd chip_write length]. unfold bind.
  rewrite adr_wire by apply H0.
  unfold chip_write1, next_adr.
  repeat (rewrite ?(plain_not_fifo h _ H0), ?(plain_not_irq h _ H0), ?(plain_not_fifo h _ H1), ?(plain_not_irq h _ H1); cbv beta iota).
  reflexivity.
Qed.

Lemma write_reg_plain3 (a v0 v1 v2 : Z) (d : spi_device) :
  plain_reg h a -> plain_reg h (a + 1) -> plain_reg h (a + 1 + 1) ->
  sx127X_write_reg h a [v0; v1; v2] d
  = (3, {| regs := upd (upd (upd (regs d) a (u8 v0)) (a + 1) (u8 v1))
                       (a + 1 + 1) (u8 v2);
           fifo := fifo d; irq_raise := irq_raise d;
           trace := EvWrite a [v0; v1; v2] :: trace d |}).
Proof.
  intros H0 H1 H2.
  unfold sx127X_write_reg, bind.
  cbn [log fst snd chip_write length]. unfold bind.
  rewrite adr_wire by apply H0.
  unfold chip_write1, next_adr.
  repeat (rewrite ?(plain_not_fifo h _ H0), ?(plain_not_irq h _ H0), ?(plain_not_fifo h _ H1), ?(plain_not_irq h _ H1), ?(plain_not_fifo h _ H2), ?(plain_not_irq h _ H2); cbv beta iota).
  reflexivity.
Qed.

End BurstFacts.

(** ** Preamble length *)

(** X1: the preamble length read back after [sx127X_setLoRaPreambleLen] is
    the length modulo 2^16: a length that fits 16 bits comes back exactly,
    and only the low 16 bits of a longer one are kept. *)
Theorem sx127X_preamble_roundtrip (h : sx1278_h) (len : Z) (d : spi_device) :
  plain_reg h (SX127X_REG_PREAMBLE_MSB h) ->
  plain_reg h (SX127X_REG_PREAMBLE_MSB h + 1) ->
  0 <= len ->
  fst (sx127X_getLoRaPreambleLen h (snd (sx127X_setLoRaPreambleLen h len d)))
  = len mod 65536.
Proof.
  intros Hm Hl Hlen. unfold sx127X_setLoRaPreambleLen.
  rewrite (bind_run _ _ _ _ _ (write_reg_plain2 h _ _ _ d Hm Hl)).
  unfold ret. cbn [snd].
  rewrite (getLoRaPreambleLen_run h _ Hm Hl). cbn [fst].
  unfold reg. cbn [regs].
  rewrite upd_same, upd_other, upd_same by lia.
  rewrite !u8_idem. unfold u8. rewrite Z.shiftr_div_pow2 by lia.
  change (2 ^ 8) with 256. Z.div_mod_to_equations. lia.
Qed.

Lemma sx127X_preamble_roundtrip_witness :
  let h := sx1278_datasheet in
  let d := quiet_chip (fun _ => 0) in
  (plain_reg h (SX127X_REG_PREAMBLE_MSB h)
   /\ plain_reg h (SX127X_REG_PREAMBLE_MSB h + 1) /\ 0 <= 300)
  /\ fst (sx127X_getLoRaPreambleLen h (snd (sx127X_setLoRaPreambleLen h 300 d)))
     = 300 mod 65536.
Proof.
  split.
  - unfold plain_reg. simpl. lia.
  - apply (sx127X_preamble_roundtrip sx1278_datasheet 300
             (quiet_chip (fun _ => 0)));
      unfold plain_reg; simpl; lia.
Defined.

(** ** RX timeout in symbols, CRC and spreading factor: MODEM_CONFIG2 *)

Section ModemConfig2.

Variable h : sx1278_h.
Hypothesis Hmc2 : plain_reg h (SX127X_REG_MODEM_CONFIG2 h).
Hypothesis Hlsb : plain_reg h (SX127X_REG_MODEM_CONFIG2 h + 1).

Lemma setLoRaRXByteTimeout_run (n : Z) (d : spi_device) :
  let mc2 := SX127X_REG_MODEM_CONFIG2 h in
  let nc := Z.max 1 (Z.min 1023 n) in
  sx127X_setLoRaRXByteTimeout h n d
  = (tt, {| regs := upd (upd (regs d) mc2
                             (u8 (Z.lor (Z.land (reg d mc2) 0xFC)
                                        (Z.shiftr nc 8))))
                        (mc2 + 1) (nc mod 256);
            fifo := fifo d; irq_raise := irq_raise d;
            trace := EvWrite mc2 [u8 (Z.lor (Z.land (reg d mc2) 0xFC)
                                            (Z.shiftr nc 8));
                                  u8 (nc mod 256)]
                       :: EvRead mc2 1 :: trace d |}).
Proof.
  intros mc2 nc.
  assert (Hc : (if (if n <? 1 then 1 else n) >? 1023 then 1023
                else if n <? 1 then 1 else n) = nc).
  { unfold nc. destruct (Z.ltb_spec n 1);
      [ destruct (Z.gtb_spec 1 1023); lia
      | destruct (Z.gtb_spec n 1023); lia ]. }
  unfold sx127X_setLoRaRXByteTimeout. cbv zeta. rewrite !Hc.
  rewrite (bind_run _ _ _ _ _ (read_u8_plain h _ d Hmc2)).
  rewrite (bind_run _ _ _ _ _ (write_reg_plain2 h _ _ _ _ Hmc2 Hlsb)).
  unfold ret. cbn [log snd regs fifo irq_raise trace]. fold mc2.
  rewrite !u8_idem. unfold u8 at 2. rewrite Z.mod_mod by lia. reflexivity.
Qed.

Lemma getLoRaRXByteTimeout_run (d : spi_device) :
  fst (sx127X_getLoRaRXByteTimeout h d)
  = Z.land (reg d (SX127X_REG_MODEM_CONFIG2 h)) 0x03 * 256
    + reg d (SX127X_REG_MODEM_CONFIG2 h + 1).
Proof.
  unfold sx127X_getLoRaRXByteTimeout.
  rewrite (bind_run _ _ _ _ _ (read_reg_plain2 h _ d Hmc2 Hlsb)).
  unfold ret. cbn [fst snd nth]. unfold u32.
  pose proof (reg_range d (SX127X_REG_MODEM_CONFIG2 h + 1)) as H1.
  assert (H3 : 0 <= Z.land (reg d (SX127X_REG_MODEM_CONFIG2 h)) 3 < 4).
  { change 3 with (Z.ones 2). rewrite Z.land_ones by lia.
    apply Z.mod_pos_bound. lia. }
  apply Z.mod_small. lia.
Qed.

(** How the two MSBs of the count sit in the byte written. *)
Lemma timeout_msb (m hi : Z) :
  0 <= m < 256 -> 0 <= hi < 4 ->
  let b := u8 (Z.lor (Z.land m 0xFC) hi) in
  Z.land b 0x03 = hi /\ Z.land b 0xFC = Z.land m 0xFC
  /\ Z.shiftr b 4 = Z.shiftr m 4.
Proof.
  intros Hm Hhi b. unfold b.
  assert (Hc : hi = 0 \/ hi = 1 \/ hi = 2 \/ hi = 3) by lia.
  assert (Hs : Z.shiftr (Z.land m 252) 4 = Z.shiftr m 4).
  { apply Z.eqb_eq.
    apply (forall_byte
             (fun x => Z.shiftr (Z.land x 252) 4 =? Z.shiftr x 4));
      [vm_compute; reflexivity | exact Hm]. }
  destruct Hc as [-> | [-> | [-> | ->]]];
    (split; [mask_norm; reflexivity | split; [mask_norm; reflexivity |]]);
    mask_norm; rewrite ?Z.shiftr_lor, Hs; simpl; rewrite ?Z.lor_0_r;
    reflexivity.
Qed.

End ModemConfig2.

(** X2: [sx127X_setLoRaRXByteTimeout] confines the count to 1..1023, and
    [sx127X_getLoRaRXByteTimeout] reads the confined count back; the write
    keeps the upper six bits of MODEM_CONFIG2, so the spreading factor
    reads as before. *)
Theorem sx127X_rx_byte_timeout_roundtrip
    (h : sx1278_h) (n : Z) (d : spi_device) :
  plain_reg h (SX127X_REG_MODEM_CONFIG2 h) ->
  plain_reg h (SX127X_REG_MODEM_CONFIG2 h + 1) ->
  let mc2 := SX127X_REG_MODEM_CONFIG2 h in
  let d' := snd (sx127X_setLoRaRXByteTimeout h n d) in
  fst (sx127X_getLoRaRXByteTimeout h d') = Z.max 1 (Z.min 1023 n)
  /\ Z.land (reg d' mc2) 0xFC = Z.land (reg d mc2) 0xFC
  /\ fst (sx127X_getLoRaSPRFactor h d') = fst (sx127X_getLoRaSPRFactor h d).
Proof.
  intros Hmc2 Hlsb mc2 d'.
  set (nc := Z.max 1 (Z.min 1023 n)).
  assert (Hnc : 1 <= nc <= 1023) by (unfold nc; lia).
  assert (Hhi : 0 <= Z.shiftr nc 8 < 4).
  { rewrite Z.shiftr_div_pow2 by lia. change (2 ^ 8) with 256.
    Z.div_mod_to_equations. lia. }
  destruct (timeout_msb (reg d mc2) (Z.shiftr nc 8) (reg_range d mc2) Hhi)
    as (H3 & Hfc & Hsh).
  assert (Hr0 : reg d' mc2
                = u8 (Z.lor (Z.land (reg d mc2) 0xFC) (Z.shiftr nc 8))).
  { unfold d'. rewrite (setLoRaRXByteTimeout_run h Hmc2 Hlsb n d).
    unfold reg at 1. cbn [snd regs]. fold mc2.
    rewrite upd_other, upd_same by lia. apply u8_idem. }
  assert (Hr1 : reg d' (mc2 + 1) = nc mod 256).
  { unfold d'. rewrite (setLoRaRXByteTimeout_run h Hmc2 Hlsb n d).
    unfold reg at 1. cbn [snd regs]. fold mc2 nc.
    rewrite upd_same. apply u8_small. apply Z.mod_pos_bound. lia. }
  split; [| split].
  - rewrite (getLoRaRXByteTimeout_run h Hmc2 Hlsb d'). fold mc2.
    rewrite Hr0, Hr1, H3. rewrite Z.shiftr_div_pow2 by lia.
    change (2 ^ 8) with 256. Z.div_mod_to_equations. lia.
  - rewrite Hr0. exact Hfc.
  - rewrite !(getLoRaSPRFactor_run h _ Hmc2). fold mc2.
    now rewrite Hr0, Hsh.
Qed.

Lemma sx127X_rx_byte_timeout_roundtrip_witness :
  let h := sx1278_datasheet in
  let d := quiet_chip (fun _ => 0x74) in
  (plain_reg h (SX127X_REG_MODEM_CONFIG2 h)
   /\ plain_reg h (SX127X_REG_MODEM_CONFIG2 h + 1))
  /\ fst (sx127X_getLoRaRXByteTimeout h
            (snd (sx127X_setLoRaRXByteTimeout h 5000 d)))
     = Z.max 1 (Z.min 1023 5000).
Proof.
  split.
  - unfold plain_reg. simpl. lia.
  - apply (sx127X_rx_byte_timeout_roundtrip sx1278_datasheet 5000
             (quiet_chip (fun _ => 0x74)));
      unfold plain_reg; simpl; lia.
Defined.

Lemma rmw_other (h : sx1278_h) (a x : Z) (f : Z -> Z) (d : spi_device) :
  plain_reg h a -> x <> a ->
  reg (snd ((y <- read_u8 h a ;; sx127X_write_reg h a [u8 (f y)] ;; ret tt)%drv d)) x
  = reg d x.
Proof.
  intros Hp Hx. rewrite rmw_run by exact Hp. unfold reg. cbn [snd regs].
  now rewrite upd_other.
Qed.

(** A field of a byte seen through a wider mask. *)
Lemma land_narrow (x y m k : Z) :
  Z.land m k = k -> Z.land x m = Z.land y m -> Z.land x k = Z.land y k.
Proof.
  intros Hk H. rewrite <- Hk, !Z.land_assoc. now rewrite H.
Qed.

Lemma shiftr4_high (x y : Z) :
  Z.land x 0xF0 = Z.land y 0xF0 -> 0 <= x < 256 -> 0 <= y < 256 ->
  Z.shiftr x 4 = Z.shiftr y 4.
Proof.
  intros H Hx Hy.
  assert (Hs : forall z, 0 <= z < 256 ->
                 Z.shiftr z 4 = Z.shiftr (Z.land z 0xF0) 4).
  { intros z Hz. apply Z.eqb_eq.
    apply (forall_byte
             (fun z => Z.shiftr z 4 =? Z.shiftr (Z.land z 0xF0) 4));
      [vm_compute; reflexivity | exact Hz]. }
  rewrite (Hs x Hx), (Hs y Hy). now rewrite H.
Qed.

(** X3: [sx127X_setLoRaCRC] sets bit 2 of MODEM_CONFIG2 exactly when its
    argument is not zero and keeps the seven other bits, so the spreading
    factor and the RX symbol timeout read as before. *)
Theorem sx127X_setLoRaCRC_only_crc_bit
    (h : sx1278_h) (yesno : Z) (d : spi_device) :
  plain_reg h (SX127X_REG_MODEM_CONFIG2 h) ->
  plain_reg h (SX127X_REG_MODEM_CONFIG2 h + 1) ->
  let mc2 := SX127X_REG_MODEM_CONFIG2 h in
  let d' := snd (sx127X_setLoRaCRC h yesno d) in
  Z.testbit (reg d' mc2) 2 = negb (yesno =? 0)
  /\ Z.land (reg d' mc2) 0xFB = Z.land (reg d mc2) 0xFB
  /\ fst (sx127X_getLoRaSPRFactor h d') = fst (sx127X_getLoRaSPRFactor h d)
  /\ fst (sx127X_getLoRaRXByteTimeout h d')
     = fst (sx127X_getLoRaRXByteTimeout h d).
Proof.
  intros Hmc2 Hlsb mc2 d'. subst mc2.
  assert (Hbit : Z.testbit (reg d' (SX127X_REG_MODEM_CONFIG2 h)) 2 = negb (yesno =? 0)
                 /\ Z.land (reg d' (SX127X_REG_MODEM_CONFIG2 h)) 0xFB = Z.land (reg d (SX127X_REG_MODEM_CONFIG2 h)) 0xFB).
  { unfold d', sx127X_setLoRaCRC.
    change (Z.lnot (Z.shiftl 1 2)) with (-5). change (Z.shiftl 1 2) with 4.
    destruct (negb (yesno =? 0)); cbv beta iota zeta.
    - rewrite (rmw_reg h _ (fun x => Z.lor x 4) d Hmc2). split.
      + rewrite u8_land, Z.land_spec, Z.lor_spec. simpl.
        now rewrite orb_true_r.
      + mask_norm. reflexivity.
    - rewrite (rmw_reg h _ (fun x => Z.land x (-5)) d Hmc2).
      rewrite u8_land, <- Z.land_assoc. change (Z.land (-5) 255) with 251.
      split.
      + rewrite Z.land_spec. simpl. apply andb_false_r.
      + rewrite <- Z.land_assoc. reflexivity. }
  destruct Hbit as (Hb & Hk).
  assert (Hl : reg d' (SX127X_REG_MODEM_CONFIG2 h + 1) = reg d (SX127X_REG_MODEM_CONFIG2 h + 1)).
  { unfold d', sx127X_setLoRaCRC. destruct (negb (yesno =? 0));
      cbv beta iota zeta.
    - apply (rmw_other h (SX127X_REG_MODEM_CONFIG2 h) (SX127X_REG_MODEM_CONFIG2 h + 1) (fun x => Z.lor x (Z.shiftl 1 2)) d
               Hmc2). lia.
    - apply (rmw_other h (SX127X_REG_MODEM_CONFIG2 h) (SX127X_REG_MODEM_CONFIG2 h + 1)
               (fun x => Z.land x (Z.lnot (Z.shiftl 1 2))) d Hmc2). lia. }
  split; [exact Hb | split; [exact Hk | split]].
  - rewrite !(getLoRaSPRFactor_run h _ Hmc2).
    rewrite (shiftr4_high (reg d' (SX127X_REG_MODEM_CONFIG2 h)) (reg d (SX127X_REG_MODEM_CONFIG2 h)));
      [reflexivity | | apply reg_range | apply reg_range].
    now apply (land_narrow _ _ 0xFB 0xF0).
  - rewrite !(getLoRaRXByteTimeout_run h Hmc2 Hlsb).
    rewrite Hl. f_equal. f_equal. now apply (land_narrow _ _ 0xFB 0x03).
Qed.

Lemma sx127X_setLoRaCRC_only_crc_bit_witness :
  let h := sx1278_datasheet in
  let d := quiet_chip (fun _ => 0x73) in
  (plain_reg h (SX127X_REG_MODEM_CONFIG2 h)
   /\ plain_reg h (SX127X_REG_MODEM_CONFIG2 h + 1))
  /\ Z.testbit (reg (snd (sx127X_setLoRaCRC h 1 d)) 0x1E) 2 = negb (1 =? 0).
Proof.
  split.
  - unfold plain_reg. simpl. lia.
  - apply (sx127X_setLoRaCRC_only_crc_bit sx1278_datasheet 1
             (quiet_chip (fun _ => 0x73)));
      unfold plain_reg; simpl; lia.
Defined.

(** X4: [sx127X_setLoRaSPRFactor] keeps the low nibble of MODEM_CONFIG2:
    the CRC bit stays as it was and the RX symbol timeout reads as before,
    whatever value is asked for. *)
Theorem sx127X_setLoRaSPRFactor_keeps_timeout
    (h : sx1278_h) (c_s : Z) (d : spi_device) :
  plain_reg h (SX127X_REG_MODEM_CONFIG2 h) ->
  plain_reg h (SX127X_REG_MODEM_CONFIG2 h + 1) ->
  let mc2 := SX127X_REG_MODEM_CONFIG2 h in
  let d' := snd (sx127X_setLoRaSPRFactor h c_s d) in
  Z.land (reg d' mc2) 0x0F = Z.land (reg d mc2) 0x0F
  /\ Z.testbit (reg d' mc2) 2 = Z.testbit (reg d mc2) 2
  /\ fst (sx127X_getLoRaRXByteTimeout h d')
     = fst (sx127X_getLoRaRXByteTimeout h d).
Proof.
  intros Hmc2 Hlsb mc2 d'. subst mc2.
  pose proof (spr_scan_spec c_s) as Hs. cbv zeta in Hs.
  set (sf := spr_scan 6 6 c_s) in *.
  assert (Hsf : 6 <= sf <= 12) by (destruct Hs as [(? & _) | (? & _)]; lia).
  set (f := fun x => Z.lor (Z.land x 0x0F) (Z.shiftl sf 4)).
  assert (Hreg : reg d' (SX127X_REG_MODEM_CONFIG2 h) = u8 (f (reg d (SX127X_REG_MODEM_CONFIG2 h)))).
  { apply (rmw_reg h (SX127X_REG_MODEM_CONFIG2 h) f d Hmc2). }
  assert (Hl : reg d' (SX127X_REG_MODEM_CONFIG2 h + 1) = reg d (SX127X_REG_MODEM_CONFIG2 h + 1)).
  { apply (rmw_other h (SX127X_REG_MODEM_CONFIG2 h) (SX127X_REG_MODEM_CONFIG2 h + 1) f d Hmc2). lia. }
  assert (Hk : Z.land (reg d' (SX127X_REG_MODEM_CONFIG2 h)) 0x0F = Z.land (reg d (SX127X_REG_MODEM_CONFIG2 h)) 0x0F).
  { rewrite Hreg. unfold f.
    destruct (spr_field_cases sf Hsf)
      as [-> | [-> | [-> | [-> | [-> | [-> | ->]]]]]];
      mask_norm; reflexivity. }
  split; [exact Hk | split].
  - assert (Hb : forall x, Z.testbit x 2 = Z.testbit (Z.land x 0x0F) 2).
    { intros x. rewrite Z.land_spec. simpl. now rewrite andb_true_r. }
    rewrite (Hb (reg d' (SX127X_REG_MODEM_CONFIG2 h))), (Hb (reg d (SX127X_REG_MODEM_CONFIG2 h))). now rewrite Hk.
  - rewrite !(getLoRaRXByteTimeout_run h Hmc2 Hlsb).
    rewrite Hl. f_equal. f_equal. now apply (land_narrow _ _ 0x0F 0x03).
Qed.

Lemma sx127X_setLoRaSPRFactor_keeps_timeout_witness :
  let h := sx1278_datasheet in
  let d := quiet_chip (fun _ => 0x77) in
  (plain_reg h (SX127X_REG_MODEM_CONFIG2 h)
   /\ plain_reg h (SX127X_REG_MODEM_CONFIG2 h + 1))
  /\ fst (sx127X_getLoRaRXByteTimeout h (snd (sx127X_setLoRaSPRFactor h 512 d)))
     = fst (sx127X_getLoRaRXByteTimeout h d).
Proof.
  split.
  - unfold plain_reg. simpl. lia.
  - apply (sx127X_setLoRaSPRFactor_keeps_timeout sx1278_datasheet 512
             (quiet_chip (fun _ => 0x77)));
      unfold plain_reg; simpl; lia.
Defined.

(** ** Frequency read back *)

(** X5: reading the frequency back after setting it never overshoots and
    loses less than one register step plus one hertz: for a frequency whose
    register value fits 24 bits, [sx127X_getLoRaFreq] after
    [sx127X_setLoRaFreq fr] returns [r] with [r <= fr] and
    [(fr - r - 1) * 2^19 < f_xosc]. *)
Theorem sx127X_freq_roundtrip
    (h : sx1278_h) (f_xosc fr : Z) (d : spi_device) :
  plain_reg h (SX127X_REG_FRF_MSB h) ->
  plain_reg h (SX127X_REG_FRF_MSB h + 1) ->
  plain_reg h (SX127X_REG_FRF_MSB h + 1 + 1) ->
  0 < f_xosc < 2 ^ 32 -> 0 <= fr < 2 ^ 32 ->
  fr * 2 ^ 19 / f_xosc < 2 ^ 24 ->
  let r := fst (sx127X_getLoRaFreq h f_xosc
                  (snd (sx127X_setLoRaFreq h f_xosc fr d))) in
  r = fr * 2 ^ 19 / f_xosc * f_xosc / 2 ^ 19
  /\ r <= fr
  /\ (fr - r - 1) * 2 ^ 19 < f_xosc.
Proof.
  intros H0 H1 H2 Hx Hfr Hq r.
  set (q := fr * 2 ^ 19 / f_xosc) in *.
  assert (Hq0 : 0 <= q) by (apply Z.div_pos; lia).
  assert (Hfloor : q * f_xosc <= fr * 2 ^ 19 < (q + 1) * f_xosc).
  { pose proof (Z.div_mod (fr * 2 ^ 19) f_xosc) as Hdm.
    pose proof (Z.mod_pos_bound (fr * 2 ^ 19) f_xosc) as Hm.
    fold q in Hdm. nia. }
  assert (Hr : r = q * f_xosc / 2 ^ 19).
  { unfold r, sx127X_setLoRaFreq, sx127X_getLoRaFreq.
    rewrite (frf_buf_bytes f_xosc fr) by lia. fold q.
    rewrite (bind_run _ _ _ _ _ (write_reg_plain3 h _ _ _ _ d H0 H1 H2)).
    unfold ret at 1. cbn [snd].
    rewrite (bind_run _ _ _ _ _ (read_reg_plain3 h _ _ H0 H1 H2)).
    cbn [fst snd]. change (3 <=? 0) with false. cbv iota.
    unfold ret. cbn [fst fold_left]. unfold reg. cbn [log snd regs].
    rewrite upd_same.
    rewrite (upd_other _ _ _ (SX127X_REG_FRF_MSB h + 1)) by lia.
    rewrite upd_same.
    rewrite (upd_other _ _ _ (SX127X_REG_FRF_MSB h)),
      (upd_other _ _ _ (SX127X_REG_FRF_MSB h)), upd_same by lia.
    rewrite !u8_idem.
    assert (Hb : u64 (u64 (u64 (0 * 256 + u8 (q / 65536 mod 256)) * 256
                           + u8 (q / 256 mod 256)) * 256
                      + u8 (q mod 256)) = q).
    { unfold u64, u8. clearbody q. change (2 ^ 24) with 16777216 in Hq.
      change (2 ^ 64) with 18446744073709551616.
      Z.div_mod_to_equations. lia. }
    rewrite Hb. unfold __POW_2_19. change 524288 with (2 ^ 19).
    assert (Hle : q * f_xosc / 2 ^ 19 <= fr).
    { apply Z.div_le_upper_bound; lia. }
    assert (Hge : 0 <= q * f_xosc / 2 ^ 19) by (apply Z.div_pos; nia).
    unfold u64, u32. rewrite (Z.mod_small (q * f_xosc)) by nia.
    apply Z.mod_small. lia. }
  split; [exact Hr | ].
  assert (Hdm : q * f_xosc = 2 ^ 19 * r + (q * f_xosc) mod 2 ^ 19).
  { rewrite Hr. apply Z.div_mod. lia. }
  pose proof (Z.mod_pos_bound (q * f_xosc) (2 ^ 19)) as Hm.
  split; nia.
Qed.

Lemma sx127X_freq_roundtrip_witness :
  let h := sx1278_datasheet in
  let d := quiet_chip (fun _ => 0) in
  let r := fst (sx127X_getLoRaFreq h 32000000
                  (snd (sx127X_setLoRaFreq h 32000000 868950000 d))) in
  (plain_reg h (SX127X_REG_FRF_MSB h)
   /\ plain_reg h (SX127X_REG_FRF_MSB h + 1)
   /\ plain_reg h (SX127X_REG_FRF_MSB h + 1 + 1)
   /\ 0 < 32000000 < 2 ^ 32 /\ 0 <= 868950000 < 2 ^ 32
   /\ 868950000 * 2 ^ 19 / 32000000 < 2 ^ 24)
  /\ r <= 868950000 /\ (868950000 - r - 1) * 2 ^ 19 < 32000000.
Proof.
  split.
  - unfold plain_reg. simpl. repeat split; try lia; reflexivity.
  - refine (proj2 (sx127X_freq_roundtrip sx1278_datasheet 32000000 868950000
                     (quiet_chip (fun _ => 0)) _ _ _ _ _ _));
      try (unfold plain_reg; simpl; lia); try lia; reflexivity.
Defined.

(** The same run: 868.95 MHz reads back as 868949951 Hz. *)
Example sx127X_freq_run_868950000 :
  fst (sx127X_getLoRaFreq sx1278_datasheet 32000000
         (snd (sx127X_setLoRaFreq sx1278_datasheet 32000000 868950000
                 (quiet_chip (fun _ => 0)))))
  = 868949951.
Proof. reflexivity. Qed.

(** ** LNA gain set and read back *)

Lemma lna_scan_cases (db : Z) :
  let i := lna_scan (firstn 5 lna_gain) 0 db in
  (0 <= db /\ i = 0) \/ (-6 <= db < 0 /\ i = 1) \/ (-12 <= db < -6 /\ i = 2)
  \/ (-24 <= db < -12 /\ i = 3) \/ (-26 <= db < -24 /\ i = 4)
  \/ (db < -26 /\ i = 5).
Proof.
  unfold lna_gain. cbn [firstn lna_scan].
  change (u8 (0 + 1)) with 1. change (u8 (1 + 1)) with 2.
  change (u8 (2 + 1)) with 3. change (u8 (3 + 1)) with 4.
  change (u8 (4 + 1)) with 5.
  destruct (Z.leb_spec 0 db); [lia |].
  destruct (Z.leb_spec (-6) db); [lia |].
  destruct (Z.leb_spec (-12) db); [lia |].
  destruct (Z.leb_spec (-24) db); [lia |].
  destruct (Z.leb_spec (-26) db); lia.
Qed.

Lemma low5_shift (m : Z) : Z.shiftr (Z.land m 0x1F) 5 = 0.
Proof. rewrite Z.shiftr_land. simpl. apply Z.land_0_r. Qed.

(** X6: after [sx127X_setLoRaLNA db] the gain field is one of 1..6, so
    [sx127X_getLoRaLNA] reads inside the table: it returns the largest
    table gain that does not exceed [db], and -48 when [db] is below every
    entry; the five low bits of the LNA register are kept. *)
Theorem sx127X_lna_roundtrip (h : sx1278_h) (db : Z) (d : spi_device) :
  plain_reg h (SX127X_REG_LNA h) ->
  let lna := SX127X_REG_LNA h in
  let d' := snd (sx127X_setLoRaLNA h db d) in
  exists g,
    fst (sx127X_getLoRaLNA h d') = Some g
    /\ In g lna_gain
    /\ (-48 <= db -> g <= db /\ forall x, In x lna_gain -> x <= db -> x <= g)
    /\ (db < -48 -> g = -48)
    /\ 1 <= Z.shiftr (reg d' lna) 5 <= 6
    /\ Z.land (reg d' lna) 0x1F = Z.land (reg d lna) 0x1F.
Proof.
  intros Hp lna d'. subst lna.
  pose proof (lna_scan_cases db) as Hc. cbv zeta in Hc.
  set (i := lna_scan (firstn 5 lna_gain) 0 db) in *.
  assert (Hi : 0 <= i <= 5) by lia.
  set (f := fun x => Z.lor (Z.land x 0x1F) (Z.shiftl (u8 (i + 1)) 5)).
  assert (Hreg : reg d' (SX127X_REG_LNA h) = u8 (f (reg d (SX127X_REG_LNA h)))).
  { apply (rmw_reg h _ f d Hp). }
  assert (Hu : u8 (f (reg d (SX127X_REG_LNA h)))
               = Z.lor (Z.land (reg d (SX127X_REG_LNA h)) 0x1F)
                       (Z.shiftl (i + 1) 5)).
  { unfold f. rewrite (u8_small (i + 1)) by lia.
    assert (Hv : i = 0 \/ i = 1 \/ i = 2 \/ i = 3 \/ i = 4 \/ i = 5) by lia.
    destruct Hv as [-> | [-> | [-> | [-> | [-> | ->]]]]];
      mask_norm; reflexivity. }
  assert (Hg : Z.shiftr (reg d' (SX127X_REG_LNA h)) 5 = i + 1).
  { rewrite Hreg, Hu, Z.shiftr_lor, low5_shift, Z.lor_0_l.
    rewrite Z.shiftr_shiftl_l by lia. now rewrite Z.sub_diag. }
  assert (Hget : fst (sx127X_getLoRaLNA h d') = array_get lna_gain i).
  { unfold sx127X_getLoRaLNA.
    rewrite (bind_run _ _ _ _ _ (read_u8_plain h _ d' Hp)).
    unfold ret. cbn [fst]. rewrite Hg, lna_index by lia.
    f_equal. lia. }
  assert (Hk : Z.land (reg d' (SX127X_REG_LNA h)) 0x1F
               = Z.land (reg d (SX127X_REG_LNA h)) 0x1F).
  { rewrite Hreg, Hu.
    assert (Hv : i = 0 \/ i = 1 \/ i = 2 \/ i = 3 \/ i = 4 \/ i = 5) by lia.
    destruct Hv as [-> | [-> | [-> | [-> | [-> | ->]]]]];
      mask_norm; reflexivity. }
  rewrite Hget, Hg.
  destruct Hc as [(Hd & E) | [(Hd & E) | [(Hd & E) | [(Hd & E)
                  | [(Hd & E) | (Hd & E)]]]]]; rewrite E;
    eexists; (split; [reflexivity |]);
    (split; [unfold lna_gain; simpl; tauto |]);
    (split; [intros Hlo; split; [lia |];
             intros x Hx Hxd; unfold lna_gain in Hx; simpl in Hx; lia |]);
    (split; [intros Hlo; lia |]);
    (split; [lia | exact Hk]).
Qed.

Lemma sx127X_lna_roundtrip_witness :
  let h := sx1278_datasheet in
  let d := quiet_chip (fun _ => 0x03) in
  let d' := snd (sx127X_setLoRaLNA h (-20) d) in
  plain_reg h (SX127X_REG_LNA h)
  /\ exists g,
       fst (sx127X_getLoRaLNA h d') = Some g
       /\ In g lna_gain
       /\ (-48 <= -20 ->
           g <= -20 /\ forall x, In x lna_gain -> x <= -20 -> x <= g)
       /\ (-20 < -48 -> g = -48)
       /\ 1 <= Z.shiftr (reg d' (SX127X_REG_LNA h)) 5 <= 6
       /\ Z.land (reg d' (SX127X_REG_LNA h)) 0x1F
          = Z.land (reg d (SX127X_REG_LNA h)) 0x1F.
Proof.
  split.
  - unfold plain_reg. simpl. lia.
  - apply (sx127X_lna_roundtrip sx1278_datasheet (-20)
             (quiet_chip (fun _ => 0x03))).
    unfold plain_reg. simpl. lia.
Defined.

(** ** Bandwidth read back *)

Lemma getLoRaBW_run (h : sx1278_h) (d : spi_device) :
  plain_reg h (SX127X_REG_MODEM_CONFIG1 h) ->
  fst (sx127X_getLoRaBW h d)
  = array_get hz (Z.shiftr (reg d (SX127X_REG_MODEM_CONFIG1 h)) 4).
Proof.
  intros Hp. unfold sx127X_getLoRaBW.
  rewrite (bind_run _ _ _ _ _ (read_u8_plain h _ d Hp)).
  unfold ret. cbn [fst]. f_equal. apply u8_small.
  pose proof (reg_range d (SX127X_REG_MODEM_CONFIG1 h)) as Hr.
  rewrite Z.shiftr_div_pow2 by lia. change (2 ^ 4) with 16.
  Z.div_mod_to_equations. lia.
Qed.

(** X7: [sx127X_getLoRaBW] indexes the 10-entry table with the high nibble
    of MODEM_CONFIG1 and nothing else: the read is inside the table exactly
    when the nibble is at most 9, that is for register values below
    [0xA0]. *)
Theorem sx127X_getLoRaBW_defined (h : sx1278_h) (d : spi_device) :
  plain_reg h (SX127X_REG_MODEM_CONFIG1 h) ->
  let mc1 := SX127X_REG_MODEM_CONFIG1 h in
  (fst (sx127X_getLoRaBW h d) <> None <-> reg d mc1 < 0xA0)
  /\ (0xA0 <= reg d mc1 -> fst (sx127X_getLoRaBW h d) = None).
Proof.
  intros Hp mc1. subst mc1. rewrite (getLoRaBW_run h d Hp).
  pose proof (reg_range d (SX127X_REG_MODEM_CONFIG1 h)) as Hr.
  set (m := reg d (SX127X_REG_MODEM_CONFIG1 h)) in *.
  assert (Hn : 0 <= Z.shiftr m 4 < 16 /\ (Z.shiftr m 4 <= 9 <-> m < 160)).
  { rewrite Z.shiftr_div_pow2 by lia. change (2 ^ 4) with 16.
    Z.div_mod_to_equations. lia. }
  destruct Hn as (Hn & Hiff).
  set (k := Z.shiftr m 4) in *.
  assert (Hk : array_get hz k <> None <-> k <= 9).
  { unfold array_get. destruct (Z.ltb_spec k 0); [lia |].
    rewrite nth_error_Some. unfold hz. simpl length. lia. }
  split.
  - rewrite Hk. exact Hiff.
  - intros Hm.
    assert (Hnot : ~ array_get hz k <> None) by (rewrite Hk; lia).
    destruct (array_get hz k); [| reflexivity].
    exfalso. apply Hnot. discriminate.
Qed.

Lemma sx127X_getLoRaBW_defined_witness :
  let h := sx1278_datasheet in
  let d := quiet_chip (fun _ => 0xA2) in
  plain_reg h (SX127X_REG_MODEM_CONFIG1 h)
  /\ fst (sx127X_getLoRaBW h d) = None.
Proof.
  split.
  - unfold plain_reg. simpl. lia.
  - refine (proj2 (sx127X_getLoRaBW_defined sx1278_datasheet
                     (quiet_chip (fun _ => 0xA2)) _) _).
    + unfold plain_reg. simpl. lia.
    + vm_compute. discriminate.
Defined.

(** X8: the bandwidth read back after [sx127X_setLoRaBW bw] is a table
    entry: the smallest supported bandwidth that is at least [bw], and
    500000 for a request above that; the low nibble of MODEM_CONFIG1
    (coding rate and header mode) is kept, so the coding rate reads as
    before, and no other register changes. *)
Theorem sx127X_bw_roundtrip (h : sx1278_h) (bw : Z) (d : spi_device) :
  plain_reg h (SX127X_REG_MODEM_CONFIG1 h) ->
  let mc1 := SX127X_REG_MODEM_CONFIG1 h in
  let d' := snd (sx127X_setLoRaBW h bw d) in
  exists x,
    fst (sx127X_getLoRaBW h d') = Some x
    /\ In x hz
    /\ (bw <= 500000 ->
        bw <= x /\ forall y, In y hz -> bw <= y -> x <= y)
    /\ (500000 < bw -> x = 500000)
    /\ (In bw hz -> x = bw)
    /\ fst (sx127X_getLoRaCR h d') = fst (sx127X_getLoRaCR h d)
    /\ Z.land (reg d' mc1) 0x0F = Z.land (reg d mc1) 0x0F
    /\ forall a, a <> mc1 -> reg d' a = reg d a.
Proof.
  intros Hp mc1 d'. subst mc1.
  destruct (bw_scan_hz bw) as (Hi & Hbelow & Hge & Hlast).
  pose proof (bw_scan_least bw) as Hleast. cbv zeta in Hleast.
  set (i := bw_scan (firstn 9 hz) 0 bw) in *.
  set (f := fun x => Z.lor (Z.land x 0x0F) (Z.shiftl i 4)).
  assert (Hu : forall m, u8 (f m) = f m).
  { intros m. unfold f. destruct (bw_index_cases i Hi)
      as [E | [E | [E | [E | [E | [E | [E | [E | [E | E]]]]]]]]];
      rewrite E; mask_norm; reflexivity. }
  assert (Hreg : reg d' (SX127X_REG_MODEM_CONFIG1 h)
                 = f (reg d (SX127X_REG_MODEM_CONFIG1 h))).
  { rewrite <- Hu. apply (rmw_reg h _ f d Hp). }
  assert (Hsh : Z.shiftr (reg d' (SX127X_REG_MODEM_CONFIG1 h)) 4 = i).
  { rewrite Hreg. unfold f.
    rewrite Z.shiftr_lor, low_nibble_shift, Z.lor_0_l.
    rewrite Z.shiftr_shiftl_l by lia. now rewrite Z.sub_diag. }
  assert (Hnib : Z.land (reg d' (SX127X_REG_MODEM_CONFIG1 h)) 0x0F
                 = Z.land (reg d (SX127X_REG_MODEM_CONFIG1 h)) 0x0F).
  { rewrite Hreg. unfold f. destruct (bw_index_cases i Hi)
      as [E | [E | [E | [E | [E | [E | [E | [E | [E | E]]]]]]]]];
      rewrite E; mask_norm; reflexivity. }
  assert (Hlow : Z.land (reg d' (SX127X_REG_MODEM_CONFIG1 h)) 0x0E
                 = Z.land (reg d (SX127X_REG_MODEM_CONFIG1 h)) 0x0E).
  { now apply (land_narrow _ _ 0x0F 0x0E). }
  assert (Hnth : array_get hz i = Some (nth (Z.to_nat i) hz 0)
                 /\ In (nth (Z.to_nat i) hz 0) hz).
  { destruct (bw_index_cases i Hi)
      as [E | [E | [E | [E | [E | [E | [E | [E | [E | E]]]]]]]]];
      rewrite E; (split; [reflexivity | unfold hz; simpl; tauto]). }
  destruct Hnth as (Hsome & Hin).
  exists (nth (Z.to_nat i) hz 0).
  split; [| split; [exact Hin | split; [| split; [| split; [| split;
    [| split]]]]]].
  - rewrite (getLoRaBW_run h d' Hp), Hsh. exact Hsome.
  - intros Hbw. split; [now apply Hge | exact Hleast].
  - intros Hbw. rewrite (Hlast Hbw). reflexivity.
  - intros Hbw.
    assert (Hle : bw <= 500000) by (unfold hz in Hbw; simpl in Hbw; lia).
    specialize (Hge Hle). specialize (Hleast bw Hbw (Z.le_refl bw)). lia.
  - unfold sx127X_getLoRaCR.
    rewrite !(bind_run _ _ _ _ _ (read_u8_plain h _ _ Hp)).
    unfold ret. cbn [fst]. now rewrite Hlow.
  - exact Hnib.
  - intros a Ha. now apply (rmw_other h _ a f d Hp).
Qed.

Lemma sx127X_bw_roundtrip_witness :
  let h := sx1278_datasheet in
  let d := quiet_chip (fun _ => 0x02) in
  let d' := snd (sx127X_setLoRaBW h 125000 d) in
  plain_reg h (SX127X_REG_MODEM_CONFIG1 h)
  /\ exists x,
       fst (sx127X_getLoRaBW h d') = Some x
       /\ In x hz
       /\ (125000 <= 500000 ->
           125000 <= x /\ forall y, In y hz -> 125000 <= y -> x <= y)
       /\ (500000 < 125000 -> x = 500000)
       /\ (In 125000 hz -> x = 125000)
       /\ fst (sx127X_getLoRaCR h d') = fst (sx127X_getLoRaCR h d)
       /\ Z.land (reg d' (SX127X_REG_MODEM_CONFIG1 h)) 0x0F
          = Z.land (reg d (SX127X_REG_MODEM_CONFIG1 h)) 0x0F
       /\ forall a, a <> SX127X_REG_MODEM_CONFIG1 h -> reg d' a = reg d a.
Proof.
  split.
  - unfold plain_reg. simpl. lia.
  - apply (sx127X_bw_roundtrip sx1278_datasheet 125000
             (quiet_chip (fun _ => 0x02))).
    unfold plain_reg. simpl. lia.
Defined.

(** ** Output power read from any register value; the boost bit *)

(** X9: whatever byte PA_CONFIG holds, [sx127X_getLoRaPower] returns a
    power between -4 and 17 dBm. *)
Theorem sx127X_getLoRaPower_range (h : sx1278_h) (d : spi_device) :
  plain_reg h (SX127X_REG_PA_CONFIG h) ->
  -4 <= fst (sx127X_getLoRaPower h d) <= 17.
Proof.
  intros Hp. unfold sx127X_getLoRaPower.
  rewrite (bind_run _ _ _ _ _ (read_u8_plain h _ d Hp)).
  unfold ret. cbn [fst].
  pose proof (forall_byte
                (fun x => (-4 <=? pa_power x) && (pa_power x <=? 17))
                ltac:(vm_compute; reflexivity)
                (reg d (SX127X_REG_PA_CONFIG h))
                (reg_range d (SX127X_REG_PA_CONFIG h))) as Hb.
  apply andb_true_iff in Hb. destruct Hb as (H1 & H2).
  apply Z.leb_le in H1. apply Z.leb_le in H2. lia.
Qed.

Lemma sx127X_getLoRaPower_range_witness :
  let h := sx1278_datasheet in
  let d := quiet_chip (fun _ => 0x00) in
  plain_reg h (SX127X_REG_PA_CONFIG h)
  /\ -4 <= fst (sx127X_getLoRaPower h d) <= 17.
Proof.
  split.
  - unfold plain_reg. simpl. lia.
  - apply (sx127X_getLoRaPower_range sx1278_datasheet
             (quiet_chip (fun _ => 0x00))).
    unfold plain_reg. simpl. lia.
Defined.

Lemma setBoost_reg (h : sx1278_h) (yesno : Z) (d : spi_device) :
  plain_reg h (SX127X_REG_PA_CONFIG h) ->
  reg (snd (sx127X_setBoost h yesno d)) (SX127X_REG_PA_CONFIG h)
  = if negb (yesno =? 0)
    then Z.lor (reg d (SX127X_REG_PA_CONFIG h)) 0x80
    else Z.land (reg d (SX127X_REG_PA_CONFIG h)) 0x7F.
Proof.
  intros Hp. unfold sx127X_setBoost.
  change (Z.lnot (Z.shiftl 1 7)) with (-129). change (Z.shiftl 1 7) with 128.
  destruct (negb (yesno =? 0)); cbv beta iota zeta.
  - rewrite (rmw_reg h _ (fun x => Z.lor x 128) d Hp).
    apply u8_small, lor_byte; [apply reg_range | lia].
  - rewrite (rmw_reg h _ (fun x => Z.land x (-129)) d Hp).
    rewrite u8_land, <- Z.land_assoc. reflexivity.
Qed.

(** [sx127X_setBoost] leaves every other register alone. *)
Lemma setBoost_other (h : sx1278_h) (yesno x : Z) (d : spi_device) :
  plain_reg h (SX127X_REG_PA_CONFIG h) ->
  x <> SX127X_REG_PA_CONFIG h ->
  reg (snd (sx127X_setBoost h yesno d)) x = reg d x.
Proof.
  intros Hp Hx. unfold sx127X_setBoost.
  destruct (negb (yesno =? 0)); cbv beta iota zeta.
  - now apply (rmw_other h _ x (fun y => Z.lor y (Z.shiftl 1 7)) d Hp).
  - now apply (rmw_other h _ x
                 (fun y => Z.land y (Z.lnot (Z.shiftl 1 7))) d Hp).
Qed.

(** X10: [sx127X_setBoost] changes bit 7 of PA_CONFIG and nothing else:
    on every chip state the bit becomes set exactly when the argument is
    not zero, the seven other bits of the register are kept and so is
    every other register.  After [sx127X_setLoRaPower] with a power from
    0 to 15 dBm, switching the boost on makes the power read 2 dBm higher,
    and switching it off leaves the reading at the power set. *)
Theorem sx127X_setBoost_power
    (h : sx1278_h) (yesno dbm : Z) (d : spi_device) :
  plain_reg h (SX127X_REG_PA_CONFIG h) ->
  let pa := SX127X_REG_PA_CONFIG h in
  let d' := snd (sx127X_setBoost h yesno d) in
  (Z.testbit (reg d' pa) 7 = negb (yesno =? 0)
   /\ Z.land (reg d' pa) 0x7F = Z.land (reg d pa) 0x7F
   /\ forall x, x <> pa -> reg d' x = reg d x)
  /\ (0 <= dbm <= 15 ->
      let d1 := snd (sx127X_setLoRaPower h dbm d) in
      let d2 := snd (sx127X_setBoost h yesno d1) in
      Z.land (reg d2 pa) 0x7F = Z.land (reg d1 pa) 0x7F
      /\ Z.testbit (reg d2 pa) 7 = negb (yesno =? 0)
      /\ fst (sx127X_getLoRaPower h d2)
         = if negb (yesno =? 0) then dbm + 2 else dbm).
Proof.
  intros Hp pa d'. subst pa.
  split.
  { unfold d'. rewrite (setBoost_reg h yesno d Hp).
    split; [| split].
    - destruct (negb (yesno =? 0)).
      + rewrite Z.lor_spec. simpl. apply orb_true_r.
      + rewrite Z.land_spec. simpl. apply andb_false_r.
    - destruct (negb (yesno =? 0)); mask_norm; reflexivity.
    - intros x Hx. now apply setBoost_other. }
  intros Hd d1 d2.
  assert (H1 : reg d1 (SX127X_REG_PA_CONFIG h) = pa_config dbm).
  { unfold d1, sx127X_setLoRaPower.
    rewrite (bind_run _ _ _ _ _ (write_reg_plain h _ _ d Hp)).
    unfold ret, reg. cbn [snd regs]. rewrite upd_same, u8_idem.
    apply pa_config_byte. }
  assert (H2 : reg d2 (SX127X_REG_PA_CONFIG h)
               = if negb (yesno =? 0) then Z.lor (pa_config dbm) 0x80
                 else Z.land (pa_config dbm) 0x7F).
  { unfold d2. rewrite (setBoost_reg h yesno d1 Hp). now rewrite H1. }
  assert (Hget : fst (sx127X_getLoRaPower h d2)
                 = pa_power (reg d2 (SX127X_REG_PA_CONFIG h))).
  { unfold sx127X_getLoRaPower.
    now rewrite (bind_run _ _ _ _ _ (read_u8_plain h _ d2 Hp)). }
  rewrite Hget, H2, H1.
  assert (Hall :
    forall x, 0 <= x < 0 + Z.of_nat 16 ->
      (Z.land (Z.lor (pa_config x) 0x80) 0x7F = Z.land (pa_config x) 0x7F
       /\ Z.testbit (Z.lor (pa_config x) 0x80) 7 = true
       /\ pa_power (Z.lor (pa_config x) 0x80) = x + 2)
      /\ (Z.land (Z.land (pa_config x) 0x7F) 0x7F = Z.land (pa_config x) 0x7F
          /\ Z.testbit (Z.land (pa_config x) 0x7F) 7 = false
          /\ pa_power (Z.land (pa_config x) 0x7F) = x)).
  { apply forall_between. intros k Hk.
    do 16 (destruct k as [| k]; [vm_compute; repeat split |]). lia. }
  destruct (Hall dbm ltac:(lia)) as (Hon & Hoff).
  destruct (negb (yesno =? 0)); assumption.
Qed.

Lemma sx127X_setBoost_power_witness :
  let h := sx1278_datasheet in
  let d := quiet_chip (fun _ => 0x21) in
  let d2 := snd (sx127X_setBoost h 1 (snd (sx127X_setLoRaPower h 10 d))) in
  (plain_reg h (SX127X_REG_PA_CONFIG h) /\ 0 <= 10 <= 15)
  /\ reg (snd (sx127X_setBoost h 1 d)) (SX127X_REG_PA_CONFIG h) = 0xA1
  /\ fst (sx127X_getLoRaPower h d2) = if negb (1 =? 0) then 10 + 2 else 10.
Proof.
  assert (Hp : plain_reg sx1278_datasheet
                 (SX127X_REG_PA_CONFIG sx1278_datasheet)).
  { unfold plain_reg. simpl. lia. }
  split; [split; [exact Hp | lia] |].
  split; [reflexivity |].
  exact (proj2 (proj2 (proj2 (sx127X_setBoost_power sx1278_datasheet 1 10
                                (quiet_chip (fun _ => 0x21)) Hp)
                         ltac:(lia)))).
Defined.

(** ** Coding rate read back *)

(** X11: what [sx127X_getLoRaCR] reads after [sx127X_setLoRaCR] with a
    rate 4/4..4/8: [0x44] plus the old coding-rate field OR-ed with the new
    one.  The rate asked for comes back when the field was clear before
    the call; it need not otherwise. *)
Theorem sx127X_cr_read_back (h : sx1278_h) (cr : Z) (d : spi_device) :
  plain_reg h (SX127X_REG_MODEM_CONFIG1 h) ->
  4 <= Z.land cr 0xF <= 8 ->
  let mc1 := SX127X_REG_MODEM_CONFIG1 h in
  let old := Z.shiftr (Z.land (reg d mc1) 0x0E) 1 in
  let got := fst (sx127X_getLoRaCR h (snd (sx127X_setLoRaCR h cr d))) in
  got = 0x44 + Z.lor old (Z.land cr 0xF - 4)
  /\ 0x44 <= got <= 0x4B
  /\ (old = 0 -> got = 0x40 + Z.land cr 0xF).
Proof.
  intros Hp Hcr mc1 old got. subst mc1.
  set (k := Z.land cr 0xF - 4) in *.
  assert (Hreg : reg (snd (sx127X_setLoRaCR h cr d)) (SX127X_REG_MODEM_CONFIG1 h)
                 = u8 (Z.lor (Z.land (reg d (SX127X_REG_MODEM_CONFIG1 h)) 0x0E)
                             (Z.shiftl k 1))).
  { apply (rmw_reg h _ (fun x => Z.lor (Z.land x 0x0E) (Z.shiftl k 1)) d Hp). }
  assert (Hgot : got = u8 (0x40 + Z.shiftr
                             (Z.land (u8 (Z.lor (Z.land (reg d (SX127X_REG_MODEM_CONFIG1 h)) 0x0E)
                                                (Z.shiftl k 1))) 0x0E) 1 + 4)).
  { unfold got, sx127X_getLoRaCR.
    rewrite (bind_run _ _ _ _ _ (read_u8_plain h _ _ Hp)).
    unfold ret. cbn [fst]. now rewrite Hreg. }
  assert (Hall : forall m, 0 <= m < 256 ->
            let o := Z.shiftr (Z.land m 0x0E) 1 in
            let g := u8 (0x40 + Z.shiftr
                           (Z.land (u8 (Z.lor (Z.land m 0x0E) (Z.shiftl k 1)))
                                   0x0E) 1 + 4) in
            g = 0x44 + Z.lor o k /\ 0x44 <= g <= 0x4B).
  { intros m Hm.
    assert (Hk : k = 0 \/ k = 1 \/ k = 2 \/ k = 3 \/ k = 4) by lia.
    destruct Hk as [-> | [-> | [-> | [-> | ->]]]];
      match goal with |- context [Z.shiftl ?c 1] =>
        pose proof (forall_byte
          (fun m =>
             let o := Z.shiftr (Z.land m 0x0E) 1 in
             let g := u8 (0x40 + Z.shiftr
                            (Z.land (u8 (Z.lor (Z.land m 0x0E) (Z.shiftl c 1)))
                                    0x0E) 1 + 4) in
             (g =? 0x44 + Z.lor o c) && (0x44 <=? g) && (g <=? 0x4B))
          ltac:(vm_compute; reflexivity) m Hm) as Hb
      end;
      cbv zeta in Hb |- *;
      apply andb_true_iff in Hb; destruct Hb as (Hb & H3);
      apply andb_true_iff in Hb; destruct Hb as (H1 & H2);
      apply Z.eqb_eq in H1; apply Z.leb_le in H2; apply Z.leb_le in H3;
      (split; [exact H1 | lia]). }
  destruct (Hall _ (reg_range d (SX127X_REG_MODEM_CONFIG1 h))) as (Hv & Hr).
  fold old in Hv. rewrite <- Hgot in Hv, Hr.
  split; [exact Hv | split; [exact Hr |]].
  intros Ho. rewrite Hv, Ho, Z.lor_0_l. unfold k. lia.
Qed.

Lemma sx127X_cr_read_back_witness :
  let h := sx1278_datasheet in
  let d := quiet_chip (fun _ => 0x72) in
  let got := fst (sx127X_getLoRaCR h (snd (sx127X_setLoRaCR h 0x46 d))) in
  (plain_reg h (SX127X_REG_MODEM_CONFIG1 h) /\ 4 <= Z.land 0x46 0xF <= 8)
  /\ 0x44 <= got <= 0x4B.
Proof.
  split.
  - unfold plain_reg. simpl. lia.
  - apply (sx127X_cr_read_back sx1278_datasheet 0x46
             (quiet_chip (fun _ => 0x72)));
      [unfold plain_reg; simpl; lia | simpl; lia].
Defined.

(** ** Version probe and start-up *)

Lemma readVersion_run (h : sx1278_h) (r : sx1278_h_rest) (d : spi_device) :
  plain_reg h (SX127X_REG_VERSION r) ->
  let v := reg d (SX127X_REG_VERSION r) in
  sx127X_readVersion h r d
  = (if (0 <? v) && (v <? 0xFF) then v else - ENODEV,
     snd (log (EvRead (SX127X_REG_VERSION r) 1) d)).
Proof.
  intros Hp v. unfold sx127X_readVersion, sx127X_read_reg, bind.
  cbn [log fst snd chip_read]. unfold bind.
  rewrite adr_read by apply Hp. unfold chip_read1.
  rewrite (plain_not_fifo h _ Hp), (plain_not_irq h _ Hp).
  unfold ret. cbn [fst snd hd regs]. fold (reg d (SX127X_REG_VERSION r)).
  fold v.
  change (1 + Z.of_nat 1 >? 0) with true. cbv iota.
  change (1 + Z.of_nat 1 - 1 =? 1) with true. cbn [andb].
  now destruct ((0 <? v) && (v <? 255)).
Qed.

(** X12: the probe of [init_sx127X].  A version byte from 1 to 254 is
    returned as it is.  The bytes [0x00] and [0xFF], what an absent chip
    answers, give [-ENODEV], and then the function has written no register
    and left the register file untouched. *)
Theorem init_sx127X_probe
    (h : sx1278_h) (r : sx1278_h_rest) (d : spi_device) :
  plain_reg h (SX127X_REG_VERSION r) ->
  let v := reg d (SX127X_REG_VERSION r) in
  let d' := snd (init_sx127X h r d) in
  (0 < v < 0xFF -> fst (init_sx127X h r d) = v)
  /\ (v = 0 \/ v = 0xFF ->
      fst (init_sx127X h r d) = - ENODEV
      /\ writes (trace d') = writes (trace d)
      /\ forall a, regs d' a = regs d a).
Proof.
  intros Hp v d'. unfold d', init_sx127X.
  rewrite (bind_run _ _ _ _ _ (readVersion_run h r d Hp)). fold v.
  split.
  - intros Hv.
    replace ((0 <? v) && (v <? 255)) with true
      by (symmetry; apply andb_true_iff; split; apply Z.ltb_lt; lia).
    replace (v >? 0) with true by (symmetry; apply Z.gtb_lt; lia).
    unfold bind. destruct (sx127X_startLoRaMode h _) as [u d1]. reflexivity.
  - intros Hv.
    replace ((0 <? v) && (v <? 255)) with false.
    2:{ symmetry. apply andb_false_iff.
        destruct Hv as [-> | ->]; [left | right]; reflexivity. }
    change (- ENODEV >? 0) with false. cbv iota.
    unfold bind, ret. cbn [fst snd log trace writes regs]. auto.
Qed.

Lemma init_sx127X_probe_witness :
  let h := sx1278_datasheet in
  let r := sx1278_datasheet_rest in
  let d := quiet_chip (fun _ => 0xFF) in
  plain_reg h (SX127X_REG_VERSION r)
  /\ fst (init_sx127X h r d) = - ENODEV
  /\ writes (trace (snd (init_sx127X h r d))) = writes (trace d)
  /\ forall a, regs (snd (init_sx127X h r d)) a = regs d a.
Proof.
  split.
  - unfold plain_reg. simpl. lia.
  - refine (proj2 (init_sx127X_probe sx1278_datasheet sx1278_datasheet_rest
                     (quiet_chip (fun _ => 0xFF)) _) _).
    + unfold plain_reg. simpl. lia.
    + right. reflexivity.
Defined.

Lemma nodup4 (a b c e : Z) :
  NoDup [a; b; c; e] ->
  a <> b /\ a <> c /\ a <> e /\ b <> c /\ b <> e /\ c <> e.
Proof.
  intros H.
  inversion H as [| ? ? Ha H1]; subst.
  inversion H1 as [| ? ? Hb H2]; subst.
  inversion H2 as [| ? ? Hc H3]; subst.
  cbn [In] in *. repeat split; intros ->; tauto.
Qed.

Lemma setLoRaImplicit_off (h : sx1278_h) (d : spi_device) :
  plain_reg h (SX127X_REG_MODEM_CONFIG1 h) ->
  let mc1 := SX127X_REG_MODEM_CONFIG1 h in
  sx127X_setLoRaImplicit h 0 d
  = (tt, {| regs := upd (regs d) mc1 (Z.land (reg d mc1) 0xFE);
            fifo := fifo d; irq_raise := irq_raise d;
            trace := EvWrite mc1 [Z.land (reg d mc1) 0xFE]
                       :: EvRead mc1 1 :: trace d |}).
Proof.
  intros Hp mc1. subst mc1. unfold sx127X_setLoRaImplicit.
  change (negb (0 =? 0)) with false. cbv beta iota zeta.
  rewrite (rmw_run h _ (fun x => Z.land x 0xFE) d Hp).
  assert (Hu : u8 (Z.land (reg d (SX127X_REG_MODEM_CONFIG1 h)) 254)
               = Z.land (reg d (SX127X_REG_MODEM_CONFIG1 h)) 254).
  { mask_norm. reflexivity. }
  now rewrite Hu.
Qed.

(** One step of a computation, with the state it leaves named. *)
Lemma bind_post {A B : Type} (m : M A) (k : A -> M B) (d : spi_device)
    (Q : B * spi_device -> Prop) :
  (forall a d1, m d = (a, d1) -> Q (k a d1)) -> Q (bind m k d).
Proof. intros H. unfold bind. destruct (m d) as [a d1] eqn:E. now apply H. Qed.

Ltac bind_step a d1 E :=
  match goal with
  | |- context [@bind ?A ?B ?m ?k ?d] =>
      pattern (@bind A B m k d); apply bind_post; intros a d1 E; cbv beta
  end.

Section Effects.

Variable h : sx1278_h.

Lemma read_u8_effect (a : Z) (d : spi_device) :
  plain_reg h a ->
  fst (read_u8 h a d) = reg d a
  /\ regs (snd (read_u8 h a d)) = regs d
  /\ writes (trace (snd (read_u8 h a d))) = writes (trace d).
Proof. intros Hp. rewrite (read_u8_plain h a d Hp). auto. Qed.

Lemma write_effect (a v : Z) (d : spi_device) :
  plain_reg h a ->
  let d' := snd (sx127X_write_reg h a [v] d) in
  regs d' a = u8 v
  /\ (forall x, x <> a -> regs d' x = regs d x)
  /\ writes (trace d') = (a, [v]) :: writes (trace d).
Proof.
  intros Hp d'. unfold d'. rewrite (write_reg_plain h a v d Hp).
  cbn [snd regs trace writes]. rewrite upd_same.
  repeat split. intros x Hx. now apply upd_other.
Qed.

Lemma setState_effect (st : Z) (d : spi_device) :
  plain_reg h (SX127X_REG_OP_MODE h) ->
  let op := SX127X_REG_OP_MODE h in
  let v := Z.lor (Z.land (reg d op) 0xF8) (Z.land st 0x07) in
  let d' := snd (sx127X_setState h st d) in
  regs d' op = v
  /\ (forall x, x <> op -> regs d' x = regs d x)
  /\ writes (trace d') = (op, [v]) :: writes (trace d).
Proof.
  intros Hp op v d'. unfold d'. rewrite (setState_run h st d Hp).
  cbn [snd regs trace writes]. fold op. rewrite upd_same.
  repeat split. intros x Hx. now apply upd_other.
Qed.

Lemma implicit_off_effect (d : spi_device) :
  plain_reg h (SX127X_REG_MODEM_CONFIG1 h) ->
  let mc1 := SX127X_REG_MODEM_CONFIG1 h in
  let d' := snd (sx127X_setLoRaImplicit h 0 d) in
  regs d' mc1 = Z.land (reg d mc1) 0xFE
  /\ (forall x, x <> mc1 -> regs d' x = regs d x)
  /\ writes (trace d')
     = (mc1, [Z.land (reg d mc1) 0xFE]) :: writes (trace d).
Proof.
  intros Hp mc1 d'. unfold d'. rewrite (setLoRaImplicit_off h d Hp).
  cbn [snd regs trace writes]. fold mc1. rewrite upd_same.
  repeat split. intros x Hx. now apply upd_other.
Qed.

Lemma clearLoRaFlag_writes (f : Z) (d : spi_device) :
  irq_ok h ->
  exists v,
    writes (trace (snd (sx127X_clearLoRaFlag h f d)))
    = (SX127X_REG_IRQ_FLAGS h, [v]) :: writes (trace d).
Proof.
  intros Hi. rewrite (clearLoRaFlag_run h f d Hi). cbn [snd trace writes].
  eexists. reflexivity.
Qed.

End Effects.

Section StartUp.

Variable h : sx1278_h.
Hypothesis Hi : irq_ok h.
Hypothesis Hop : plain_reg h (SX127X_REG_OP_MODE h).
Hypothesis Hmc1 : plain_reg h (SX127X_REG_MODEM_CONFIG1 h).
Hypothesis Hrxb : plain_reg h (SX127X_REG_FIFO_RX_BASE_ADDR h).
Hypothesis Hptr : plain_reg h (SX127X_REG_FIFO_ADDR_PTR h).
Hypothesis Hnd : NoDup [SX127X_REG_OP_MODE h; SX127X_REG_MODEM_CONFIG1 h;
                        SX127X_REG_FIFO_RX_BASE_ADDR h;
                        SX127X_REG_FIFO_ADDR_PTR h].

(** The start-up sequence, register by register. *)
Lemma startLoRaMode_effect (d : spi_device) :
  let op := SX127X_REG_OP_MODE h in
  let mc1 := SX127X_REG_MODEM_CONFIG1 h in
  let d' := snd (sx127X_startLoRaMode h d) in
  let v1 := Z.lor (Z.land (reg d op) 0xF8) (Z.land (SX127X_SLEEP_MODE h) 0x07) in
  let v2 := Z.lor v1 0x80 in
  let v3 := Z.lor (Z.land v2 0xF8) (Z.land (SX127X_STANDBY_MODE h) 0x07) in
  reg d' op
  = Z.lor (Z.land v3 0xF8) (Z.land (SX127X_RXCONTINUOUS_MODE h) 0x07)
  /\ reg d' mc1 = Z.land (reg d mc1) 0xFE
  /\ reg d' (SX127X_REG_FIFO_RX_BASE_ADDR h) = 0
  /\ reg d' (SX127X_REG_FIFO_ADDR_PTR h) = 0
  /\ reg d' (SX127X_REG_IRQ_FLAGS h) = 0
  /\ exists rest,
       writes (trace d') = rest ++ (op, [v2]) :: (op, [v1]) :: writes (trace d).
Proof.
  intros op mc1 d' v1 v2 v3. subst op mc1.
  destruct (nodup4 _ _ _ _ Hnd) as (N1 & N2 & N3 & N4 & N5 & N6).
  assert (Hoi : (SX127X_REG_OP_MODE h) <> SX127X_REG_IRQ_FLAGS h) by apply Hop.
  assert (Hmi : (SX127X_REG_MODEM_CONFIG1 h) <> SX127X_REG_IRQ_FLAGS h) by apply Hmc1.
  assert (Hri : SX127X_REG_FIFO_RX_BASE_ADDR h <> SX127X_REG_IRQ_FLAGS h)
    by apply Hrxb.
  assert (Hpi : SX127X_REG_FIFO_ADDR_PTR h <> SX127X_REG_IRQ_FLAGS h)
    by apply Hptr.
  assert (Hb1 : u8 v1 = v1) by (unfold v1; mask_norm; reflexivity).
  assert (Hb2 : u8 v2 = v2) by (unfold v2, v1; mask_norm; reflexivity).
  assert (Hb3 : u8 v3 = v3) by (unfold v3; mask_norm; reflexivity).
  unfold d', sx127X_startLoRaMode, sx127X_getMode,
    sx127X_clearLoRaAllFlag.
  (* getMode *)
  bind_step x0 d1 E1.
  destruct (read_u8_effect h (SX127X_REG_OP_MODE h) d Hop) as (_ & R1 & W1).
  rewrite E1 in R1, W1. cbn [snd] in R1, W1.
  (* Sleep *)
  bind_step u2 d2 E2.
  destruct (setState_effect h (SX127X_SLEEP_MODE h) d1 Hop) as (S2 & F2 & W2).
  rewrite E2 in S2, F2, W2. cbn [snd] in S2, F2, W2.
  assert (O2 : reg d2 (SX127X_REG_OP_MODE h) = v1).
  { unfold reg at 1. rewrite S2. unfold reg. rewrite R1. exact Hb1. }
  (* LoRa bit *)
  bind_step x3 d3 E3.
  destruct (read_u8_effect h (SX127X_REG_OP_MODE h) d2 Hop) as (V3 & R3 & W3).
  rewrite E3 in V3, R3, W3. cbn [fst snd] in V3, R3, W3.
  bind_step u4 d4 E4.
  destruct (write_effect h (SX127X_REG_OP_MODE h) (u8 (Z.lor x3 0x80)) d3 Hop) as (S4 & F4 & W4).
  rewrite E4 in S4, F4, W4. cbn [snd] in S4, F4, W4.
  assert (O4 : reg d4 (SX127X_REG_OP_MODE h) = v2).
  { unfold reg at 1. rewrite S4, V3, O2, !u8_idem. exact Hb2. }
  (* Standby *)
  bind_step u5 d5 E5.
  destruct (setState_effect h (SX127X_STANDBY_MODE h) d4 Hop)
    as (S5 & F5 & W5).
  rewrite E5 in S5, F5, W5. cbn [snd] in S5, F5, W5.
  assert (O5 : reg d5 (SX127X_REG_OP_MODE h) = v3).
  { unfold reg at 1. rewrite S5, O4. exact Hb3. }
  bind_step x6 d6 E6.
  destruct (read_u8_effect h (SX127X_REG_OP_MODE h) d5 Hop) as (_ & R6 & W6).
  rewrite E6 in R6, W6. cbn [snd] in R6, W6.
  (* explicit header *)
  bind_step u7 d7 E7.
  destruct (implicit_off_effect h d6 Hmc1) as (S7 & F7 & W7).
  rewrite E7 in S7, F7, W7. cbn [snd] in S7, F7, W7.
  (* RX base, address pointer *)
  bind_step u8' d8 E8.
  destruct (write_effect h (SX127X_REG_FIFO_RX_BASE_ADDR h) 0 d7 Hrxb)
    as (S8 & F8 & W8).
  rewrite E8 in S8, F8, W8. cbn [snd] in S8, F8, W8.
  bind_step u9 d9 E9.
  destruct (write_effect h (SX127X_REG_FIFO_ADDR_PTR h) 0 d8 Hptr)
    as (S9 & F9 & W9).
  rewrite E9 in S9, F9, W9. cbn [snd] in S9, F9, W9.
  (* flags *)
  bind_step u10 d10 E10.
  destruct (clearLoRaFlag_effect h 0xFF d9 Hi) as (S10 & _ & _ & F10).
  destruct (clearLoRaFlag_writes h 0xFF d9 Hi) as (w10 & W10).
  rewrite E10 in S10, F10, W10. cbn [snd] in S10, F10, W10.
  (* RXContinuous *)
  destruct (setState_effect h (SX127X_RXCONTINUOUS_MODE h) d10 Hop)
    as (S11 & F11 & W11).
 
  set (d11 := snd (sx127X_setState h (SX127X_RXCONTINUOUS_MODE h) d10)) in *.
  assert (O10 : reg d10 (SX127X_REG_OP_MODE h) = v3).
  { unfold reg. rewrite F10, F9, F8, F7, R6 by auto. exact O5. }
  split; [| split; [| split; [| split; [| split]]]].
  - unfold reg at 1. rewrite S11, O10. mask_norm. reflexivity.
  - unfold reg at 1. rewrite F11, F10, F9, F8, S7 by auto.
    unfold reg. rewrite R6, F5, F4, R3, F2, R1 by auto.
    mask_norm. reflexivity.
  - unfold reg. rewrite F11, F10, F9, S8 by auto. reflexivity.
  - unfold reg. rewrite F11, F10, S9 by auto. reflexivity.
  - unfold reg. rewrite F11, S10 by auto. reflexivity.
  - rewrite W11, W10, W9, W8, W7, W6, W5, W4, W3, W2, W1.
    assert (Ev2 : u8 (Z.lor x3 128) = v2).
    { rewrite V3, O2. exact Hb2. }
    rewrite Ev2.
    assert (Ev1 : Z.lor (Z.land (reg d1 (SX127X_REG_OP_MODE h)) 248)
                        (Z.land (SX127X_SLEEP_MODE h) 7) = v1).
    { unfold v1, reg. now rewrite R1. }
    rewrite Ev1.
    eexists [_; _; _; _; _; _]. reflexivity.
Qed.

End StartUp.

(** X13: [init_sx127X] on a chip that answers the probe (version byte 1 to
    254).  The version is returned and the chip is left in LoRa mode
    (bit 7 of the op-mode register) and in RXContinuous, with bits 3..6 of
    the op-mode register as before, explicit header mode selected and the
    other bits of MODEM_CONFIG1 as before, RX base address and FIFO
    pointer 0, and no IRQ flag set.  The first write puts the chip to
    Sleep and the second sets the LoRa bit with the mode field still
    Sleep. *)
Theorem init_sx127X_started
    (h : sx1278_h) (r : sx1278_h_rest) (d : spi_device) :
  irq_ok h ->
  plain_reg h (SX127X_REG_VERSION r) ->
  plain_reg h (SX127X_REG_OP_MODE h) ->
  plain_reg h (SX127X_REG_MODEM_CONFIG1 h) ->
  plain_reg h (SX127X_REG_FIFO_RX_BASE_ADDR h) ->
  plain_reg h (SX127X_REG_FIFO_ADDR_PTR h) ->
  NoDup [SX127X_REG_OP_MODE h; SX127X_REG_MODEM_CONFIG1 h;
         SX127X_REG_FIFO_RX_BASE_ADDR h; SX127X_REG_FIFO_ADDR_PTR h] ->
  0 < reg d (SX127X_REG_VERSION r) < 0xFF ->
  let op := SX127X_REG_OP_MODE h in
  let mc1 := SX127X_REG_MODEM_CONFIG1 h in
  let d' := snd (init_sx127X h r d) in
  fst (init_sx127X h r d) = reg d (SX127X_REG_VERSION r)
  /\ Z.testbit (reg d' op) 7 = true
  /\ Z.land (reg d' op) 0x07 = Z.land (SX127X_RXCONTINUOUS_MODE h) 0x07
  /\ Z.land (reg d' op) 0x78 = Z.land (reg d op) 0x78
  /\ Z.testbit (reg d' mc1) 0 = false
  /\ Z.land (reg d' mc1) 0xFE = Z.land (reg d mc1) 0xFE
  /\ reg d' (SX127X_REG_FIFO_RX_BASE_ADDR h) = 0
  /\ reg d' (SX127X_REG_FIFO_ADDR_PTR h) = 0
  /\ reg d' (SX127X_REG_IRQ_FLAGS h) = 0
  /\ exists v1 v2 rest,
       writes (trace d') = rest ++ (op, [v2]) :: (op, [v1]) :: writes (trace d)
       /\ Z.land v1 0x07 = Z.land (SX127X_SLEEP_MODE h) 0x07
       /\ Z.land v2 0x07 = Z.land (SX127X_SLEEP_MODE h) 0x07
       /\ Z.testbit v2 7 = true.
Proof.
  intros Hi Hver Hop Hmc1 Hrxb Hptr Hnd Hv op mc1 d'. subst op mc1.
  set (v := reg d (SX127X_REG_VERSION r)) in *.
  assert (Hrun : init_sx127X h r d
                 = (v, snd (sx127X_startLoRaMode h
                              (snd (log (EvRead (SX127X_REG_VERSION r) 1) d))))).
  { unfold init_sx127X.
    rewrite (bind_run _ _ _ _ _ (readVersion_run h r d Hver)). fold v.
    replace ((0 <? v) && (v <? 255)) with true
      by (symmetry; apply andb_true_iff; split; apply Z.ltb_lt; lia).
    replace (v >? 0) with true by (symmetry; apply Z.gtb_lt; lia).
    unfold bind, ret. now destruct (sx127X_startLoRaMode h _). }
  unfold d'. rewrite Hrun. cbn [fst snd].
  destruct (startLoRaMode_effect h Hi Hop Hmc1 Hrxb Hptr Hnd
              (snd (log (EvRead (SX127X_REG_VERSION r) 1) d)))
    as (Eop & Emc & Erx & Eptr & Eirq & rest & Ew).
  cbv zeta in Eop, Ew.
  change (reg (snd (log (EvRead (SX127X_REG_VERSION r) 1) d)))
    with (reg d) in Eop, Emc, Ew.
  change (writes (trace (snd (log (EvRead (SX127X_REG_VERSION r) 1) d))))
    with (writes (trace d)) in Ew.
  split; [reflexivity |].
  rewrite Eop, Emc.
  split; [| split; [| split; [| split; [| split]]]].
  - rewrite Z.lor_spec, !Z.land_spec, Z.lor_spec, !Z.land_spec, Z.lor_spec.
    simpl. now rewrite !andb_true_r, !andb_false_r, !orb_false_r, orb_true_r.
  - mask_norm. reflexivity.
  - mask_norm. reflexivity.
  - rewrite Z.land_spec. simpl. apply andb_false_r.
  - mask_norm. reflexivity.
  - split; [exact Erx | split; [exact Eptr | split; [exact Eirq |]]].
    eexists. eexists. exists rest. split; [exact Ew |].
    split; [mask_norm; reflexivity | split; [mask_norm; reflexivity |]].
    rewrite Z.lor_spec. simpl. apply orb_true_r.
Qed.

Lemma init_sx127X_started_witness :
  let h := sx1278_datasheet in
  let r := sx1278_datasheet_rest in
  let d := quiet_chip (fun a => if a =? 0x42 then 0x12 else 0x09) in
  (irq_ok h
   /\ plain_reg h (SX127X_REG_VERSION r)
   /\ plain_reg h (SX127X_REG_OP_MODE h)
   /\ plain_reg h (SX127X_REG_MODEM_CONFIG1 h)
   /\ plain_reg h (SX127X_REG_FIFO_RX_BASE_ADDR h)
   /\ plain_reg h (SX127X_REG_FIFO_ADDR_PTR h)
   /\ NoDup [SX127X_REG_OP_MODE h; SX127X_REG_MODEM_CONFIG1 h;
             SX127X_REG_FIFO_RX_BASE_ADDR h; SX127X_REG_FIFO_ADDR_PTR h]
   /\ 0 < reg d (SX127X_REG_VERSION r) < 0xFF)
  /\ fst (init_sx127X h r d) = reg d (SX127X_REG_VERSION r).
Proof.
  assert (Hnd : NoDup [0x01; 0x1D; 0x0F; 0x0D]).
  { repeat constructor; simpl; intuition discriminate. }
  split.
  - unfold irq_ok, plain_reg. simpl. repeat split; try lia; exact Hnd.
  - refine (proj1 (init_sx127X_started sx1278_datasheet sx1278_datasheet_rest
                     (quiet_chip (fun a => if a =? 0x42 then 0x12 else 0x09))
                     _ _ _ _ _ _ Hnd _));
      try (unfold irq_ok, plain_reg; simpl; lia).
    vm_compute. split; reflexivity.
Defined.

(** A run: version [0x12], op-mode [0x09] (FSK, high-frequency port,
    Standby) becomes [0x8D] (LoRa, port bit kept, RXContinuous). *)
Example init_sx127X_run :
  let d := quiet_chip (fun a => if a =? 0x42 then 0x12 else 0x09) in
  let res := init_sx127X sx1278_datasheet sx1278_datasheet_rest d in
  fst res = 0x12 /\ reg (snd res) 0x01 = 0x8D /\ reg (snd res) 0x1D = 0x08
  /\ map fst (rev (writes (trace (snd res))))
     = [0x01; 0x01; 0x01; 0x1D; 0x0F; 0x0D; 0x12; 0x01].
Proof. vm_compute. repeat split. Qed.

(** ** Signal strength *)

Lemma s8_range (x : Z) : -128 <= s8 x <= 127.
Proof.
  unfold s8. pose proof (Z.mod_pos_bound x 256 ltac:(lia)).
  cbv zeta. destruct (Z.ltb_spec (x mod 256) 128); lia.
Qed.

Lemma quot4_range (s : Z) : -128 <= s <= 127 -> -32 <= Z.quot s 4 <= 31.
Proof. intros Hs. Z.quot_rem_to_equations. lia. Qed.

Lemma quot4_sign (s : Z) :
  (if s <? 0 then Z.quot s 4 else 0) = Z.min 0 (Z.quot s 4).
Proof. destruct (Z.ltb_spec s 0); Z.quot_rem_to_equations; lia. Qed.

Lemma lhf_bit (m : Z) :
  negb (u8 (Z.land m 0x08) =? 0) = Z.testbit m 3.
Proof.
  assert (E : Z.land m 8 = if Z.testbit m 3 then 8 else 0).
  { apply Z.bits_inj'. intros n Hn. rewrite Z.land_spec.
    destruct (Z.eq_dec n 3) as [-> | Hne].
    - destruct (Z.testbit m 3); reflexivity.
    - change 8 with (2 ^ 3). rewrite Z.pow2_bits_false by lia.
      rewrite andb_false_r.
      destruct (Z.testbit m 3);
        [now rewrite Z.pow2_bits_false by lia | now rewrite Z.bits_0]. }
  rewrite E. destruct (Z.testbit m 3); reflexivity.
Qed.

(** X14: the signal-strength getters.  The packet SNR is the signed
    register byte divided by four towards zero, so between -32 and 31.
    The packet RSSI is the register byte plus -164 when bit 3 of the
    op-mode register is set and plus -157 when it is clear, lowered by the
    packet SNR when that is negative; a raw SNR byte of -3 to -1 therefore
    lowers nothing.  The current RSSI takes the same offset and no
    correction. *)
Theorem sx127X_packet_rssi_snr
    (h : sx1278_h) (r : sx1278_h_rest) (d : spi_device) :
  plain_reg h (SX127X_REG_OP_MODE h) ->
  plain_reg h (SX127X_REG_PKT_RSSI_VALUE r) ->
  plain_reg h (SX127X_REG_PKT_SNR_VALUE r) ->
  plain_reg h (SX127X_REG_RSSI_VALUE r) ->
  let raw := s8 (reg d (SX127X_REG_PKT_SNR_VALUE r)) in
  let snr := fst (sx127X_getLoRaLastPacketSNR h r d) in
  let base := if Z.testbit (reg d (SX127X_REG_OP_MODE h)) 3
              then -164 else -157 in
  let prssi := fst (sx127X_getLoRaLastPacketRSSI h r d) in
  (snr = Z.quot raw 4 /\ -32 <= snr <= 31)
  /\ prssi = base + reg d (SX127X_REG_PKT_RSSI_VALUE r) + Z.min 0 snr
  /\ -196 <= prssi <= 98
  /\ (-4 < raw -> prssi = base + reg d (SX127X_REG_PKT_RSSI_VALUE r))
  /\ fst (sx127X_getLoRaRSSI h r d)
     = base + reg d (SX127X_REG_RSSI_VALUE r).
Proof.
  intros Hop Hpr Hps Hrs raw snr base prssi.
  assert (Es : snr = Z.quot raw 4).
  { unfold snr, sx127X_getLoRaLastPacketSNR.
    rewrite (bind_run _ _ _ _ _ (read_u8_plain h _ d Hps)). reflexivity. }
  assert (Ep : prssi
               = base + reg d (SX127X_REG_PKT_RSSI_VALUE r)
                 + (if raw <? 0 then Z.quot raw 4 else 0)).
  { unfold prssi, sx127X_getLoRaLastPacketRSSI, sx127X_getMode.
    rewrite (bind_run _ _ _ _ _ (read_u8_plain h _ d Hop)).
    rewrite (bind_run _ _ _ _ _ (read_u8_plain h _ _ Hpr)).
    rewrite (bind_run _ _ _ _ _ (read_u8_plain h _ _ Hps)).
    change (reg (snd (log _ (snd (log _ d))))) with (reg d).
    change (reg (snd (log _ d))) with (reg d).
    cbv zeta. rewrite lhf_bit. fold raw. unfold base.
    destruct (raw <? 0), (Z.testbit (reg d (SX127X_REG_OP_MODE h)) 3);
      unfold ret; cbn [fst]; lia. }
  pose proof (s8_range (reg d (SX127X_REG_PKT_SNR_VALUE r))) as Hraw.
  fold raw in Hraw.
  pose proof (quot4_range raw Hraw) as Hq.
  pose proof (reg_range d (SX127X_REG_PKT_RSSI_VALUE r)) as Hb.
  rewrite quot4_sign in Ep. rewrite <- Es in Ep.
  assert (Hbase : -164 <= base <= -157).
  { unfold base. destruct (Z.testbit _ 3); lia. }
  split; [split; [exact Es | lia] |].
  split; [exact Ep |].
  split; [lia |].
  split.
  - intros Hr. rewrite Ep, Es. Z.quot_rem_to_equations. lia.
  - unfold sx127X_getLoRaRSSI, sx127X_getMode.
    rewrite (bind_run _ _ _ _ _ (read_u8_plain h _ d Hop)).
    rewrite (bind_run _ _ _ _ _ (read_u8_plain h _ _ Hrs)).
    change (reg (snd (log _ d))) with (reg d).
    cbv zeta. rewrite lhf_bit. unfold base, ret. cbn [fst].
    now destruct (Z.testbit (reg d (SX127X_REG_OP_MODE h)) 3).
Qed.

Lemma sx127X_packet_rssi_snr_witness :
  let h := sx1278_datasheet in
  let r := sx1278_datasheet_rest in
  let d := quiet_chip (fun a => if a =? 0x19 then 0xF3
                                else if a =? 0x1A then 60 else 0x8D) in
  fst (sx127X_getLoRaLastPacketSNR h r d) = -3
  /\ fst (sx127X_getLoRaLastPacketRSSI h r d) = -164 + 60 + -3.
Proof.
  pose proof (sx127X_packet_rssi_snr sx1278_datasheet sx1278_datasheet_rest
                (quiet_chip (fun a => if a =? 0x19 then 0xF3
                                      else if a =? 0x1A then 60 else 0x8D)))
    as H.
  unfold plain_reg in H. simpl in H.
  specialize (H ltac:(lia) ltac:(lia) ltac:(lia) ltac:(lia)).
  destruct H as ((Es & _) & Ep & _).
  split; [exact Es | exact Ep].
Defined.

(** ** The state requests *)

Lemma getState_run (h : sx1278_h) (d : spi_device) :
  plain_reg h (SX127X_REG_OP_MODE h) ->
  sx127X_getState h d
  = (Z.land (reg d (SX127X_REG_OP_MODE h)) 0x07,
     snd (log (EvRead (SX127X_REG_OP_MODE h) 1) d)).
Proof.
  intros Hop. unfold sx127X_getState, sx127X_getMode.
  rewrite (bind_run _ _ _ _ _ (read_u8_plain h _ d Hop)).
  unfold ret. f_equal. mask_norm. reflexivity.
Qed.

Lemma mode_field (old st : Z) :
  0 <= st < 8 ->
  Z.land (u8 (Z.lor (Z.land old 0xF8) (Z.land (u8 st) 0x07))) 0x07 = st.
Proof.
  intros Hst. rewrite (u8_small st) by lia. mask_norm.
  change 7 with (Z.ones 3). rewrite Z.land_ones by lia.
  apply Z.mod_small. change (2 ^ 3) with 8. lia.
Qed.

(** X15: a state request read back.  The mode constants are three-bit
    values and, being the labels of one [switch], pairwise different, as
    are the state constants.  After [loraspi_setstate] with one of the
    five states, [loraspi_getstate] hands that state back; after any other
    value it hands back Standby.  The request returns 0 and keeps the
    upper five bits of the op-mode register. *)
Theorem loraspi_state_roundtrip
    (h : sx1278_h) (r : sx1278_h_rest) (l : lora_h)
    (st32 : Z) (d : spi_device) :
  plain_reg h (SX127X_REG_OP_MODE h) ->
  Forall (fun m => 0 <= m < 8)
    [SX127X_SLEEP_MODE h; SX127X_STANDBY_MODE h; SX127X_TX_MODE h;
     SX127X_RXCONTINUOUS_MODE h; SX127X_CAD_MODE r] ->
  NoDup [SX127X_SLEEP_MODE h; SX127X_STANDBY_MODE h; SX127X_FSTX_MODE r;
         SX127X_TX_MODE h; SX127X_FSRX_MODE r; SX127X_RXSINGLE_MODE r;
         SX127X_RXCONTINUOUS_MODE h; SX127X_CAD_MODE r] ->
  NoDup [LORA_STATE_SLEEP l; LORA_STATE_STANDBY l; LORA_STATE_TX l;
         LORA_STATE_RX l; LORA_STATE_CAD l] ->
  let known := [LORA_STATE_SLEEP l; LORA_STATE_STANDBY l; LORA_STATE_TX l;
                LORA_STATE_RX l; LORA_STATE_CAD l] in
  let d' := snd (loraspi_setstate h r l st32 d) in
  let got := fst (loraspi_getstate h r l d') in
  fst (loraspi_setstate h r l st32 d) = 0
  /\ (In st32 known -> got = st32)
  /\ (~ In st32 known -> got = LORA_STATE_STANDBY l)
  /\ Z.land (reg d' (SX127X_REG_OP_MODE h)) 0xF8
     = Z.land (reg d (SX127X_REG_OP_MODE h)) 0xF8.
Proof.
  intros Hop Hm Hnd Hl known d' got.
  set (st := if st32 =? LORA_STATE_SLEEP l then SX127X_SLEEP_MODE h
             else if st32 =? LORA_STATE_STANDBY l then SX127X_STANDBY_MODE h
             else if st32 =? LORA_STATE_TX l then SX127X_TX_MODE h
             else if st32 =? LORA_STATE_RX l then SX127X_RXCONTINUOUS_MODE h
             else if st32 =? LORA_STATE_CAD l then SX127X_CAD_MODE r
             else SX127X_STANDBY_MODE h).
  assert (Hrun : loraspi_setstate h r l st32 d
                 = (0, snd (sx127X_setState h (u8 st) d))).
  { unfold loraspi_setstate. fold st. unfold bind, ret.
    now destruct (sx127X_setState h (u8 st) d). }
  assert (Hst : 0 <= st < 8).
  { rewrite !Forall_cons_iff in Hm. unfold st.
    repeat match goal with |- context [if ?c then _ else _] => destruct c end;
      intuition. }
  assert (Hreg : reg d' (SX127X_REG_OP_MODE h)
                 = u8 (Z.lor (Z.land (reg d (SX127X_REG_OP_MODE h)) 0xF8)
                             (Z.land (u8 st) 0x07))).
  { unfold d'. rewrite Hrun. cbn [snd].
    rewrite (setState_run h (u8 st) d Hop). cbn [snd].
    unfold reg at 1. cbn [regs]. rewrite upd_same. mask_norm. reflexivity. }
  assert (Hgot : got
                 = let m := st in
                   if m =? SX127X_SLEEP_MODE h then LORA_STATE_SLEEP l
                   else if m =? SX127X_STANDBY_MODE h then LORA_STATE_STANDBY l
                   else if (m =? SX127X_FSTX_MODE r) || (m =? SX127X_TX_MODE h)
                        then LORA_STATE_TX l
                   else if (m =? SX127X_FSRX_MODE r)
                           || (m =? SX127X_RXSINGLE_MODE r)
                           || (m =? SX127X_RXCONTINUOUS_MODE h)
                        then LORA_STATE_RX l
                   else if m =? SX127X_CAD_MODE r then LORA_STATE_CAD l
                   else LORA_STATE_SLEEP l).
  { unfold got, loraspi_getstate.
    rewrite (bind_run _ _ _ _ _ (getState_run h d' Hop)).
    rewrite Hreg, (mode_field _ st Hst). reflexivity. }
  cbv zeta in Hgot.
  (* the labels differ *)
  assert (Hd : SX127X_STANDBY_MODE h <> SX127X_SLEEP_MODE h
               /\ SX127X_TX_MODE h <> SX127X_SLEEP_MODE h
               /\ SX127X_TX_MODE h <> SX127X_STANDBY_MODE h
               /\ SX127X_RXCONTINUOUS_MODE h <> SX127X_SLEEP_MODE h
               /\ SX127X_RXCONTINUOUS_MODE h <> SX127X_STANDBY_MODE h
               /\ SX127X_RXCONTINUOUS_MODE h <> SX127X_FSTX_MODE r
               /\ SX127X_RXCONTINUOUS_MODE h <> SX127X_TX_MODE h
               /\ SX127X_CAD_MODE r <> SX127X_SLEEP_MODE h
               /\ SX127X_CAD_MODE r <> SX127X_STANDBY_MODE h
               /\ SX127X_CAD_MODE r <> SX127X_FSTX_MODE r
               /\ SX127X_CAD_MODE r <> SX127X_TX_MODE h
               /\ SX127X_CAD_MODE r <> SX127X_FSRX_MODE r
               /\ SX127X_CAD_MODE r <> SX127X_RXSINGLE_MODE r
               /\ SX127X_CAD_MODE r <> SX127X_RXCONTINUOUS_MODE h).
  { repeat match goal with
           | H : NoDup (_ :: _) |- _ => inversion H; subst; clear H
           end.
    cbn [In] in *. repeat split; intros E; rewrite E in *; tauto. }
  destruct Hd as (D1 & D2 & D3 & D4 & D5 & D6 & D7 & D8 & D9 & D10 & D11
                  & D12 & D13 & D14).
  apply Z.eqb_neq in D1, D2, D3, D4, D5, D6, D7, D8, D9, D10, D11, D12,
                     D13, D14.
  assert (Hmap :
    got = if st32 =? LORA_STATE_SLEEP l then LORA_STATE_SLEEP l
          else if st32 =? LORA_STATE_STANDBY l then LORA_STATE_STANDBY l
          else if st32 =? LORA_STATE_TX l then LORA_STATE_TX l
          else if st32 =? LORA_STATE_RX l then LORA_STATE_RX l
          else if st32 =? LORA_STATE_CAD l then LORA_STATE_CAD l
          else LORA_STATE_STANDBY l).
  { rewrite Hgot. unfold st.
    destruct (st32 =? LORA_STATE_SLEEP l); [now rewrite Z.eqb_refl |].
    destruct (st32 =? LORA_STATE_STANDBY l);
      [now rewrite D1, Z.eqb_refl |].
    destruct (st32 =? LORA_STATE_TX l);
      [now rewrite D2, D3, Z.eqb_refl, orb_true_r |].
    destruct (st32 =? LORA_STATE_RX l);
      [now rewrite D4, D5, D6, D7, Z.eqb_refl, orb_true_r |].
    destruct (st32 =? LORA_STATE_CAD l);
      [now rewrite D8, D9, D10, D11, D12, D13, D14, Z.eqb_refl |].
    now rewrite D1, Z.eqb_refl. }
  split; [now rewrite Hrun |].
  split; [| split].
  - intros Hin. rewrite Hmap. unfold known in Hin. cbn [In] in Hin.
    repeat match goal with
           | |- context [?a =? ?b] => destruct (Z.eqb_spec a b)
           end; intuition congruence.
  - intros Hout. rewrite Hmap. unfold known in Hout. cbn [In] in Hout.
    repeat match goal with
           | |- context [?a =? ?b] => destruct (Z.eqb_spec a b)
           end; intuition congruence.
  - rewrite Hreg. mask_norm. reflexivity.
Qed.

Lemma loraspi_state_roundtrip_witness :
  let h := sx1278_datasheet in
  let r := sx1278_datasheet_rest in
  let l := lora_h_sample in
  let d := quiet_chip (fun _ => 0x89) in
  fst (loraspi_getstate h r l
         (snd (loraspi_setstate h r l (LORA_STATE_RX l) d)))
  = LORA_STATE_RX l
  /\ fst (loraspi_getstate h r l (snd (loraspi_setstate h r l 9 d)))
     = LORA_STATE_STANDBY l.
Proof.
  assert (Hop : plain_reg sx1278_datasheet
                  (SX127X_REG_OP_MODE sx1278_datasheet)).
  { unfold plain_reg. simpl. lia. }
  assert (Hm : Forall (fun m => 0 <= m < 8) [0; 1; 3; 5; 7]).
  { repeat constructor; lia. }
  assert (Hnd : NoDup [0; 1; 2; 3; 4; 6; 5; 7]).
  { repeat constructor; simpl; intuition discriminate. }
  assert (Hl : NoDup [0; 1; 2; 3; 4]).
  { repeat constructor; simpl; intuition discriminate. }
  split.
  - refine (proj1 (proj2 (loraspi_state_roundtrip sx1278_datasheet
             sx1278_datasheet_rest lora_h_sample 3
             (quiet_chip (fun _ => 0x89)) Hop Hm Hnd Hl)) _).
    simpl. tauto.
  - refine (proj1 (proj2 (proj2 (loraspi_state_roundtrip sx1278_datasheet
             sx1278_datasheet_rest lora_h_sample 9
             (quiet_chip (fun _ => 0x89)) Hop Hm Hnd Hl))) _).
    simpl. intuition discriminate.
Defined.

(** ** The LNA requests *)

(** X16: [loraspi_setLNAAGC] turns the automatic gain control on for the
    value 1 only: bit 2 of MODEM_CONFIG3 is set exactly when the argument
    is 1 (2, say, turns it off), the seven other bits of the register and
    all other registers are kept, and 0 is returned. *)
Theorem loraspi_setLNAAGC_only_on_one
    (h : sx1278_h) (r : sx1278_h_rest) (agc : Z) (d : spi_device) :
  plain_reg h (SX127X_REG_MODEM_CONFIG3 r) ->
  let mc3 := SX127X_REG_MODEM_CONFIG3 r in
  let d' := snd (loraspi_setLNAAGC h r agc d) in
  fst (loraspi_setLNAAGC h r agc d) = 0
  /\ Z.testbit (reg d' mc3) 2 = (agc =? 1)
  /\ Z.land (reg d' mc3) 0xFB = Z.land (reg d mc3) 0xFB
  /\ forall x, x <> mc3 -> reg d' x = reg d x.
Proof.
  intros Hp mc3 d'. subst mc3.
  assert (Hrun : loraspi_setLNAAGC h r agc d
                 = (0, snd (sx127X_setLoRaLNAAGC h r
                              (if agc =? 1 then 1 else 0) d))).
  { unfold loraspi_setLNAAGC. cbv zeta. unfold bind, ret.
    now destruct (sx127X_setLoRaLNAAGC h r _ d). }
  unfold d'. rewrite Hrun. cbn [fst snd].
  split; [reflexivity |].
  unfold sx127X_setLoRaLNAAGC. change (Z.lnot 4) with (-5).
  destruct (agc =? 1); cbv beta iota zeta;
    change (negb (1 =? 0)) with true; change (negb (0 =? 0)) with false;
    cbv iota.
  - rewrite (rmw_reg h _ (fun x => Z.lor x 4) d Hp).
    split; [| split].
    + rewrite u8_land, Z.land_spec, Z.lor_spec. simpl.
      now rewrite orb_true_r.
    + mask_norm. reflexivity.
    + intros x Hx. now apply (rmw_other h _ x (fun y => Z.lor y 4) d Hp).
  - rewrite (rmw_reg h _ (fun x => Z.land x (-5)) d Hp).
    rewrite u8_land, <- Z.land_assoc. change (Z.land (-5) 255) with 251.
    split; [| split].
    + rewrite Z.land_spec. simpl. apply andb_false_r.
    + rewrite <- Z.land_assoc. reflexivity.
    + intros x Hx.
      now apply (rmw_other h _ x (fun y => Z.land y (-5)) d Hp).
Qed.

Lemma loraspi_setLNAAGC_only_on_one_witness :
  let h := sx1278_datasheet in
  let r := sx1278_datasheet_rest in
  let d := quiet_chip (fun _ => 0x0C) in
  plain_reg h (SX127X_REG_MODEM_CONFIG3 r)
  /\ Z.testbit (reg (snd (loraspi_setLNAAGC h r 2 d)) 0x26) 2 = false.
Proof.
  assert (Hp : plain_reg sx1278_datasheet
                 (SX127X_REG_MODEM_CONFIG3 sx1278_datasheet_rest)).
  { unfold plain_reg. simpl. lia. }
  split; [exact Hp |].
  exact (proj1 (proj2 (loraspi_setLNAAGC_only_on_one sx1278_datasheet
                         sx1278_datasheet_rest 2
                         (quiet_chip (fun _ => 0x0C)) Hp))).
Defined.

Lemma lna_scan_clamp (db : Z) :
  lna_scan (firstn 5 lna_gain) 0
    (if db >? LORA_MAX_LNA then LORA_MAX_LNA
     else if db <? LORA_MIN_LNA then LORA_MIN_LNA else db)
  = lna_scan (firstn 5 lna_gain) 0 db.
Proof.
  unfold LORA_MAX_LNA, LORA_MIN_LNA.
  set (c := if db >? 0 then 0 else if db <? -48 then -48 else db).
  assert (Hc : (0 < db /\ c = 0) \/ (db < -48 /\ c = -48)
               \/ (-48 <= db <= 0 /\ c = db)).
  { unfold c. destruct (Z.gtb_spec db 0); [lia |].
    destruct (Z.ltb_spec db (-48)); lia. }
  pose proof (lna_scan_cases db) as H1. pose proof (lna_scan_cases c) as H2.
  cbv zeta in H1, H2. lia.
Qed.

(** X17: the clamp of [loraspi_setLNA] to the range -48..0 changes
    nothing: for every requested gain the request leaves the chip exactly
    as [sx127X_setLoRaLNA] with the unclamped value does, since a gain
    above 0 selects the first table entry and one below -48 the last step
    either way.  The gain field written is 1 from 0 dB up and 6 below
    -26 dB. *)
Theorem loraspi_setLNA_clamp_idle
    (h : sx1278_h) (db : Z) (d : spi_device) :
  plain_reg h (SX127X_REG_LNA h) ->
  let d' := snd (loraspi_setLNA h db d) in
  loraspi_setLNA h db d = (0, snd (sx127X_setLoRaLNA h db d))
  /\ (0 <= db -> Z.shiftr (reg d' (SX127X_REG_LNA h)) 5 = 1)
  /\ (db < -26 -> Z.shiftr (reg d' (SX127X_REG_LNA h)) 5 = 6).
Proof.
  intros Hp d'.
  assert (Hrun : loraspi_setLNA h db d = (0, snd (sx127X_setLoRaLNA h db d))).
  { unfold loraspi_setLNA. cbv zeta. unfold sx127X_setLoRaLNA. cbv zeta.
    rewrite lna_scan_clamp.
    set (m := bind (read_u8 h (SX127X_REG_LNA h)) _).
    unfold bind, ret. now destruct (m d). }
  split; [exact Hrun |].
  unfold d'. rewrite Hrun. cbn [snd].
  pose proof (lna_scan_cases db) as Hc. cbv zeta in Hc.
  unfold sx127X_setLoRaLNA. cbv zeta.
  set (i := lna_scan (firstn 5 lna_gain) 0 db) in *.
  rewrite (rmw_reg h _ (fun x => Z.lor (Z.land x 0x1F) (Z.shiftl (u8 (i + 1)) 5))
             d Hp).
  split; intros Hd.
  - assert (i = 0) as -> by lia. change (u8 (0 + 1)) with 1.
    rewrite u8_land, Z.shiftr_land, Z.shiftr_lor, low5_shift. reflexivity.
  - assert (i = 5) as -> by lia. change (u8 (5 + 1)) with 6.
    rewrite u8_land, Z.shiftr_land, Z.shiftr_lor, low5_shift. reflexivity.
Qed.

Lemma loraspi_setLNA_clamp_idle_witness :
  let h := sx1278_datasheet in
  let d := quiet_chip (fun _ => 0x23) in
  plain_reg h (SX127X_REG_LNA h)
  /\ loraspi_setLNA h (-100) d = (0, snd (sx127X_setLoRaLNA h (-100) d)).
Proof.
  assert (Hp : plain_reg sx1278_datasheet (SX127X_REG_LNA sx1278_datasheet)).
  { unfold plain_reg. simpl. lia. }
  split; [exact Hp |].
  exact (proj1 (loraspi_setLNA_clamp_idle sx1278_datasheet (-100)
                  (quiet_chip (fun _ => 0x23)) Hp)).
Defined.

(** ** RX time-out in milliseconds *)

Section RxTimeout.

Variable h : sx1278_h.
Hypothesis Hmc1 : plain_reg h (SX127X_REG_MODEM_CONFIG1 h).
Hypothesis Hmc2 : plain_reg h (SX127X_REG_MODEM_CONFIG2 h).
Hypothesis Hlsb : plain_reg h (SX127X_REG_MODEM_CONFIG2 h + 1).

Lemma getLoRaBW_full (d : spi_device) :
  sx127X_getLoRaBW h d
  = (array_get hz (Z.shiftr (reg d (SX127X_REG_MODEM_CONFIG1 h)) 4),
     snd (log (EvRead (SX127X_REG_MODEM_CONFIG1 h) 1) d)).
Proof using Hmc1.
  pose proof (getLoRaBW_run h d Hmc1) as E. revert E.
  unfold sx127X_getLoRaBW.
  rewrite (bind_run _ _ _ _ _ (read_u8_plain h _ d Hmc1)).
  unfold ret. cbn [fst]. now intros ->.
Qed.

Lemma getLoRaSPRFactor_full (d : spi_device) :
  sx127X_getLoRaSPRFactor h d
  = (u32 (Z.shiftl 1 (u8 (Z.shiftr (reg d (SX127X_REG_MODEM_CONFIG2 h)) 4))),
     snd (log (EvRead (SX127X_REG_MODEM_CONFIG2 h) 1) d)).
Proof using Hmc2.
  unfold sx127X_getLoRaSPRFactor.
  now rewrite (bind_run _ _ _ _ _ (read_u8_plain h _ d Hmc2)).
Qed.

Lemma getLoRaRXByteTimeout_full (d : spi_device) :
  sx127X_getLoRaRXByteTimeout h d
  = (Z.land (reg d (SX127X_REG_MODEM_CONFIG2 h)) 0x03 * 256
     + reg d (SX127X_REG_MODEM_CONFIG2 h + 1),
     snd (log (EvRead (SX127X_REG_MODEM_CONFIG2 h) 2) d)).
Proof using Hmc2 Hlsb.
  pose proof (getLoRaRXByteTimeout_run h Hmc2 Hlsb d) as E. revert E.
  unfold sx127X_getLoRaRXByteTimeout.
  rewrite (bind_run _ _ _ _ _ (read_reg_plain2 h _ d Hmc2 Hlsb)).
  unfold ret. cbn [fst snd]. now intros ->.
Qed.

Lemma setLoRaRXTimeout_run (ms bw : Z) (d : spi_device) :
  fst (sx127X_getLoRaBW h d) = Some bw ->
  sx127X_setLoRaRXTimeout h ms d
  = (Some tt,
     snd (sx127X_setLoRaRXByteTimeout h
            (u32 (ms * bw) / u32 (fst (sx127X_getLoRaSPRFactor h d) * 1000))
            (snd (log (EvRead (SX127X_REG_MODEM_CONFIG2 h) 1)
                    (snd (log (EvRead (SX127X_REG_MODEM_CONFIG1 h) 1) d)))))).
Proof using Hmc1 Hmc2.
  intros Hbw. rewrite getLoRaBW_full in Hbw. cbn [fst] in Hbw.
  unfold sx127X_setLoRaRXTimeout.
  rewrite (bind_run _ _ _ _ _ (getLoRaBW_full d)).
  rewrite (bind_run _ _ _ _ _ (getLoRaSPRFactor_full _)).
  rewrite Hbw. rewrite (getLoRaSPRFactor_full d). cbn [fst].
  change (reg (snd (log (EvRead (SX127X_REG_MODEM_CONFIG1 h) 1) d)))
    with (reg d).
  unfold bind, ret.
  now destruct (sx127X_setLoRaRXByteTimeout h _ _).
Qed.

Lemma getLoRaRXTimeout_run (d : spi_device) :
  fst (sx127X_getLoRaRXTimeout h d)
  = match fst (sx127X_getLoRaBW h d) with
    | None => None
    | Some bw =>
        Some (u32 (u32 (1000 * fst (sx127X_getLoRaRXByteTimeout h d))
                   * fst (sx127X_getLoRaSPRFactor h d)) / bw)
    end.
Proof using Hmc1 Hmc2 Hlsb.
  unfold sx127X_getLoRaRXTimeout.
  rewrite (bind_run _ _ _ _ _ (getLoRaRXByteTimeout_full d)).
  rewrite (bind_run _ _ _ _ _ (getLoRaSPRFactor_full _)).
  rewrite (bind_run _ _ _ _ _ (getLoRaBW_full _)).
  rewrite getLoRaBW_full, getLoRaSPRFactor_full, getLoRaRXByteTimeout_full.
  cbn [fst].
  change (reg (snd (log (EvRead (SX127X_REG_MODEM_CONFIG2 h) 1)
                      (snd (log (EvRead (SX127X_REG_MODEM_CONFIG2 h) 2) d)))))
    with (reg d).
  change (reg (snd (log (EvRead (SX127X_REG_MODEM_CONFIG2 h) 2) d)))
    with (reg d).
  now destruct (array_get hz _).
Qed.

(** What the symbol time-out setter leaves in the registers. *)
Lemma setLoRaRXByteTimeout_regs (n : Z) (d : spi_device) :
  let mc2 := SX127X_REG_MODEM_CONFIG2 h in
  let d' := snd (sx127X_setLoRaRXByteTimeout h n d) in
  fst (sx127X_getLoRaRXByteTimeout h d') = Z.max 1 (Z.min 1023 n)
  /\ Z.shiftr (reg d' mc2) 4 = Z.shiftr (reg d mc2) 4
  /\ forall x, x <> mc2 -> x <> mc2 + 1 -> reg d' x = reg d x.
Proof using Hmc2 Hlsb.
  intros mc2 d'.
  set (nc := Z.max 1 (Z.min 1023 n)).
  assert (Hnc : 1 <= nc <= 1023) by (unfold nc; lia).
  assert (Hhi : 0 <= Z.shiftr nc 8 < 4).
  { rewrite Z.shiftr_div_pow2 by lia. change (2 ^ 8) with 256.
    Z.div_mod_to_equations. lia. }
  destruct (timeout_msb (reg d mc2) (Z.shiftr nc 8) (reg_range d mc2) Hhi)
    as (H3 & Hfc & Hsh).
  assert (Hr0 : reg d' mc2
                = u8 (Z.lor (Z.land (reg d mc2) 0xFC) (Z.shiftr nc 8))).
  { unfold d'. rewrite (setLoRaRXByteTimeout_run h Hmc2 Hlsb n d).
    unfold reg at 1. cbn [snd regs]. fold mc2.
    rewrite upd_other, upd_same by lia. apply u8_idem. }
  assert (Hr1 : reg d' (mc2 + 1) = nc mod 256).
  { unfold d'. rewrite (setLoRaRXByteTimeout_run h Hmc2 Hlsb n d).
    unfold reg at 1. cbn [snd regs]. fold mc2 nc.
    rewrite upd_same. apply u8_small. apply Z.mod_pos_bound. lia. }
  split; [| split].
  - rewrite (getLoRaRXByteTimeout_run h Hmc2 Hlsb d'). fold mc2.
    rewrite Hr0, Hr1, H3. rewrite Z.shiftr_div_pow2 by lia.
    change (2 ^ 8) with 256. Z.div_mod_to_equations. lia.
  - rewrite Hr0. exact Hsh.
  - intros x Hx0 Hx1. unfold d'.
    rewrite (setLoRaRXByteTimeout_run h Hmc2 Hlsb n d).
    unfold reg. cbn [snd regs]. fold mc2.
    now rewrite !upd_other by assumption.
Qed.

Lemma spr_positive (d : spi_device) :
  1 <= fst (sx127X_getLoRaSPRFactor h d) <= 32768.
Proof using Hmc2.
  rewrite getLoRaSPRFactor_full. cbn [fst].
  pose proof (reg_range d (SX127X_REG_MODEM_CONFIG2 h)) as Hr.
  set (m := reg d (SX127X_REG_MODEM_CONFIG2 h)) in *.
  assert (Hs : 0 <= Z.shiftr m 4 <= 15).
  { rewrite Z.shiftr_div_pow2 by lia. change (2 ^ 4) with 16.
    Z.div_mod_to_equations. lia. }
  rewrite (u8_small (Z.shiftr m 4)) by lia.
  rewrite Z.shiftl_mul_pow2, Z.mul_1_l by lia.
  assert (Hp : 2 ^ 0 <= 2 ^ Z.shiftr m 4 <= 2 ^ 15).
  { split; apply Z.pow_le_mono_r; lia. }
  change (2 ^ 0) with 1 in Hp. change (2 ^ 15) with 32768 in Hp.
  unfold u32. rewrite Z.mod_small by (change (2 ^ 32) with 4294967296; lia).
  exact Hp.
Qed.

Lemma hz_positive (k bw : Z) : array_get hz k = Some bw -> 7800 <= bw.
Proof using.
  unfold array_get. destruct (k <? 0); [discriminate |].
  intros E. apply nth_error_In in E. unfold hz in E. simpl in E. lia.
Qed.

End RxTimeout.

(** X18: the RX time-out in milliseconds, set and read back.  With the
    bandwidth [bw] the chip is set to (its index inside the table), the
    spreading factor [spr] at most 4096 chips and [ms * bw] below 2^32,
    [sx127X_setLoRaRXTimeout ms] stores the symbol count
    [ms * bw / (spr * 1000)] confined to 1..1023, and
    [sx127X_getLoRaRXTimeout] then returns [1000 * count * spr / bw].
    When the count was not confined, the value read back is at most [ms]
    and short of it by less than one symbol time plus a millisecond. *)
Theorem sx127X_rx_timeout_roundtrip
    (h : sx1278_h) (ms bw : Z) (d : spi_device) :
  plain_reg h (SX127X_REG_MODEM_CONFIG1 h) ->
  plain_reg h (SX127X_REG_MODEM_CONFIG2 h) ->
  plain_reg h (SX127X_REG_MODEM_CONFIG2 h + 1) ->
  SX127X_REG_MODEM_CONFIG1 h <> SX127X_REG_MODEM_CONFIG2 h ->
  SX127X_REG_MODEM_CONFIG1 h <> SX127X_REG_MODEM_CONFIG2 h + 1 ->
  fst (sx127X_getLoRaBW h d) = Some bw ->
  fst (sx127X_getLoRaSPRFactor h d) <= 4096 ->
  0 <= ms -> ms * bw < 2 ^ 32 ->
  let spr := fst (sx127X_getLoRaSPRFactor h d) in
  let n0 := ms * bw / (spr * 1000) in
  let n := Z.max 1 (Z.min 1023 n0) in
  let d' := snd (sx127X_setLoRaRXTimeout h ms d) in
  fst (sx127X_setLoRaRXTimeout h ms d) = Some tt
  /\ fst (sx127X_getLoRaRXByteTimeout h d') = n
  /\ fst (sx127X_getLoRaRXTimeout h d') = Some (1000 * n * spr / bw)
  /\ (1 <= n0 <= 1023 ->
      1000 * n * spr / bw <= ms
      /\ (ms - 1000 * n * spr / bw - 1) * bw < 1000 * spr).
Proof.
  intros Hmc1 Hmc2 Hlsb Hne1 Hne2 Hbw Hsf Hms Hov spr n0 n d'.
  pose proof (spr_positive h Hmc2 d) as Hspr. fold spr in Hspr, Hsf.
  assert (Hbwp : 7800 <= bw).
  { rewrite (getLoRaBW_full h Hmc1) in Hbw. cbn [fst] in Hbw.
    exact (hz_positive _ _ Hbw). }
  pose proof (setLoRaRXTimeout_run h Hmc1 Hmc2 ms bw d Hbw) as Hrun.
  fold spr in Hrun.
  assert (Hn0 : u32 (ms * bw) / u32 (spr * 1000) = n0).
  { unfold n0, u32. change (2 ^ 32) with 4294967296 in *.
    rewrite !Z.mod_small by nia. reflexivity. }
  rewrite Hn0 in Hrun.
  set (d2 := snd (log (EvRead (SX127X_REG_MODEM_CONFIG2 h) 1)
                    (snd (log (EvRead (SX127X_REG_MODEM_CONFIG1 h) 1) d))))
    in Hrun.
  destruct (setLoRaRXByteTimeout_regs h Hmc2 Hlsb n0 d2) as (Hb & Hs & Ho).
  assert (Hd' : d' = snd (sx127X_setLoRaRXByteTimeout h n0 d2)).
  { unfold d'. now rewrite Hrun. }
  rewrite <- Hd' in Hb, Hs, Ho. fold n in Hb.
  change (reg d2) with (reg d) in Hs, Ho.
  assert (Hspr' : fst (sx127X_getLoRaSPRFactor h d') = spr).
  { unfold spr. rewrite !(getLoRaSPRFactor_full h Hmc2). cbn [fst].
    now rewrite Hs. }
  assert (Hbw' : fst (sx127X_getLoRaBW h d') = Some bw).
  { rewrite <- Hbw. rewrite !(getLoRaBW_full h Hmc1). cbn [fst].
    now rewrite (Ho _ Hne1 Hne2). }
  assert (Hn : 1 <= n <= 1023) by (unfold n; lia).
  split; [now rewrite Hrun |].
  split; [exact Hb |].
  split.
  - rewrite (getLoRaRXTimeout_run h Hmc1 Hmc2 Hlsb d'), Hbw', Hb, Hspr'.
    f_equal. f_equal. unfold u32. change (2 ^ 32) with 4294967296.
    rewrite (Z.mod_small (1000 * n)) by lia.
    apply Z.mod_small. nia.
  - intros Hin. assert (En : n = n0) by (unfold n; lia).
    rewrite En. unfold n0 in *.
    set (P := spr * 1000) in *.
    assert (HP : 0 < P) by (unfold P; lia).
    replace (1000 * (ms * bw / P) * spr) with (P * (ms * bw / P))
      by (unfold P; ring).
    pose proof (Z.mul_div_le (ms * bw) P HP) as H1.
    pose proof (Z.mul_succ_div_gt (ms * bw) P HP) as H2.
    set (q := ms * bw / P) in *. clearbody q.
    assert (Hb0 : 0 < bw) by lia.
    pose proof (Z.mul_div_le (P * q) bw Hb0) as H3.
    pose proof (Z.mul_succ_div_gt (P * q) bw Hb0) as H4.
    set (m' := P * q / bw) in *. clearbody m'.
    replace (1000 * spr) with P by (unfold P; ring).
    split; nia.
Qed.

Lemma sx127X_rx_timeout_roundtrip_witness :
  let h := sx1278_datasheet in
  let d := quiet_chip (fun a => if a =? 0x1D then 0x72 else 0x74) in
  fst (sx127X_getLoRaRXTimeout h (snd (sx127X_setLoRaRXTimeout h 100 d)))
  = Some (1000 * Z.max 1 (Z.min 1023 (100 * 125000 / (128 * 1000)))
          * 128 / 125000).
Proof.
  refine (proj1 (proj2 (proj2 (sx127X_rx_timeout_roundtrip sx1278_datasheet
            100 125000
            (quiet_chip (fun a => if a =? 0x1D then 0x72 else 0x74))
            _ _ _ _ _ _ _ _ _))));
    try (unfold plain_reg; simpl; lia);
    try (simpl; lia);
    try reflexivity.
  vm_compute. discriminate.
Defined.

(** A run: 125 kHz and 128 chips per symbol; 100 ms become 97 symbols,
    which read back as 99 ms. *)
Example sx127X_rx_timeout_run :
  let d := quiet_chip (fun a => if a =? 0x1D then 0x72 else 0x74) in
  let d' := snd (sx127X_setLoRaRXTimeout sx1278_datasheet 100 d) in
  fst (sx127X_getLoRaRXByteTimeout sx1278_datasheet d') = 97
  /\ fst (sx127X_getLoRaRXTimeout sx1278_datasheet d') = Some 99.
Proof. vm_compute. split; reflexivity. Qed.

(** ** The FIFO *)

Lemma u8_step (p j : Z) : u8 (u8 (p + 1) + j) = u8 (p + (j + 1)).
Proof.
  unfold u8. rewrite Zplus_mod_idemp_l. f_equal. lia.
Qed.

Lemma u8_apart (p k : Z) : 0 <= p < 256 -> 1 <= k <= 255 -> u8 (p + k) <> p.
Proof. intros Hp Hk. unfold u8. Z.div_mod_to_equations. lia. Qed.

Section FifoFacts.

Variable h : sx1278_h.

(** A burst written to the FIFO register lands in the FIFO memory from
    the address pointer on, and the pointer moves past it. *)
Lemma chip_write_fifo_content (buf : list Z) :
  (length buf <= 256)%nat ->
  forall d,
    let ptr := u8 (regs d (SX127X_REG_FIFO_ADDR_PTR h)) in
    let d' := snd (chip_write h (SX127X_REG_FIFO h) buf d) in
    (forall i, (i < length buf)%nat ->
       fifo d' (u8 (ptr + Z.of_nat i)) = u8 (nth i buf 0))
    /\ (forall a, (forall i, (i < length buf)%nat ->
                     a <> u8 (ptr + Z.of_nat i)) ->
          fifo d' a = fifo d a)
    /\ u8 (regs d' (SX127X_REG_FIFO_ADDR_PTR h))
       = u8 (ptr + Z.of_nat (length buf))
    /\ (forall x, x <> SX127X_REG_FIFO_ADDR_PTR h -> regs d' x = regs d x)
    /\ trace d' = trace d.
Proof.
  induction buf as [| b bs IH]; intros Hlen d ptr d'.
  - cbn [length] in *. unfold d'. cbn [chip_write ret snd].
    split; [intros i Hi; lia |]. split; [reflexivity |].
    split; [| split; reflexivity].
    unfold ptr. rewrite Z.add_0_r. now rewrite u8_idem.
  - cbn [length] in Hlen.
    assert (Hp : 0 <= ptr < 256) by apply u8_range.
    set (d1 := {| regs := upd (regs d) (SX127X_REG_FIFO_ADDR_PTR h)
                             (u8 (ptr + 1));
                  fifo := upd (fifo d) ptr (u8 b);
                  irq_raise := irq_raise d; trace := trace d |}).
    assert (Hd' : d' = snd (chip_write h (SX127X_REG_FIFO h) bs d1)).
    { unfold d'. cbn [chip_write]. unfold bind, chip_write1, next_adr.
      rewrite !Z.eqb_refl. reflexivity. }
    specialize (IH ltac:(lia) d1). cbv zeta in IH.
    rewrite <- Hd' in IH.
    assert (Hp1 : u8 (regs d1 (SX127X_REG_FIFO_ADDR_PTR h)) = u8 (ptr + 1)).
    { unfold d1. cbn [regs]. rewrite upd_same. apply u8_idem. }
    rewrite Hp1 in IH. destruct IH as (Hin & Hout & Hptr & Hreg & Htr).
    split; [| split; [| split; [| split]]].
    + intros [| j] Hj.
      * rewrite Z.add_0_r, (u8_small ptr) by exact Hp.
        rewrite Hout.
        -- unfold d1. cbn [fifo nth]. apply upd_same.
        -- intros i Hi. rewrite u8_step. intros E. symmetry in E.
           revert E. apply u8_apart; [exact Hp | lia].
      * cbn [length] in Hj. cbn [nth].
        rewrite <- (Hin j) by lia. f_equal. rewrite u8_step. f_equal.
        lia.
    + intros a Ha. rewrite Hout.
      * unfold d1. cbn [fifo]. apply upd_other.
        specialize (Ha 0%nat ltac:(cbn [length]; lia)).
        rewrite Z.add_0_r, (u8_small ptr) in Ha by exact Hp. exact Ha.
      * intros i Hi. rewrite u8_step.
        specialize (Ha (S i) ltac:(cbn [length]; lia)).
        replace (Z.of_nat i + 1) with (Z.of_nat (S i)) by lia. exact Ha.
    + rewrite Hptr, u8_step. f_equal. cbn [length]. lia.
    + intros x Hx. rewrite (Hreg x Hx). unfold d1. cbn [regs].
      now apply upd_other.
    + rewrite Htr. reflexivity.
Qed.

(** A burst read from the FIFO register returns the FIFO memory from the
    address pointer on, and the pointer moves past it. *)
Lemma chip_read_fifo_content (n : nat) :
  forall d,
    let ptr := u8 (regs d (SX127X_REG_FIFO_ADDR_PTR h)) in
    let res := chip_read h (SX127X_REG_FIFO h) n d in
    length (fst res) = n
    /\ (forall i, (i < n)%nat ->
          nth i (fst res) 0 = u8 (fifo d (u8 (ptr + Z.of_nat i))))
    /\ fifo (snd res) = fifo d
    /\ u8 (regs (snd res) (SX127X_REG_FIFO_ADDR_PTR h))
       = u8 (ptr + Z.of_nat n)
    /\ (forall x, x <> SX127X_REG_FIFO_ADDR_PTR h ->
          regs (snd res) x = regs d x)
    /\ trace (snd res) = trace d.
Proof.
  induction n as [| n IH]; intros d ptr res.
  - unfold res. cbn [chip_read ret fst snd length].
    split; [reflexivity |]. split; [intros i Hi; lia |].
    split; [reflexivity |].
    split; [| split; reflexivity].
    unfold ptr. rewrite Z.add_0_r. now rewrite u8_idem.
  - assert (Hp : 0 <= ptr < 256) by apply u8_range.
    set (d1 := {| regs := upd (regs d) (SX127X_REG_FIFO_ADDR_PTR h)
                             (u8 (ptr + 1));
                  fifo := fifo d;
                  irq_raise := irq_raise d; trace := trace d |}).
    assert (Hres : res
                   = (u8 (fifo d ptr)
                        :: fst (chip_read h (SX127X_REG_FIFO h) n d1),
                      snd (chip_read h (SX127X_REG_FIFO h) n d1))).
    { unfold res. cbn [chip_read]. unfold bind, chip_read1, next_adr.
      rewrite !Z.eqb_refl. fold ptr. fold d1.
      now destruct (chip_read h (SX127X_REG_FIFO h) n d1). }
    specialize (IH d1). cbv zeta in IH.
    assert (Hp1 : u8 (regs d1 (SX127X_REG_FIFO_ADDR_PTR h)) = u8 (ptr + 1)).
    { unfold d1. cbn [regs]. rewrite upd_same. apply u8_idem. }
    rewrite Hp1 in IH.
    destruct IH as (Hlen & Hin & Hff & Hptr & Hreg & Htr).
    rewrite Hres. cbn [fst snd length].
    split; [now rewrite Hlen |].
    split; [| split; [| split; [| split]]].
    + intros [| j] Hj.
      * cbn [nth]. now rewrite Z.add_0_r, (u8_small ptr).
      * cbn [nth]. rewrite (Hin j) by lia. unfold d1 at 1. cbn [fifo].
        rewrite u8_step. do 3 f_equal. lia.
    + rewrite Hff. reflexivity.
    + rewrite Hptr, u8_step. f_equal. lia.
    + intros x Hx. rewrite (Hreg x Hx). unfold d1. cbn [regs].
      now apply upd_other.
    + rewrite Htr. reflexivity.
Qed.

End FifoFacts.

Section FifoBus.

Variable h : sx1278_h.
Hypothesis Hf : 0 <= SX127X_REG_FIFO h < 128.

Lemma write_reg_fifo (buf : list Z) (d : spi_device) :
  sx127X_write_reg h (SX127X_REG_FIFO h) buf d
  = (Z.of_nat (length buf),
     snd (chip_write h (SX127X_REG_FIFO h) buf
            (snd (log (EvWrite (SX127X_REG_FIFO h) buf) d)))).
Proof using Hf.
  unfold sx127X_write_reg, bind, log, ret. cbn [fst snd].
  rewrite adr_wire by exact Hf.
  destruct (chip_write h _ buf _) as [u d1]. cbn [snd]. f_equal.
  destruct (Z.gtb_spec (1 + Z.of_nat (length buf)) 0); lia.
Qed.

Lemma read_reg_fifo (n : nat) (d : spi_device) :
  sx127X_read_reg h (SX127X_REG_FIFO h) n d
  = ((Z.of_nat n,
      fst (chip_read h (SX127X_REG_FIFO h) n
             (snd (log (EvRead (SX127X_REG_FIFO h) n) d)))),
     snd (chip_read h (SX127X_REG_FIFO h) n
            (snd (log (EvRead (SX127X_REG_FIFO h) n) d)))).
Proof using Hf.
  unfold sx127X_read_reg, bind, log, ret. cbn [fst snd].
  rewrite adr_read by exact Hf.
  destruct (chip_read h _ n _) as [bs d1]. cbn [fst snd]. do 2 f_equal.
  destruct (Z.gtb_spec (1 + Z.of_nat n) 0); lia.
Qed.

End FifoBus.

Lemma nth_firstn_lt (n i : nat) (l : list Z) :
  (i < n)%nat -> nth i (firstn n l) 0 = nth i l 0.
Proof.
  revert i l. induction n as [| n IH]; intros i l Hi; [lia |].
  destruct l as [| x l]; [reflexivity |].
  destruct i as [| i]; [reflexivity |].
  cbn [firstn nth]. apply IH. lia.
Qed.

(** [sx127X_sendLoRaData] up to its two last transfers: the burst into the
    FIFO starts with the FIFO pointer at the TX base address. *)
Lemma sendLoRaData_run
    (h : sx1278_h) (buf : list Z) (len : Z) (d : spi_device) :
  0 <= SX127X_REG_FIFO h < 128 ->
  plain_reg h (SX127X_REG_FIFO_TX_BASE_ADDR h) ->
  plain_reg h (SX127X_REG_FIFO_ADDR_PTR h) ->
  0 <= len <= Z.of_nat (length buf) ->
  let c := Z.min len 255 in
  exists d2,
    u8 (regs d2 (SX127X_REG_FIFO_ADDR_PTR h))
    = reg d (SX127X_REG_FIFO_TX_BASE_ADDR h)
    /\ fifo d2 = fifo d
    /\ sx127X_sendLoRaData h buf len d
       = (c, snd (sx127X_write_reg h (SX127X_REG_PAYLOAD_LENGTH h) [u8 c]
                    (snd (chip_write h (SX127X_REG_FIFO h)
                            (firstn (Z.to_nat c) buf) d2)))).
Proof.
  intros Hf Htx Hptr Hlen c.
  set (base := reg d (SX127X_REG_FIFO_TX_BASE_ADDR h)).
  assert (Hc : 0 <= c <= 255) by (unfold c; lia).
  assert (Hblen : u8 (if len <? SX127X_MAX_FIFO_LENGTH then len
                      else SX127X_MAX_FIFO_LENGTH) = c).
  { unfold SX127X_MAX_FIFO_LENGTH, c.
    destruct (Z.ltb_spec len 255); rewrite u8_small; lia. }
  set (bufc := firstn (Z.to_nat c) buf).
  assert (Hl : length bufc = Z.to_nat c).
  { unfold bufc. rewrite length_firstn. lia. }
  set (d2 := snd (sx127X_write_reg h (SX127X_REG_FIFO_ADDR_PTR h) [base]
                    (snd (log (EvRead (SX127X_REG_FIFO_TX_BASE_ADDR h) 1) d)))).
  exists (snd (log (EvWrite (SX127X_REG_FIFO h) bufc) d2)).
  split; [| split].
  - unfold d2. rewrite (write_reg_plain h _ base _ Hptr).
    cbn [snd log regs]. rewrite upd_same.
    unfold base, reg. now rewrite !u8_idem.
  - unfold d2. rewrite (write_reg_plain h _ base _ Hptr). reflexivity.
  - unfold sx127X_sendLoRaData.
    rewrite (bind_run _ _ _ _ _ (read_u8_plain h _ d Htx)). fold base.
    rewrite (bind_run _ _ _ _ _
               (surjective_pairing (sx127X_write_reg h _ [base] _))).
    fold d2. cbv zeta. rewrite Hblen. fold bufc.
    rewrite (bind_run _ _ _ _ _ (write_reg_fifo h Hf bufc d2)).
    rewrite Hl, Z2Nat.id by lia.
    unfold bind, ret.
    now destruct (sx127X_write_reg h (SX127X_REG_PAYLOAD_LENGTH h) _ _).
Qed.

(** The payload [sx127X_sendLoRaData] leaves in the chip. *)
Lemma sendLoRaData_payload
    (h : sx1278_h) (buf : list Z) (len : Z) (d : spi_device) :
  0 <= SX127X_REG_FIFO h < 128 ->
  plain_reg h (SX127X_REG_FIFO_TX_BASE_ADDR h) ->
  plain_reg h (SX127X_REG_FIFO_ADDR_PTR h) ->
  plain_reg h (SX127X_REG_PAYLOAD_LENGTH h) ->
  0 <= len <= Z.of_nat (length buf) ->
  let c := Z.min len 255 in
  let base := reg d (SX127X_REG_FIFO_TX_BASE_ADDR h) in
  let d' := snd (sx127X_sendLoRaData h buf len d) in
  fst (sx127X_sendLoRaData h buf len d) = c
  /\ reg d' (SX127X_REG_PAYLOAD_LENGTH h) = c
  /\ forall i, Z.of_nat i < c ->
       fifo d' (u8 (base + Z.of_nat i)) = u8 (nth i buf 0).
Proof.
  intros Hf Htx Hptr Hpl Hlen c base d'.
  destruct (sendLoRaData_run h buf len d Hf Htx Hptr Hlen)
    as (d2 & Hbase & _ & Hrun).
  fold c in Hrun. fold base in Hbase.
  assert (Hc : 0 <= c <= 255) by (unfold c; lia).
  assert (Hl : length (firstn (Z.to_nat c) buf) = Z.to_nat c).
  { rewrite length_firstn. lia. }
  destruct (chip_write_fifo_content h (firstn (Z.to_nat c) buf)
              ltac:(lia) d2) as (Hin & _).
  rewrite Hbase in Hin.
  unfold d'. rewrite Hrun. cbn [fst snd].
  rewrite (write_reg_plain h _ (u8 c) _ Hpl).
  unfold reg. cbn [snd regs fifo].
  split; [reflexivity | split].
  - rewrite upd_same, !u8_idem. apply u8_small. lia.
  - intros i Hi. rewrite Hin by lia. now rewrite nth_firstn_lt by lia.
Qed.

(** X19: [sx127X_sendLoRaData] puts the first [min len 255] bytes of the
    buffer into the FIFO from the TX base address on and nowhere else,
    leaves the FIFO pointer just past them, stores that count as the
    payload length and returns it. *)
Theorem sx127X_sendLoRaData_fills_fifo
    (h : sx1278_h) (buf : list Z) (len : Z) (d : spi_device) :
  0 <= SX127X_REG_FIFO h < 128 ->
  plain_reg h (SX127X_REG_FIFO_TX_BASE_ADDR h) ->
  plain_reg h (SX127X_REG_FIFO_ADDR_PTR h) ->
  plain_reg h (SX127X_REG_PAYLOAD_LENGTH h) ->
  SX127X_REG_PAYLOAD_LENGTH h <> SX127X_REG_FIFO_ADDR_PTR h ->
  0 <= len <= Z.of_nat (length buf) ->
  let c := Z.min len 255 in
  let base := reg d (SX127X_REG_FIFO_TX_BASE_ADDR h) in
  let d' := snd (sx127X_sendLoRaData h buf len d) in
  fst (sx127X_sendLoRaData h buf len d) = c
  /\ reg d' (SX127X_REG_PAYLOAD_LENGTH h) = c
  /\ reg d' (SX127X_REG_FIFO_ADDR_PTR h) = u8 (base + c)
  /\ (forall i, Z.of_nat i < c ->
        fifo d' (u8 (base + Z.of_nat i)) = u8 (nth i buf 0))
  /\ (forall a, (forall i, Z.of_nat i < c -> a <> u8 (base + Z.of_nat i)) ->
        fifo d' a = fifo d a).
Proof.
  intros Hf Htx Hptr Hpl Hne Hlen c base d'.
  destruct (sendLoRaData_run h buf len d Hf Htx Hptr Hlen)
    as (d2 & Hbase & Hfifo & Hrun).
  fold c in Hrun. fold base in Hbase.
  assert (Hc : 0 <= c <= 255) by (unfold c; lia).
  assert (Hl : length (firstn (Z.to_nat c) buf) = Z.to_nat c).
  { rewrite length_firstn. lia. }
  destruct (chip_write_fifo_content h (firstn (Z.to_nat c) buf)
              ltac:(lia) d2) as (Hin & Hout & Hp & _ & _).
  rewrite Hbase in Hin, Hout, Hp.
  unfold d'. rewrite Hrun. cbn [fst snd].
  rewrite (write_reg_plain h _ (u8 c) _ Hpl).
  unfold reg. cbn [snd regs fifo].
  split; [reflexivity |].
  split; [| split; [| split]].
  - rewrite upd_same, !u8_idem. apply u8_small. lia.
  - rewrite upd_other by (intros E; apply Hne; now symmetry).
    rewrite Hp, Hl, Z2Nat.id by lia. reflexivity.
  - intros i Hi. rewrite Hin by lia. now rewrite nth_firstn_lt by lia.
  - intros a Ha. rewrite Hout; [now rewrite Hfifo |].
    intros i Hi. apply Ha. lia.
Qed.

Lemma sx127X_sendLoRaData_fills_fifo_witness :
  let h := sx1278_datasheet in
  let d := quiet_chip (fun a => if a =? 0x0E then 0xFE else 0) in
  let d' := snd (sx127X_sendLoRaData h [0x48; 0x69; 0x21] 3 d) in
  fst (sx127X_sendLoRaData h [0x48; 0x69; 0x21] 3 d) = Z.min 3 255
  /\ reg d' (SX127X_REG_PAYLOAD_LENGTH h) = Z.min 3 255.
Proof.
  pose proof (sx127X_sendLoRaData_fills_fifo sx1278_datasheet
                [0x48; 0x69; 0x21] 3
                (quiet_chip (fun a => if a =? 0x0E then 0xFE else 0))) as H.
  unfold plain_reg in H. cbn [SX127X_REG_FIFO SX127X_REG_FIFO_TX_BASE_ADDR
    SX127X_REG_FIFO_ADDR_PTR SX127X_REG_PAYLOAD_LENGTH SX127X_REG_IRQ_FLAGS
    sx1278_datasheet length] in H.
  specialize (H ltac:(lia) ltac:(lia) ltac:(lia) ltac:(lia) ltac:(lia)
                ltac:(lia)).
  destruct H as (H1 & H2 & _). split; [exact H1 | exact H2].
Defined.

(** A run: three bytes with the TX base at [0xFE] wrap round the end of
    the FIFO. *)
Example sx127X_sendLoRaData_run :
  let d := quiet_chip (fun a => if a =? 0x0E then 0xFE else 0) in
  let d' := snd (sx127X_sendLoRaData sx1278_datasheet
                   [0x48; 0x69; 0x21] 3 d) in
  map (fifo d') [0xFE; 0xFF; 0x00] = [0x48; 0x69; 0x21]
  /\ reg d' 0x0D = 0x01 /\ reg d' 0x22 = 3.
Proof. vm_compute. repeat split. Qed.

(** [sx127X_readLoRaData] up to its last transfer: the burst out of the
    FIFO starts with the FIFO pointer at the address of the last packet. *)
Lemma readLoRaData_run (h : sx1278_h) (len : Z) (d : spi_device) :
  0 <= SX127X_REG_FIFO h < 128 ->
  plain_reg h (SX127X_REG_FIFO_RX_CURRENT_ADDR h) ->
  plain_reg h (SX127X_REG_FIFO_ADDR_PTR h) ->
  plain_reg h (SX127X_REG_RX_NB_BYTES h) ->
  SX127X_REG_RX_NB_BYTES h <> SX127X_REG_FIFO_ADDR_PTR h ->
  0 <= len ->
  let c := Z.min (reg d (SX127X_REG_RX_NB_BYTES h)) len in
  exists d3,
    u8 (regs d3 (SX127X_REG_FIFO_ADDR_PTR h))
    = reg d (SX127X_REG_FIFO_RX_CURRENT_ADDR h)
    /\ fifo d3 = fifo d
    /\ sx127X_readLoRaData h len d
       = ((c, fst (chip_read h (SX127X_REG_FIFO h) (Z.to_nat c) d3)),
          snd (chip_read h (SX127X_REG_FIFO h) (Z.to_nat c) d3)).
Proof.
  intros Hf Hcur Hptr Hnb Hne Hlen c.
  set (start := reg d (SX127X_REG_FIFO_RX_CURRENT_ADDR h)).
  pose proof (reg_range d (SX127X_REG_RX_NB_BYTES h)) as Hb.
  assert (Hc : 0 <= c) by (unfold c; lia).
  set (d2 := snd (sx127X_write_reg h (SX127X_REG_FIFO_ADDR_PTR h) [start]
                    (snd (log (EvRead (SX127X_REG_FIFO_RX_CURRENT_ADDR h) 1)
                            d)))).
  assert (Hd2 : regs d2 (SX127X_REG_FIFO_ADDR_PTR h) = start
                /\ reg d2 (SX127X_REG_RX_NB_BYTES h)
                   = reg d (SX127X_REG_RX_NB_BYTES h)
                /\ fifo d2 = fifo d).
  { unfold d2. rewrite (write_reg_plain h _ start _ Hptr).
    unfold reg. cbn [snd log regs fifo].
    rewrite upd_same, upd_other by exact Hne.
    split; [unfold start, reg; apply u8_idem | split; reflexivity]. }
  destruct Hd2 as (Hstart & Hnbv & Hfifo).
  exists (snd (log (EvRead (SX127X_REG_FIFO h) (Z.to_nat c))
                 (snd (log (EvRead (SX127X_REG_RX_NB_BYTES h) 1) d2)))).
  split; [| split].
  - cbn [snd log regs]. rewrite Hstart. unfold start, reg. apply u8_idem.
  - cbn [snd log fifo]. exact Hfifo.
  - unfold sx127X_readLoRaData.
    rewrite (bind_run _ _ _ _ _ (read_u8_plain h _ d Hcur)). fold start.
    rewrite (bind_run _ _ _ _ _
               (surjective_pairing (sx127X_write_reg h _ [start] _))).
    fold d2.
    rewrite (bind_run _ _ _ _ _ (read_u8_plain h _ d2 Hnb)).
    rewrite Hnbv. cbv zeta.
    replace (if reg d (SX127X_REG_RX_NB_BYTES h) <? len
             then reg d (SX127X_REG_RX_NB_BYTES h) else len) with c
      by (unfold c; destruct (Z.ltb_spec (reg d (SX127X_REG_RX_NB_BYTES h))
                                len); lia).
    rewrite (read_reg_fifo h Hf).
    now rewrite Z2Nat.id by lia.
Qed.

(** How many bytes [sx127X_readLoRaData] hands back. *)
Lemma readLoRaData_count (h : sx1278_h) (len : Z) (d : spi_device) :
  0 <= SX127X_REG_FIFO h < 128 ->
  plain_reg h (SX127X_REG_FIFO_RX_CURRENT_ADDR h) ->
  plain_reg h (SX127X_REG_FIFO_ADDR_PTR h) ->
  plain_reg h (SX127X_REG_RX_NB_BYTES h) ->
  SX127X_REG_RX_NB_BYTES h <> SX127X_REG_FIFO_ADDR_PTR h ->
  0 <= len ->
  let c := Z.min (reg d (SX127X_REG_RX_NB_BYTES h)) len in
  fst (fst (sx127X_readLoRaData h len d)) = c
  /\ Z.of_nat (length (snd (fst (sx127X_readLoRaData h len d)))) = c.
Proof.
  intros Hf Hcur Hptr Hnb Hne Hlen c.
  destruct (readLoRaData_run h len d Hf Hcur Hptr Hnb Hne Hlen)
    as (d3 & _ & _ & Hrun).
  fold c in Hrun. rewrite Hrun. cbn [fst snd].
  destruct (chip_read_fifo_content h (Z.to_nat c) d3) as (Hl & _).
  pose proof (reg_range d (SX127X_REG_RX_NB_BYTES h)) as Hb.
  split; [reflexivity |]. rewrite Hl. unfold c. lia.
Qed.

(** X20: [sx127X_readLoRaData] returns the bytes of the FIFO from the
    address of the last packet on, as many as the packet has but no more
    than [len]; the count returned is the number of bytes handed back,
    the FIFO memory is untouched and the FIFO pointer ends just past the
    bytes read. *)
Theorem sx127X_readLoRaData_packet
    (h : sx1278_h) (len : Z) (d : spi_device) :
  0 <= SX127X_REG_FIFO h < 128 ->
  plain_reg h (SX127X_REG_FIFO_RX_CURRENT_ADDR h) ->
  plain_reg h (SX127X_REG_FIFO_ADDR_PTR h) ->
  plain_reg h (SX127X_REG_RX_NB_BYTES h) ->
  SX127X_REG_RX_NB_BYTES h <> SX127X_REG_FIFO_ADDR_PTR h ->
  0 <= len ->
  let c := Z.min (reg d (SX127X_REG_RX_NB_BYTES h)) len in
  let start := reg d (SX127X_REG_FIFO_RX_CURRENT_ADDR h) in
  let res := sx127X_readLoRaData h len d in
  fst (fst res) = c
  /\ Z.of_nat (length (snd (fst res))) = c
  /\ (forall i, Z.of_nat i < c ->
        nth i (snd (fst res)) 0 = u8 (fifo d (u8 (start + Z.of_nat i))))
  /\ fifo (snd res) = fifo d
  /\ reg (snd res) (SX127X_REG_FIFO_ADDR_PTR h) = u8 (start + c).
Proof.
  intros Hf Hcur Hptr Hnb Hne Hlen c start res.
  pose proof (reg_range d (SX127X_REG_RX_NB_BYTES h)) as Hb.
  assert (Hc : 0 <= c) by (unfold c; lia).
  destruct (readLoRaData_run h len d Hf Hcur Hptr Hnb Hne Hlen)
    as (d3 & Hp3 & Hfifo & Hrun).
  fold c in Hrun. fold start in Hp3.
  destruct (chip_read_fifo_content h (Z.to_nat c) d3)
    as (Hl & Hin & Hff & Hp & _ & _).
  rewrite Hp3 in Hin, Hp.
  unfold res. rewrite Hrun. cbn [fst snd].
  split; [reflexivity |].
  split; [rewrite Hl; lia |].
  split; [| split].
  - intros i Hi. rewrite Hin by lia. now rewrite Hfifo.
  - now rewrite Hff.
  - unfold reg. rewrite Hp, Z2Nat.id by lia. reflexivity.
Qed.

Lemma sx127X_readLoRaData_packet_witness :
  let h := sx1278_datasheet in
  let d := {| regs := fun a => if a =? 0x13 then 3 else 0x10;
              fifo := fun a => a + 1; irq_raise := []; trace := [] |} in
  fst (fst (sx127X_readLoRaData h 8 d))
  = Z.min (reg d (SX127X_REG_RX_NB_BYTES h)) 8.
Proof.
  pose proof (sx127X_readLoRaData_packet sx1278_datasheet 8
                {| regs := fun a => if a =? 0x13 then 3 else 0x10;
                   fifo := fun a => a + 1; irq_raise := [];
                   trace := [] |}) as H.
  unfold plain_reg in H. cbn [SX127X_REG_FIFO SX127X_REG_FIFO_RX_CURRENT_ADDR
    SX127X_REG_FIFO_ADDR_PTR SX127X_REG_RX_NB_BYTES SX127X_REG_IRQ_FLAGS
    sx1278_datasheet] in H.
  specialize (H ltac:(lia) ltac:(lia) ltac:(lia) ltac:(lia) ltac:(lia)
                ltac:(lia)).
  exact (proj1 H).
Defined.

(** A run: a packet of three bytes at [0x10], a buffer of eight. *)
Example sx127X_readLoRaData_run :
  let d := {| regs := fun a => if a =? 0x13 then 3 else 0x10;
              fifo := fun a => a + 1; irq_raise := []; trace := [] |} in
  fst (sx127X_readLoRaData sx1278_datasheet 8 d) = (3, [0x11; 0x12; 0x13]).
Proof. vm_compute. reflexivity. Qed.

(** ** The power request *)

Lemma pa_boost_bit (c : Z) :
  LORA_MIN_POWER <= c <= LORA_MAX_POWER ->
  Z.testbit (pa_config c) 7 = (15 <? c).
Proof.
  unfold LORA_MIN_POWER, LORA_MAX_POWER. intros Hc.
  apply (forall_between
           (fun x => Z.testbit (pa_config x) 7 = (15 <? x)) (-2) 20);
    [| lia].
  intros k Hk.
  do 20 (destruct k as [| k]; [reflexivity |]). lia.
Qed.

(** X21: a power request through [loraspi_setpower] returns 0 and writes
    PA_CONFIG only; [loraspi_getpower] then hands back the request
    confined to -2..17 dBm, and the PA_BOOST output (bit 7 of PA_CONFIG)
    is selected exactly when the confined request is above 15 dBm. *)
Theorem loraspi_power_request (h : sx1278_h) (dbm : Z) (d : spi_device) :
  plain_reg h (SX127X_REG_PA_CONFIG h) ->
  let c := Z.max LORA_MIN_POWER (Z.min LORA_MAX_POWER dbm) in
  let d' := snd (loraspi_setpower h dbm d) in
  fst (loraspi_setpower h dbm d) = 0
  /\ fst (loraspi_getpower h d') = c
  /\ Z.testbit (reg d' (SX127X_REG_PA_CONFIG h)) 7 = (15 <? c)
  /\ (forall x, x <> SX127X_REG_PA_CONFIG h -> reg d' x = reg d x)
  /\ writes (trace d')
     = (SX127X_REG_PA_CONFIG h, [pa_config c]) :: writes (trace d).
Proof.
  intros Hp c d'.
  assert (Hc : (if dbm >? LORA_MAX_POWER then LORA_MAX_POWER
                else if dbm <? LORA_MIN_POWER then LORA_MIN_POWER else dbm)
               = c).
  { unfold c, LORA_MIN_POWER, LORA_MAX_POWER.
    destruct (Z.gtb_spec dbm 17); [lia |].
    destruct (Z.ltb_spec dbm (-2)); lia. }
  assert (Hr : LORA_MIN_POWER <= c <= LORA_MAX_POWER).
  { unfold c, LORA_MIN_POWER, LORA_MAX_POWER. lia. }
  assert (Hrun : loraspi_setpower h dbm d
                 = (0, snd (sx127X_setLoRaPower h c d))).
  { unfold loraspi_setpower. cbv zeta. rewrite Hc. unfold bind, ret.
    now destruct (sx127X_setLoRaPower h c d). }
  assert (Hd' : d' = snd (sx127X_write_reg h (SX127X_REG_PA_CONFIG h)
                            [pa_config c] d)).
  { unfold d'. rewrite Hrun. cbn [snd]. unfold sx127X_setLoRaPower, bind, ret.
    now destruct (sx127X_write_reg h _ _ d). }
  split; [now rewrite Hrun |].
  split.
  - unfold d', loraspi_getpower. rewrite Hrun. cbn [snd].
    rewrite (setLoRaPower_then_get h c d Hp). now apply pa_codec.
  - rewrite Hd', (write_reg_plain h _ (pa_config c) d Hp).
    unfold reg. cbn [snd regs trace writes].
    split; [| split].
    + rewrite upd_same, u8_idem, pa_config_byte. now apply pa_boost_bit.
    + intros x Hx. now rewrite upd_other.
    + reflexivity.
Qed.

Lemma loraspi_power_request_witness :
  let h := sx1278_datasheet in
  let d := quiet_chip (fun _ => 0) in
  plain_reg h (SX127X_REG_PA_CONFIG h)
  /\ fst (loraspi_getpower h (snd (loraspi_setpower h 30 d)))
     = Z.max LORA_MIN_POWER (Z.min LORA_MAX_POWER 30).
Proof.
  assert (Hp : plain_reg sx1278_datasheet
                 (SX127X_REG_PA_CONFIG sx1278_datasheet)).
  { unfold plain_reg. simpl. lia. }
  split; [exact Hp |].
  exact (proj1 (proj2 (loraspi_power_request sx1278_datasheet 30
                         (quiet_chip (fun _ => 0)) Hp))).
Defined.

(** ** What [loraspi_read] hands back *)

(** X24: whatever the radio does, [loraspi_read] returns [-ENODATA],
    [-EBADMSG] or a count between 0 and the smaller of [size] and the
    driver's buffer length, and never more than 255.  With a count the
    caller gets exactly that many bytes, the head of the RX buffer, which
    keeps its length; with an error the caller gets nothing and the RX
    buffer is not touched. *)
Theorem loraspi_read_bounded
    (h : sx1278_h) (lrdata : lora_struct) (size : Z) (d : spi_device) :
  0 <= SX127X_REG_FIFO h < 128 ->
  plain_reg h (SX127X_REG_FIFO_RX_CURRENT_ADDR h) ->
  plain_reg h (SX127X_REG_FIFO_ADDR_PTR h) ->
  plain_reg h (SX127X_REG_RX_NB_BYTES h) ->
  SX127X_REG_RX_NB_BYTES h <> SX127X_REG_FIFO_ADDR_PTR h ->
  0 <= size -> 0 <= bufmaxlen lrdata ->
  let c := fst (fst (fst (loraspi_read h lrdata size d))) in
  let lr := snd (fst (fst (loraspi_read h lrdata size d))) in
  let user := snd (fst (loraspi_read h lrdata size d)) in
  (c = - ENODATA \/ c = - EBADMSG
   \/ 0 <= c <= Z.min 255 (Z.min size (bufmaxlen lrdata)))
  /\ (0 <= c ->
      Z.of_nat (length user) = c
      /\ user = firstn (Z.to_nat c) (rx_buf lr)
      /\ Z.of_nat (length (rx_buf lr)) = bufmaxlen lrdata)
  /\ (c < 0 -> user = [] /\ lr = lrdata).
Proof.
  intros Hf Hcur Hptr Hnb Hne Hsize Hmax c lr user.
  unfold c, lr, user. clear c lr user.
  remember (loraspi_read h lrdata size d) as res eqn:Hres.
  unfold loraspi_read in Hres.
  unfold bind at 1 in Hres. destruct (rx_prepare h d) as [u d1].
  unfold bind at 1 in Hres. destruct (rx_wait h 250 0 d1) as [flag d2].
  unfold bind at 1 in Hres.
  destruct (sx127X_getLoRaFlag h (SX127X_FLAG_PAYLOADCRCERROR h) d2)
    as [crc d3].
  cbv zeta in Hres.
  set (c0 := if negb (crc =? 0) then - EBADMSG
             else if (flag =? 0)
                     || negb (Z.land flag (SX127X_FLAG_RXTIMEOUT h) =? 0)
                  then - ENODATA else 0) in Hres.
  assert (Hc0 : c0 = - ENODATA \/ c0 = - EBADMSG \/ c0 = 0).
  { unfold c0. destruct (negb (crc =? 0)); [tauto |].
    destruct ((flag =? 0) || _); tauto. }
  set (sz := if bufmaxlen lrdata <? size then bufmaxlen lrdata else size)
    in Hres.
  assert (Hsz : sz = Z.min size (bufmaxlen lrdata)).
  { unfold sz. destruct (Z.ltb_spec (bufmaxlen lrdata) size); lia. }
  unfold bind at 1 in Hres.
  destruct (c0 =? 0) eqn:E0.
  - destruct (readLoRaData_count h sz d3 Hf Hcur Hptr Hnb Hne ltac:(lia))
      as (Hc & Hl).
    pose proof (reg_range d3 (SX127X_REG_RX_NB_BYTES h)) as Hb.
    unfold bind at 1 in Hres.
    destruct (sx127X_readLoRaData h sz d3) as [[c bytes] d4].
    cbn [fst snd] in Hc, Hl. unfold ret at 1 in Hres.
    unfold bind, ret in Hres.
    destruct (sx127X_clearLoRaAllFlag h d4) as [u' d5].
    cbn [fst snd] in Hres. subst res. cbn [fst snd rx_buf].
    assert (Hlen : length (bytes ++ skipn (length bytes)
                             (repeat 0 (Z.to_nat (bufmaxlen lrdata))))
                   = Z.to_nat (bufmaxlen lrdata)).
    { rewrite length_app, length_skipn, repeat_length. lia. }
    split; [right; right; lia |].
    split.
    + intros Hc'. destruct (Z.gtb_spec c 0) as [Hpos | Hz].
      * split; [| split; [reflexivity | lia]].
        rewrite length_firstn, Hlen. lia.
      * assert (c = 0) as -> by lia.
        split; [reflexivity | split; [reflexivity | lia]].
    + intros Hneg. lia.
  - apply Z.eqb_neq in E0. unfold ret at 1 in Hres. unfold bind, ret in Hres.
    destruct (sx127X_clearLoRaAllFlag h d3) as [u' d5].
    subst res. cbn [fst snd].
    assert (Hneg : c0 = - ENODATA \/ c0 = - EBADMSG) by tauto.
    unfold ENODATA, EBADMSG in *.
    split; [tauto |].
    split; [intros Hc'; lia | intros _; split; reflexivity].
Qed.

Lemma loraspi_read_bounded_witness :
  let h := sx1278_datasheet in
  let lrdata := {| rx_buf := repeat 7 16; tx_buf := repeat 0 16;
                   tx_buflen := 0; bufmaxlen := 16 |} in
  let d := {| regs := fun a => if a =? 0x13 then 3 else
                               if a =? 0x12 then 0x40 else 0x05;
              fifo := fun a => a + 1; irq_raise := []; trace := [] |} in
  let c := fst (fst (fst (loraspi_read h lrdata 8 d))) in
  c = - ENODATA \/ c = - EBADMSG
  \/ 0 <= c <= Z.min 255 (Z.min 8 (bufmaxlen lrdata)).
Proof.
  pose proof (loraspi_read_bounded sx1278_datasheet
                {| rx_buf := repeat 7 16; tx_buf := repeat 0 16;
                   tx_buflen := 0; bufmaxlen := 16 |} 8
                {| regs := fun a => if a =? 0x13 then 3 else
                                    if a =? 0x12 then 0x40 else 0x05;
                   fifo := fun a => a + 1; irq_raise := [];
                   trace := [] |}) as H.
  unfold plain_reg in H. cbn [SX127X_REG_FIFO SX127X_REG_FIFO_RX_CURRENT_ADDR
    SX127X_REG_FIFO_ADDR_PTR SX127X_REG_RX_NB_BYTES SX127X_REG_IRQ_FLAGS
    sx1278_datasheet bufmaxlen] in H.
  specialize (H ltac:(lia) ltac:(lia) ltac:(lia) ltac:(lia) ltac:(lia)
                ltac:(lia) ltac:(lia)).
  exact (proj1 H).
Defined.

(** A run: RXDONE is set and a packet of three bytes lies at [0x05]; a
    caller asking for eight bytes gets the three. *)
Example loraspi_read_three_bytes :
  let lrdata := {| rx_buf := repeat 7 16; tx_buf := repeat 0 16;
                   tx_buflen := 0; bufmaxlen := 16 |} in
  let d := {| regs := fun a => if a =? 0x13 then 3 else
                               if a =? 0x12 then 0x40 else 0x05;
              fifo := fun a => a + 1; irq_raise := []; trace := [] |} in
  let res := fst (loraspi_read sx1278_datasheet lrdata 8 d) in
  fst (fst res) = 3 /\ snd res = [6; 7; 8]
  /\ rx_buf (snd (fst res)) = [6; 7; 8] ++ repeat 0 13.
Proof. vm_compute. repeat split. Qed.

(** ** The head of [loraspi_read] *)

(** X23: the preparation at the head of [loraspi_read].  A chip already
    in RXContinuous is left alone: nothing is written and no register
    changes, so flags raised before the call are still there for the
    polling loop.  Any other mode is taken through Standby to
    RXContinuous, with the RX base address set to 0 and the flags cleared
    on the way.  Either way the chip is in RXContinuous afterwards and
    the upper five bits of the op-mode register are kept. *)
Theorem loraspi_read_prepare (h : sx1278_h) (d : spi_device) :
  irq_ok h ->
  plain_reg h (SX127X_REG_OP_MODE h) ->
  plain_reg h (SX127X_REG_FIFO_RX_BASE_ADDR h) ->
  SX127X_REG_FIFO_RX_BASE_ADDR h <> SX127X_REG_OP_MODE h ->
  0 <= SX127X_RXCONTINUOUS_MODE h < 8 ->
  let op := SX127X_REG_OP_MODE h in
  let irq := SX127X_REG_IRQ_FLAGS h in
  let rxb := SX127X_REG_FIFO_RX_BASE_ADDR h in
  let d1 := snd (rx_prepare h d) in
  Z.land (reg d1 op) 0x07 = SX127X_RXCONTINUOUS_MODE h
  /\ Z.land (reg d1 op) 0xF8 = Z.land (reg d op) 0xF8
  /\ (Z.land (reg d op) 0x07 = SX127X_RXCONTINUOUS_MODE h ->
      writes (trace d1) = writes (trace d)
      /\ irq_raise d1 = irq_raise d
      /\ forall a, regs d1 a = regs d a)
  /\ (Z.land (reg d op) 0x07 <> SX127X_RXCONTINUOUS_MODE h ->
      reg d1 rxb = 0 /\ reg d1 irq = 0
      /\ exists v1 v2 v3,
           writes (trace d1)
           = (op, [v3]) :: (irq, [v2]) :: (rxb, [0]) :: (op, [v1])
               :: writes (trace d)
           /\ Z.land v1 0x07 = Z.land (SX127X_STANDBY_MODE h) 0x07
           /\ Z.land v3 0x07 = SX127X_RXCONTINUOUS_MODE h).
Proof.
  intros Hi Hop Hrxb Hne Hrc op irq rxb d1. subst op irq rxb.
  assert (Hoi : SX127X_REG_OP_MODE h <> SX127X_REG_IRQ_FLAGS h) by apply Hop.
  assert (Hri : SX127X_REG_FIFO_RX_BASE_ADDR h <> SX127X_REG_IRQ_FLAGS h)
    by apply Hrxb.
  assert (Hm : forall x, Z.land (Z.lor (Z.land x 0xF8)
                                       (Z.land (SX127X_RXCONTINUOUS_MODE h)
                                               0x07)) 0x07
                         = SX127X_RXCONTINUOUS_MODE h).
  { intros x. mask_norm. change 7 with (Z.ones 3).
    rewrite Z.land_ones by lia. apply Z.mod_small.
    change (2 ^ 3) with 8. lia. }
  set (d0 := snd (log (EvRead (SX127X_REG_OP_MODE h) 1) d)).
  assert (Hrun : rx_prepare h d
                 = (if negb (Z.land (reg d (SX127X_REG_OP_MODE h)) 0x07
                             =? SX127X_RXCONTINUOUS_MODE h)
                    then
                      (sx127X_setState h (SX127X_STANDBY_MODE h) ;;
                       sx127X_write_reg h (SX127X_REG_FIFO_RX_BASE_ADDR h)
                         [0x00] ;;
                       sx127X_clearLoRaAllFlag h ;;
                       sx127X_setState h (SX127X_RXCONTINUOUS_MODE h))%drv
                    else ret tt) d0).
  { unfold rx_prepare.
    now rewrite (bind_run _ _ _ _ _ (getState_run h d Hop)). }
  unfold d1. rewrite Hrun. clear Hrun d1.
  destruct (Z.eqb_spec (Z.land (reg d (SX127X_REG_OP_MODE h)) 0x07)
              (SX127X_RXCONTINUOUS_MODE h)) as [Eq | Ne]; cbn [negb].
  - unfold ret. cbn [snd].
    change (reg d0) with (reg d).
    split; [exact Eq | split; [reflexivity | split]].
    + intros _. repeat split.
    + intros Hn. contradiction.
  - unfold sx127X_clearLoRaAllFlag.
    (* Standby *)
    bind_step u2 d2 E2.
    destruct (setState_effect h (SX127X_STANDBY_MODE h) d0 Hop)
      as (S2 & F2 & W2).
    rewrite E2 in S2, F2, W2. cbn [snd] in S2, F2, W2.
    (* RX base *)
    bind_step u3 d3 E3.
    destruct (write_effect h (SX127X_REG_FIFO_RX_BASE_ADDR h) 0 d2 Hrxb)
      as (S3 & F3 & W3).
    rewrite E3 in S3, F3, W3. cbn [snd] in S3, F3, W3.
    (* flags *)
    bind_step u4 d4 E4.
    destruct (clearLoRaFlag_effect h 0xFF d3 Hi) as (S4 & _ & _ & F4).
    destruct (clearLoRaFlag_writes h 0xFF d3 Hi) as (w4 & W4).
    rewrite E4 in S4, F4, W4. cbn [snd] in S4, F4, W4.
    (* RXContinuous *)
    destruct (setState_effect h (SX127X_RXCONTINUOUS_MODE h) d4 Hop)
      as (S5 & F5 & W5).
    set (d5 := snd (sx127X_setState h (SX127X_RXCONTINUOUS_MODE h) d4)) in *.
    assert (O2 : reg d2 (SX127X_REG_OP_MODE h)
                 = Z.lor (Z.land (reg d (SX127X_REG_OP_MODE h)) 0xF8)
                         (Z.land (SX127X_STANDBY_MODE h) 0x07)).
    { unfold reg at 1. rewrite S2. change (reg d0) with (reg d).
      mask_norm. reflexivity. }
    assert (O4 : reg d4 (SX127X_REG_OP_MODE h)
                 = reg d2 (SX127X_REG_OP_MODE h)).
    { unfold reg. now rewrite F4, F3 by auto. }
    assert (O5 : reg d5 (SX127X_REG_OP_MODE h)
                 = Z.lor (Z.land (reg d4 (SX127X_REG_OP_MODE h)) 0xF8)
                         (Z.land (SX127X_RXCONTINUOUS_MODE h) 0x07)).
    { unfold reg at 1. rewrite S5. mask_norm. reflexivity. }
    split; [| split; [| split]].
    + rewrite O5. apply Hm.
    + rewrite O5, O4, O2. mask_norm. reflexivity.
    + intros Hn. contradiction.
    + intros _. split; [| split].
      * unfold reg. rewrite F5, F4, S3 by auto. reflexivity.
      * unfold reg. rewrite F5, S4 by auto. reflexivity.
      * rewrite W5, W4, W3, W2. change (writes (trace d0))
          with (writes (trace d)).
        eexists. exists w4. eexists.
        split; [reflexivity | split].
        -- change (reg d0) with (reg d). mask_norm. reflexivity.
        -- apply Hm.
Qed.

Lemma loraspi_read_prepare_witness :
  let h := sx1278_datasheet in
  let d := quiet_chip (fun _ => 0x89) in
  Z.land (reg (snd (rx_prepare h d)) (SX127X_REG_OP_MODE h)) 0x07
  = SX127X_RXCONTINUOUS_MODE h.
Proof.
  refine (proj1 (loraspi_read_prepare sx1278_datasheet
                   (quiet_chip (fun _ => 0x89)) _ _ _ _ _));
    try (unfold irq_ok, plain_reg; simpl; lia);
    simpl; lia.
Defined.

(** ** The payload of [loraspi_write] *)

Section TxData.

Variable h : sx1278_h.
Variable X : list Z.
Hypothesis Hi : irq_ok h.
Hypothesis Hop : plain_reg h (SX127X_REG_OP_MODE h).
Hypothesis Hmsb : plain_reg h (SX127X_REG_PREAMBLE_MSB h).
Hypothesis Hlsb : plain_reg h (SX127X_REG_PREAMBLE_MSB h + 1).
Hypothesis HXop : ~ In (SX127X_REG_OP_MODE h) X.
Hypothesis HXirq : ~ In (SX127X_REG_IRQ_FLAGS h) X.

Lemma fifo_kept_ret {A : Type} (a : A) : fifo_kept X (ret a).
Proof using. intros d. simpl. auto. Qed.

Lemma fifo_kept_bind {A B : Type} (m : M A) (k : A -> M B) :
  fifo_kept X m -> (forall a, fifo_kept X (k a)) -> fifo_kept X (bind m k).
Proof using.
  intros Hm Hk d. unfold bind.
  destruct (Hm d) as (Hf & Hr).
  destruct (m d) as [a d1]. cbn [snd] in *.
  destruct (Hk a d1) as (Hf' & Hr').
  split; [congruence |].
  intros x Hx. rewrite Hr', Hr; auto.
Qed.

Lemma fifo_kept_setState (st : Z) : fifo_kept X (sx127X_setState h st).
Proof using Hop HXop.
  intros d. rewrite (setState_run h st d Hop). cbn [snd fifo regs].
  split; [reflexivity |].
  intros x Hx. apply upd_other. intros ->. contradiction.
Qed.

Lemma fifo_kept_getLoRaFlag (f : Z) : fifo_kept X (sx127X_getLoRaFlag h f).
Proof using Hi HXirq.
  intros d. rewrite (getLoRaFlag_run h f d Hi). cbn [snd fifo regs].
  split; [reflexivity |].
  intros x Hx. apply upd_other. intros ->. contradiction.
Qed.

Lemma fifo_kept_clearLoRaFlag (f : Z) :
  fifo_kept X (sx127X_clearLoRaFlag h f).
Proof using Hi HXirq.
  intros d. rewrite (clearLoRaFlag_run h f d Hi). cbn [snd fifo regs].
  split; [reflexivity |].
  intros x Hx. rewrite !upd_other; [reflexivity | |];
    intros ->; contradiction.
Qed.

Lemma fifo_kept_getLoRaPreambleLen :
  fifo_kept X (sx127X_getLoRaPreambleLen h).
Proof using Hmsb Hlsb.
  intros d. rewrite (getLoRaPreambleLen_run h d Hmsb Hlsb). simpl. auto.
Qed.

Lemma fifo_kept_msleep (ms : Z) : fifo_kept X (msleep ms).
Proof using. intros d. simpl. auto. Qed.

Lemma fifo_kept_tx_wait (n : nat) :
  forall c, fifo_kept X (tx_wait h n c).
Proof using Hi HXirq.
  induction n as [| n IH]; intros c; [apply fifo_kept_ret |].
  cbn [tx_wait]. apply fifo_kept_bind; [apply fifo_kept_getLoRaFlag |].
  intros flag. cbv zeta.
  destruct (negb (u8 flag =? 0)); [apply fifo_kept_ret |].
  destruct (Z.of_nat (S n) =? 1); [apply IH |].
  apply fifo_kept_bind; [apply fifo_kept_msleep | intros _; apply IH].
Qed.

(** [loraspi_write] from the clearing of the TX-done flag on. *)
Lemma fifo_kept_tx_tail (c : Z) (lr : lora_struct) :
  fifo_kept X
    (sx127X_clearLoRaFlag h (SX127X_FLAG_TXDONE h) ;;
     c <- (if c >? 0 then
             sx127X_setState h (SX127X_TX_MODE h) ;;
             p <- sx127X_getLoRaPreambleLen h ;;
             let timeout := u32 ((c + p + 1) + 2) in
             tx_wait h (Z.to_nat timeout) c
           else ret c) ;;
     sx127X_setState h (SX127X_STANDBY_MODE h) ;;
     sx127X_setState h (SX127X_RXCONTINUOUS_MODE h) ;;
     ret (Some (c, lr)))%drv.
Proof using Hi Hop Hmsb Hlsb HXop HXirq.
  apply fifo_kept_bind; [apply fifo_kept_clearLoRaFlag | intros _].
  apply fifo_kept_bind.
  - destruct (c >? 0); [| apply fifo_kept_ret].
    apply fifo_kept_bind; [apply fifo_kept_setState | intros _].
    apply fifo_kept_bind; [apply fifo_kept_getLoRaPreambleLen | intros p].
    apply fifo_kept_tx_wait.
  - intros c'.
    apply fifo_kept_bind; [apply fifo_kept_setState | intros _].
    apply fifo_kept_bind; [apply fifo_kept_setState | intros _].
    apply fifo_kept_ret.
Qed.

Lemma tx_tail_session (c : Z) (lr : lora_struct) (d : spi_device) :
  exists sent,
  fst
    ((sx127X_clearLoRaFlag h (SX127X_FLAG_TXDONE h) ;;
      c <- (if c >? 0 then
              sx127X_setState h (SX127X_TX_MODE h) ;;
              p <- sx127X_getLoRaPreambleLen h ;;
              let timeout := u32 ((c + p + 1) + 2) in
              tx_wait h (Z.to_nat timeout) c
            else ret c) ;;
      sx127X_setState h (SX127X_STANDBY_MODE h) ;;
      sx127X_setState h (SX127X_RXCONTINUOUS_MODE h) ;;
      ret (Some (c, lr)))%drv d) = Some (sent, lr).
Proof using.
  bind_step u1 d1 E1. bind_step c' d2 E2.
  bind_step u3 d3 E3. bind_step u4 d4 E4.
  exists c'. reflexivity.
Qed.

End TxData.

(** X25: the payload of [loraspi_write].  For data that fits the driver's
    buffer ([size <= bufmaxlen]; the function does not check this, and a
    longer copy overruns [tx_buf]) of which something was copied from
    the caller, the function returns a count and leaves the TX base
    address at [0x80], the first [min (size - status) 255] bytes of the
    caller's data in the FIFO from [0x80] on, and that count in the
    payload-length register, whether or not the transmission is seen to
    finish; the session's [tx_buflen] is back to 0. *)
Theorem loraspi_write_payload
    (h : sx1278_h) (lrdata : lora_struct) (buf : list Z) (size status : Z)
    (d : spi_device) :
  tx_header_ok h ->
  NoDup [SX127X_REG_OP_MODE h; SX127X_REG_FIFO_TX_BASE_ADDR h;
         SX127X_REG_FIFO_ADDR_PTR h; SX127X_REG_PAYLOAD_LENGTH h] ->
  0 <= status < size -> size <= Z.of_nat (length buf) ->
  size <= bufmaxlen lrdata ->
  let c := Z.min (size - status) 255 in
  let res := loraspi_write h lrdata buf size status d in
  reg (snd res) (SX127X_REG_FIFO_TX_BASE_ADDR h) = 0x80
  /\ reg (snd res) (SX127X_REG_PAYLOAD_LENGTH h) = c
  /\ (forall i, Z.of_nat i < c ->
        fifo (snd res) (u8 (0x80 + Z.of_nat i)) = u8 (nth i buf 0))
  /\ exists sent lr, fst res = Some (sent, lr) /\ tx_buflen lr = 0.
Proof.
  intros Hok Hnd Hst Hlen Hcap c res.
  destruct (tx_header_facts h Hok)
    as (Hi & Hf & Hop & Htxb & Hptr & Hpl & Hmsb & Hlsb & Hout).
  destruct (nodup4 _ _ _ _ Hnd) as (N1 & N2 & N3 & N4 & N5 & N6).
  set (X := [SX127X_REG_FIFO_TX_BASE_ADDR h; SX127X_REG_PAYLOAD_LENGTH h]).
  assert (HXop : ~ In (SX127X_REG_OP_MODE h) X).
  { unfold X. simpl. intros [E | [E | []]]; congruence. }
  assert (HXirq : ~ In (SX127X_REG_IRQ_FLAGS h) X).
  { unfold X. simpl.
    intros [E | [E | []]];
      [apply (proj2 (proj2 Htxb)) | apply (proj2 (proj2 Hpl))];
      congruence. }
  set (copied := firstn (Z.to_nat (size - status)) buf).
  set (tx := copied ++ skipn (length copied)
                             (repeat 0 (Z.to_nat (bufmaxlen lrdata)))).
  assert (Hcl : length copied = Z.to_nat (size - status)).
  { unfold copied. rewrite length_firstn. lia. }
  assert (Htx : size - status <= Z.of_nat (length tx)).
  { unfold tx. rewrite length_app, Hcl. lia. }
  remember res as res' eqn:Hres. unfold res, loraspi_write in Hres.
  destruct (Z.ltb_spec (bufmaxlen lrdata) size) as [Hbig | _]; [lia |].
  destruct (Z.geb_spec status size) as [Hge | _]; [lia |].
  fold copied in Hres. fold tx in Hres. cbv zeta in Hres.
  (* Standby *)
  unfold bind at 1 in Hres.
  destruct (setState_effect h (SX127X_STANDBY_MODE h) d Hop)
    as (_ & _ & _).
  destruct (sx127X_setState h (SX127X_STANDBY_MODE h) d) as [u1 d1].
  (* TX base *)
  unfold bind at 1 in Hres.
  destruct (write_effect h (SX127X_REG_FIFO_TX_BASE_ADDR h) 0x80 d1 Htxb)
    as (S2 & _ & _).
  destruct (sx127X_write_reg h (SX127X_REG_FIFO_TX_BASE_ADDR h) [0x80] d1)
    as [w2 d2].
  cbn [snd] in S2.
  (* the FIFO *)
  unfold bind at 1 in Hres.
  destruct (sendLoRaData_payload h tx (size - status) d2 Hf Htxb Hptr Hpl
              ltac:(lia))
    as (Hc & Hplv & Hin).
  destruct (stable_sendLoRaData h [SX127X_REG_FIFO_TX_BASE_ADDR h] tx
              (size - status) Hf Htxb Hptr Hpl
              ltac:(simpl; intros [E | []]; congruence)
              ltac:(simpl; intros [E | []]; congruence) d2)
    as (_ & _ & Hr3).
  destruct (sx127X_sendLoRaData h tx (size - status) d2) as [c3 d3].
  cbn [fst snd] in Hc, Hplv, Hin, Hr3. fold c in Hc, Hplv, Hin.
  assert (Hbase : reg d2 (SX127X_REG_FIFO_TX_BASE_ADDR h) = 0x80).
  { unfold reg. rewrite S2. reflexivity. }
  rewrite Hbase in Hin.
  (* the rest *)
  set (lr := {| rx_buf := rx_buf lrdata; tx_buf := tx; tx_buflen := 0;
                bufmaxlen := bufmaxlen lrdata |}) in Hres.
  destruct (fifo_kept_tx_tail h X Hi Hop Hmsb Hlsb HXop HXirq c3 lr d3)
    as (Hff & Hrr).
  destruct (tx_tail_session h c3 lr d3) as (sent & Hlr).
  set (tail := bind (sx127X_clearLoRaFlag h (SX127X_FLAG_TXDONE h)) _)
    in Hff, Hrr, Hlr.
  assert (Hres' : res' = tail d3) by exact Hres.
  rewrite <- Hres' in Hff, Hrr, Hlr.
  split; [| split; [| split]].
  - unfold reg. rewrite Hrr by (unfold X; simpl; tauto).
    rewrite Hr3 by (simpl; tauto). now rewrite S2.
  - unfold reg. rewrite Hrr by (unfold X; simpl; tauto). exact Hplv.
  - intros i Hi'. rewrite Hff, Hin by exact Hi'.
    unfold tx. rewrite app_nth1 by lia.
    unfold copied. now rewrite nth_firstn_lt by lia.
  - exists sent, lr. split; [exact Hlr | reflexivity].
Qed.

Lemma loraspi_write_payload_witness :
  let h := sx1278_datasheet in
  let lrdata := {| rx_buf := []; tx_buf := []; tx_buflen := 0;
                   bufmaxlen := 16 |} in
  let d := quiet_chip (fun a => if a =? 0x21 then 8 else 0) in
  let res := loraspi_write h lrdata [0x48; 0x69; 0x21] 3 0 d in
  reg (snd res) (SX127X_REG_FIFO_TX_BASE_ADDR h) = 0x80
  /\ reg (snd res) (SX127X_REG_PAYLOAD_LENGTH h) = Z.min (3 - 0) 255.
Proof.
  assert (Hok : tx_header_ok sx1278_datasheet).
  { unfold tx_header_ok, irq_ok, plain_reg. simpl.
    repeat (split; try lia); repeat constructor; simpl; lia. }
  assert (Hnd : NoDup [0x01; 0x0E; 0x0D; 0x22]).
  { repeat constructor; simpl; intuition discriminate. }
  pose proof (loraspi_write_payload sx1278_datasheet
                {| rx_buf := []; tx_buf := []; tx_buflen := 0;
                   bufmaxlen := 16 |} [0x48; 0x69; 0x21] 3 0
                (quiet_chip (fun a => if a =? 0x21 then 8 else 0))
                Hok Hnd ltac:(lia) ltac:(simpl; lia) ltac:(simpl; lia)) as H.
  destruct H as (H1 & H2 & _). split; [exact H1 | exact H2].
Defined.

(** A run: three bytes, the radio never reporting TX-done; 0 is returned
    and the payload is in the FIFO all the same. *)
Example loraspi_write_payload_run :
  let lrdata := {| rx_buf := []; tx_buf := []; tx_buflen := 0;
                   bufmaxlen := 16 |} in
  let d := quiet_chip (fun a => if a =? 0x21 then 8 else 0) in
  let res := loraspi_write sx1278_datasheet lrdata [0x48; 0x69; 0x21] 3 0 d in
  option_map fst (fst res) = Some 0
  /\ map (fifo (snd res)) [0x80; 0x81; 0x82] = [0x48; 0x69; 0x21]
  /\ reg (snd res) 0x22 = 3.
Proof. vm_compute. repeat split. Qed.

(** ** Polling before a read *)

Section Sleepless.

Variable h : sx1278_h.

Lemma read_reg_slept (a : Z) (n : nat) (d : spi_device) :
  slept (trace (snd (sx127X_read_reg h a n d))) = slept (trace d).
Proof. now rewrite read_reg_trace. Qed.

Lemma write_reg_slept (a : Z) (buf : list Z) (d : spi_device) :
  slept (trace (snd (sx127X_write_reg h a buf d))) = slept (trace d).
Proof. now rewrite write_reg_trace. Qed.

Lemma read_u8_slept (a : Z) (d : spi_device) :
  slept (trace (snd (read_u8 h a d))) = slept (trace d).
Proof.
  unfold read_u8, bind. pose proof (read_reg_slept a 1 d) as H.
  now destruct (sx127X_read_reg h a 1 d).
Qed.

Lemma getLoRaFlag_slept (f : Z) (d : spi_device) :
  slept (trace (snd (sx127X_getLoRaFlag h f d))) = slept (trace d).
Proof. now rewrite getLoRaFlag_trace. Qed.

Lemma clearLoRaFlag_slept (f : Z) (d : spi_device) :
  slept (trace (snd (sx127X_clearLoRaFlag h f d))) = slept (trace d).
Proof.
  unfold sx127X_clearLoRaFlag, sx127X_getLoRaAllFlag.
  bind_step fl d1 E1. bind_step w d2 E2. unfold ret. cbn [snd].
  pose proof (write_reg_slept (SX127X_REG_IRQ_FLAGS h)
                [u8 (Z.lor fl (u8 f))] d1) as H2.
  rewrite E2 in H2. cbn [snd] in H2. rewrite H2.
  pose proof (read_u8_slept (SX127X_REG_IRQ_FLAGS h) d) as H1.
  rewrite E1 in H1. exact H1.
Qed.

Lemma readLoRaData_slept (len : Z) (d : spi_device) :
  slept (trace (snd (sx127X_readLoRaData h len d))) = slept (trace d).
Proof.
  unfold sx127X_readLoRaData.
  bind_step a d1 E1. bind_step w d2 E2. bind_step b d3 E3.
  rewrite read_reg_slept.
  pose proof (read_u8_slept (SX127X_REG_RX_NB_BYTES h) d2) as H3.
  rewrite E3 in H3. cbn [snd] in H3. rewrite H3.
  pose proof (write_reg_slept (SX127X_REG_FIFO_ADDR_PTR h) [a] d1) as H2.
  rewrite E2 in H2. cbn [snd] in H2. rewrite H2.
  pose proof (read_u8_slept (SX127X_REG_FIFO_RX_CURRENT_ADDR h) d) as H1.
  rewrite E1 in H1. exact H1.
Qed.

(** A flag held by the register is seen by a read that asks for a set
    of flags it belongs to. *)
Lemma flag_seen (a e R F : Z) :
  Z.land R F = R ->
  Z.land (u8 a) R <> 0 ->
  u8 (Z.land (u8 (Z.lor a e)) F) <> 0.
Proof.
  intros HRF Hne H0. apply Hne.
  apply Z.bits_inj'. intros n Hn. rewrite Z.bits_0.
  assert (Hb : Z.testbit (u8 (Z.land (u8 (Z.lor a e)) F)) n = false)
    by (rewrite H0; apply Z.bits_0).
  assert (HR : Z.testbit R n = Z.testbit R n && Z.testbit F n).
  { rewrite <- Z.land_spec. now rewrite HRF. }
  rewrite !u8_land, !Z.land_spec, Z.lor_spec in Hb.
  rewrite u8_land, !Z.land_spec, HR.
  destruct (Z.testbit a n), (Z.testbit e n), (Z.testbit 255 n),
    (Z.testbit R n), (Z.testbit F n); simpl in *; congruence.
Qed.

End Sleepless.

(** X22: polling with [loraspi_ready2read].  With the lock held the
    answer is 0 and the chip is not touched.  With the lock free the
    function writes nothing, so an answer of 1 leaves RXDONE set in the
    flags register; a [loraspi_read] that follows while the chip is in
    RXContinuous (RXDONE being among the flags its loop asks for) then
    returns without a single sleep. *)
Theorem loraspi_ready2read_then_read
    (h : sx1278_h) (lrdata : lora_struct) (size : Z) (d : spi_device) :
  irq_ok h ->
  plain_reg h (SX127X_REG_OP_MODE h) ->
  Z.land (SX127X_FLAG_RXDONE h) (rx_flags h) = SX127X_FLAG_RXDONE h ->
  let irq := SX127X_REG_IRQ_FLAGS h in
  let d1 := snd (loraspi_ready2read h false d) in
  loraspi_ready2read h true d = (0, d)
  /\ writes (trace d1) = writes (trace d)
  /\ (fst (loraspi_ready2read h false d) = 1 ->
      Z.land (reg d1 irq) (SX127X_FLAG_RXDONE h) <> 0
      /\ (Z.land (reg d1 (SX127X_REG_OP_MODE h)) 0x07
          = SX127X_RXCONTINUOUS_MODE h ->
          slept (trace (snd (loraspi_read h lrdata size d1)))
          = slept (trace d1))).
Proof.
  intros Hi Hop HRF irq d1. subst irq.
  assert (Hrun : loraspi_ready2read h false d
                 = ((if negb (Z.land (irq_seen h d) (SX127X_FLAG_RXDONE h)
                              =? 0) then 1 else 0),
                    snd (sx127X_getLoRaFlag h (SX127X_FLAG_RXDONE h) d))).
  { unfold loraspi_ready2read. cbn [negb].
    rewrite (bind_run _ _ _ _ _
               (getLoRaFlag_run h (SX127X_FLAG_RXDONE h) d Hi)).
    now rewrite (getLoRaFlag_run h _ d Hi). }
  split; [reflexivity |].
  unfold d1. rewrite Hrun. cbn [fst snd]. clear d1.
  rewrite (getLoRaFlag_run h _ d Hi). cbn [snd].
  split; [reflexivity |].
  intros H1.
  assert (Hseen : Z.land (irq_seen h d) (SX127X_FLAG_RXDONE h) <> 0).
  { destruct (Z.eqb_spec (Z.land (irq_seen h d) (SX127X_FLAG_RXDONE h)) 0);
      [discriminate H1 | assumption]. }
  set (d1 := {| regs := upd (regs d) (SX127X_REG_IRQ_FLAGS h) (irq_seen h d);
                fifo := fifo d; irq_raise := tl (irq_raise d);
                trace := EvRead (SX127X_REG_IRQ_FLAGS h) 1 :: trace d |}).
  assert (Hreg : regs d1 (SX127X_REG_IRQ_FLAGS h) = irq_seen h d).
  { unfold d1. cbn [regs]. apply upd_same. }
  assert (Hsu : u8 (irq_seen h d) = irq_seen h d).
  { unfold irq_seen. apply u8_idem. }
  split.
  { unfold reg. rewrite Hreg, Hsu. exact Hseen. }
  intros Hmode.
  (* the preparation does nothing *)
  remember (loraspi_read h lrdata size d1) as res eqn:Hres.
  unfold loraspi_read in Hres.
  assert (Hprep : rx_prepare h d1
                  = (tt, snd (log (EvRead (SX127X_REG_OP_MODE h) 1) d1))).
  { unfold rx_prepare.
    rewrite (bind_run _ _ _ _ _ (getState_run h d1 Hop)).
    rewrite Hmode, Z.eqb_refl. reflexivity. }
  rewrite (bind_run _ _ _ _ _ Hprep) in Hres.
  set (d2 := snd (log (EvRead (SX127X_REG_OP_MODE h) 1) d1)) in Hres.
  (* the loop ends with its first round *)
  assert (Hwait : exists flag,
             rx_wait h 250 0 d2
             = (flag, snd (sx127X_getLoRaFlag h (rx_flags h) d2))).
  { change 250%nat with (S 249). cbn [rx_wait].
    rewrite (bind_run _ _ _ _ _ (getLoRaFlag_run h (rx_flags h) d2 Hi)).
    cbv zeta.
    assert (Hnz : u8 (Z.land (irq_seen h d2) (rx_flags h)) <> 0).
    { unfold irq_seen. change (regs d2) with (regs d1).
      apply (flag_seen _ _ (SX127X_FLAG_RXDONE h)); [exact HRF |].
      rewrite Hreg, Hsu. exact Hseen. }
    apply Z.eqb_neq in Hnz. rewrite Hnz. unfold ret.
    rewrite (getLoRaFlag_run h (rx_flags h) d2 Hi). cbn [snd].
    eexists. reflexivity. }
  destruct Hwait as (flag & Hwait).
  rewrite (bind_run _ _ _ _ _ Hwait) in Hres.
  set (d3 := snd (sx127X_getLoRaFlag h (rx_flags h) d2)) in Hres.
  assert (S3 : slept (trace d3) = slept (trace d1)).
  { unfold d3. rewrite getLoRaFlag_slept. reflexivity. }
  unfold bind at 1 in Hres.
  pose proof (getLoRaFlag_slept h (SX127X_FLAG_PAYLOADCRCERROR h) d3) as S4.
  destruct (sx127X_getLoRaFlag h (SX127X_FLAG_PAYLOADCRCERROR h) d3)
    as [crc d4].
  cbn [snd] in S4. cbv zeta in Hres.
  unfold bind at 1 in Hres.
  match type of Hres with
  | context [if ?c =? 0 then _ else _] => destruct (c =? 0)
  end.
  - unfold bind at 1 in Hres.
    match type of Hres with
    | context [sx127X_readLoRaData h ?sz d4] =>
        pose proof (readLoRaData_slept h sz d4) as S5;
        destruct (sx127X_readLoRaData h sz d4) as [r5 d5]
    end.
    cbn [snd] in S5. unfold ret at 1 in Hres. unfold bind, ret in Hres.
    pose proof (clearLoRaFlag_slept h 0xFF d5) as S6.
    unfold sx127X_clearLoRaAllFlag in Hres.
    destruct (sx127X_clearLoRaFlag h 0xFF d5) as [u6 d6].
    cbn [snd] in S6. subst res. cbn [snd]. congruence.
  - unfold ret at 1 in Hres. unfold bind, ret in Hres.
    pose proof (clearLoRaFlag_slept h 0xFF d4) as S6.
    unfold sx127X_clearLoRaAllFlag in Hres.
    destruct (sx127X_clearLoRaFlag h 0xFF d4) as [u6 d6].
    cbn [snd] in S6. subst res. cbn [snd]. congruence.
Qed.

Lemma loraspi_ready2read_then_read_witness :
  let h := sx1278_datasheet in
  let lrdata := {| rx_buf := []; tx_buf := []; tx_buflen := 0;
                   bufmaxlen := 16 |} in
  let d := quiet_chip (fun a => if a =? 0x12 then 0x40 else 0x85) in
  let d1 := snd (loraspi_ready2read h false d) in
  fst (loraspi_ready2read h false d) = 1
  /\ slept (trace (snd (loraspi_read h lrdata 8 d1))) = slept (trace d1).
Proof.
  split; [reflexivity |].
  refine (proj2 (proj2 (proj2 (loraspi_ready2read_then_read sx1278_datasheet
                   {| rx_buf := []; tx_buf := []; tx_buflen := 0;
                      bufmaxlen := 16 |} 8
                   (quiet_chip (fun a => if a =? 0x12 then 0x40 else 0x85))
                   _ _ _)) _) _);
    try (unfold irq_ok, plain_reg; simpl; lia);
    reflexivity.
Defined.
